(** * Gorilla Tag Fun: question engine and progress model

    A shallow embedding of [MathEngine.js], [ProgressManager.js] and
    [utils/validators.js], with the properties of the question engine and
    of the progress model stated over it.

    Conventions of the embedding.
    - JavaScript numbers that hold operands, answers, counters, scores and
      timestamps are integers and are modelled as [Z]; the accuracy
      percentage is a quotient and is modelled as an exact rational [Q].
    - [Math.random()] is an explicit argument: a rational [r] with
      [0 <= r < 1].  [Date.now()] is an explicit argument [now].
    - Strings are [string], sequences of 8-bit characters.  The functions
      modelled tell digits, signs, braces and white space from the other
      characters and treat all the others alike.
    - A thrown exception is [None] in an [option] result, or [Thrown]
      where the state reached before the exception matters.
    - Console output is not modelled. *)

From Stdlib Require Import ZArith QArith Qround Lqa String Ascii DecimalString DecimalPos List Lia.
From stdpp Require Import base gmap strings list.

Open Scope Z_scope.

(** ** JavaScript built-ins used by the sources *)

Module Js.

(** The values an answer can arrive as. *)
Inductive Value :=
  | VString (s : string)
  | VNumber (n : Z)
  | VNull
  | VUndefined.

(** [Number.prototype.toString()] on an integer: decimal digits, with a
    leading minus sign for negative numbers. *)
Definition toString (n : Z) : string :=
  NilEmpty.string_of_int (Z.to_int n).

(** [String(v)]. *)
Definition String_ (v : Value) : string :=
  match v with
  | VString s => s
  | VNumber n => toString n
  | VNull => "null"
  | VUndefined => "undefined"
  end.

(** The string without its first [n] characters ([s.slice(n)]). *)
Fixpoint skip (n : nat) (s : string) : string :=
  match n, s with
  | O, _ => s
  | S _, EmptyString => EmptyString
  | S n', String _ s' => skip n' s'
  end.

(** [s.replace(pat, rep)] with a string pattern: only the first occurrence
    of [pat] is replaced.  [rep] is inserted literally, which is what
    JavaScript does for a replacement without a dollar sign. *)
Fixpoint replace (pat rep s : string) : string :=
  if String.prefix pat s then rep +:+ skip (String.length pat) s
  else match s with
       | EmptyString => EmptyString
       | String c s' => String c (replace pat rep s')
       end.

(** Characters kept or dropped by a predicate: the model of
    [s.replace(/[...]/g, '')] for a one-character class. *)
Fixpoint keep (p : ascii -> bool) (s : string) : string :=
  match s with
  | EmptyString => EmptyString
  | String c s' => if p c then String c (keep p s') else keep p s'
  end.

(** Every character satisfies the predicate. *)
Fixpoint allChars (p : ascii -> bool) (s : string) : bool :=
  match s with
  | EmptyString => true
  | String c s' => p c && allChars p s'
  end.

Definition isDigit (c : ascii) : bool :=
  let n := N_of_ascii c in ((48 <=? n) && (n <=? 57))%N.

Definition isMinus (c : ascii) : bool := Ascii.eqb c "-"%char.

(** The characters left by [s.replace(/-/g, '')]. *)
Definition notMinus (c : ascii) : bool := negb (isMinus c).

(** The complement of the classes [[^0-9-]] and [[^\d-]]. *)
Definition isDigitOrMinus (c : ascii) : bool := isDigit c || isMinus c.

(** White space removed by [trim()]: space, tab, line feed, vertical tab,
    form feed, carriage return and no-break space. *)
Definition isSpace (c : ascii) : bool :=
  let n := N_of_ascii c in
  ((n =? 32) || (n =? 9) || (n =? 10) || (n =? 11) || (n =? 12) || (n =? 13)
   || (n =? 160))%N.

Fixpoint trimStart (s : string) : string :=
  match s with
  | EmptyString => EmptyString
  | String c s' => if isSpace c then trimStart s' else s
  end.

Fixpoint trimEnd (s : string) : string :=
  match s with
  | EmptyString => EmptyString
  | String c s' =>
      match trimEnd s' with
      | EmptyString => if isSpace c then EmptyString else String c EmptyString
      | r => String c r
      end
  end.

Definition trim (s : string) : string := trimEnd (trimStart s).

(** [s.indexOf(c)] for a one-character needle; [-1] when absent. *)
Fixpoint indexOf (c : ascii) (s : string) : Z :=
  match s with
  | EmptyString => -1
  | String d s' =>
      if Ascii.eqb d c then 0
      else let i := indexOf c s' in if i <? 0 then -1 else i + 1
  end.

(** Number of occurrences of a character; [s.split(c).length] is one more. *)
Fixpoint count (c : ascii) (s : string) : Z :=
  match s with
  | EmptyString => 0
  | String d s' => (if Ascii.eqb d c then 1 else 0) + count c s'
  end.

Definition splitLength (c : ascii) (s : string) : Z := count c s + 1.

Definition digitValue (c : ascii) : Z := Z.of_N (N_of_ascii c) - 48.

(** The longest run of decimal digits at the start of [s], read as a
    number; [None] when [s] does not start with a digit.  [seen] records
    that a digit has been read, [acc] the value read so far. *)
Fixpoint readDigits (acc : Z) (seen : bool) (s : string) : option Z :=
  match s with
  | String c s' =>
      if isDigit c then readDigits (10 * acc + digitValue c) true s'
      else if seen then Some acc else None
  | EmptyString => if seen then Some acc else None
  end.

(** [parseInt(s, 10)]: leading white space is skipped, one optional sign
    is read, then the longest prefix of digits; [None] is [NaN]. *)
Definition parseInt (s : string) : option Z :=
  match trimStart s with
  | String "-"%char s' => Z.opp <$> readDigits 0 false s'
  | String "+"%char s' => readDigits 0 false s'
  | s' => readDigits 0 false s'
  end.

(** [Number(s)] for a string of digits, signs and white space: the empty
    string is [0], an optionally signed run of digits is its value, and
    anything else is [NaN] ([None]).  Strings with other characters (a
    decimal point, an exponent, a radix prefix) are outside this model;
    the sanitizers never produce them. *)
Definition toNumber (s : string) : option Z :=
  match trim s with
  | EmptyString => Some 0
  | String "-"%char d =>
      if allChars isDigit d then Z.opp <$> readDigits 0 false d else None
  | String "+"%char d =>
      if allChars isDigit d then readDigits 0 false d else None
  | d => if allChars isDigit d then readDigits 0 false d else None
  end.

(** [s.toLowerCase()] on the letters A to Z. *)
Definition lowerChar (c : ascii) : ascii :=
  let n := N_of_ascii c in
  if ((65 <=? n) && (n <=? 90))%N then ascii_of_N (n + 32) else c.

Fixpoint toLowerCase (s : string) : string :=
  match s with
  | EmptyString => EmptyString
  | String c s' => String (lowerChar c) (toLowerCase s')
  end.

(** [Math.floor(Math.random() * n)] for the random number [r]. *)
Definition randomBelow (r : Q) (n : Z) : Z := Qfloor (r * inject_Z n).

(** A result of [Math.random()]. *)
Definition unitRandom (r : Q) : Prop := (0 <= r)%Q /\ (r < 1)%Q.

(** [arr.includes(x)] on an array of strings or of numbers. *)
Definition includes {A} `{EqDecision A} (arr : list A) (x : A) : bool :=
  bool_decide (x ∈ arr).

(** [arr[i]] for an integer index; [None] is [undefined]. *)
Definition index {A} (arr : list A) (i : Z) : option A :=
  if i <? 0 then None else arr !! Z.to_nat i.

End Js.

(** ** MathEngine.js *)

Module MathEngine.
Import Js.

(** A question template of the question bank. *)
Record Template := mkTemplate {
  tpl_id : string;
  tpl_type : string;
  tpl_operation : string;
  tpl_template : string;
  tpl_minValue : Z;
  tpl_maxValue : Z;
  tpl_visualHint : option bool;
  tpl_hintType : option string
}.

(** The object returned by [generateQuestion] and
    [generateFallbackQuestion]. *)
Record Question := mkQuestion {
  q_id : string;
  q_type : string;
  q_operation : string;
  q_questionText : string;
  q_answer : Z;
  q_visualHint : bool;
  q_hintType : option string;
  q_values : Z * Z;
  q_difficulty : string
}.

(** The fields set by the constructor. *)
Record Engine := mkEngine {
  questionBank : option (gmap string (list Template));
  currentDifficulty : string;
  recentQuestions : list string;
  maxRecentQuestions : Z;
  currentQuestion : option Question
}.

Definition constructor : Engine :=
  mkEngine None "easy" [] 3 None.

Definition getDefaultQuestionBank : gmap string (list Template) :=
  {[ "easy" :=
       [ mkTemplate "add_easy_001" "equation" "addition" "{a} + {b} = ?"
           0 10 (Some true) (Some "bananas");
         mkTemplate "add_easy_002" "word-problem" "addition"
           "The gorilla found {a} bananas. Then found {b} more. How many total?"
           0 10 (Some true) (Some "bananas");
         mkTemplate "sub_easy_001" "equation" "subtraction" "{a} - {b} = ?"
           0 10 (Some true) (Some "bananas");
         mkTemplate "sub_easy_002" "word-problem" "subtraction"
           "The gorilla had {a} bananas and ate {b}. How many are left?"
           0 10 (Some true) (Some "bananas") ];
     "medium" :=
       [ mkTemplate "add_medium_001" "equation" "addition" "{a} + {b} = ?"
           10 25 (Some false) None;
         mkTemplate "sub_medium_001" "equation" "subtraction" "{a} - {b} = ?"
           10 25 (Some false) None;
         mkTemplate "add_medium_002" "word-problem" "addition"
           "The gorilla swung past {a} vines and then {b} more. How many vines total?"
           10 25 (Some false) None ];
     "hard" :=
       [ mkTemplate "add_hard_001" "equation" "addition" "{a} + {b} = ?"
           25 50 (Some false) None;
         mkTemplate "sub_hard_001" "equation" "subtraction" "{a} - {b} = ?"
           25 50 (Some false) None;
         mkTemplate "add_hard_002" "word-problem" "addition"
           "The gorilla collected {a} bananas yesterday and {b} today. How many total?"
           25 50 (Some false) None ] ]}.

Definition initialize (questionData : option (gmap string (list Template)))
    (e : Engine) : Engine :=
  mkEngine
    (Some (match questionData with
           | Some d => d
           | None => getDefaultQuestionBank
           end))
    (currentDifficulty e) (recentQuestions e) (maxRecentQuestions e)
    (currentQuestion e).

Definition validLevels : list string := ["easy"; "medium"; "hard"].

(** [setDifficulty(level)]: an unknown level sets ['easy'] and returns
    before the list of recent questions is reset. *)
Definition setDifficulty (level : string) (e : Engine) : Engine :=
  if negb (includes validLevels level) then
    mkEngine (questionBank e) "easy" (recentQuestions e)
      (maxRecentQuestions e) (currentQuestion e)
  else
    mkEngine (questionBank e) level [] (maxRecentQuestions e)
      (currentQuestion e).

(** [Math.floor(Math.random() * (max - min + 1)) + min]. *)
Definition randomInt (min max : Z) (r : Q) : Z :=
  randomBelow r (max - min + 1) + min.

(** [array[Math.floor(Math.random() * array.length)]], [null] on an
    empty array; both [null] and [undefined] are [None]. *)
Definition getRandomElement {A} (array : list A) (r : Q) : option A :=
  match array with
  | [] => None
  | _ => index array (randomBelow r (Z.of_nat (length array)))
  end.

(** [generateQuestion(template)], for the random numbers [ra] and [rb]
    drawn for the two operands and the clock value [now]. *)
Definition generateQuestion (e : Engine) (now : Z) (ra rb : Q)
    (template : Template) : Question :=
  let a := randomInt (tpl_minValue template) (tpl_maxValue template) ra in
  let b := randomInt (tpl_minValue template) (tpl_maxValue template) rb in
  let answer :=
    if String.eqb (tpl_operation template) "addition" then a + b
    else if String.eqb (tpl_operation template) "subtraction" then
      Z.max a b - Z.min a b
    else a + b in
  let questionText :=
    replace "{b}" (toString b)
      (replace "{a}" (toString a) (tpl_template template)) in
  let questionText :=
    if String.eqb (tpl_operation template) "subtraction" then
      let larger := Z.max a b in
      let smaller := Z.min a b in
      replace "{b}" (toString smaller)
        (replace "{a}" (toString larger) (tpl_template template))
    else questionText in
  mkQuestion
    (tpl_id template +:+ "_" +:+ toString now)
    (tpl_type template)
    (tpl_operation template)
    questionText
    answer
    (match tpl_visualHint template with Some true => true | _ => false end)
    (match tpl_hintType template with
     | Some EmptyString => None
     | h => h
     end)
    (a, b)
    (currentDifficulty e).

Definition generateFallbackQuestion (now : Z) (ra rb : Q) : Question :=
  let a := randomInt 1 10 ra in
  let b := randomInt 1 10 rb in
  let answer := a + b in
  mkQuestion
    ("fallback_" +:+ toString now)
    "equation" "addition"
    (toString a +:+ " + " +:+ toString b +:+ " = ?")
    answer false None (a, b) "easy".

(** [addToRecentQuestions(questionId)]: push, then drop the oldest entry
    when the list is longer than [maxRecentQuestions]. *)
Definition addToRecentQuestions (questionId : string) (e : Engine) : Engine :=
  let pushed := recentQuestions e ++ [questionId] in
  mkEngine (questionBank e) (currentDifficulty e)
    (if maxRecentQuestions e <? Z.of_nat (length pushed)
     then tail pushed else pushed)
    (maxRecentQuestions e) (currentQuestion e).

Definition setCurrentQuestion (q : Question) (e : Engine) : Engine :=
  mkEngine (questionBank e) (currentDifficulty e) (recentQuestions e)
    (maxRecentQuestions e) (Some q).

(** The first step of [getNextQuestion]: a missing bank is replaced by
    the default one. *)
Definition ensureBank (e : Engine) : Engine :=
  match questionBank e with
  | Some _ => e
  | None =>
      mkEngine (Some getDefaultQuestionBank) (currentDifficulty e)
        (recentQuestions e) (maxRecentQuestions e) (currentQuestion e)
  end.

(** The pool of the current difficulty, [None] when it is missing or
    empty. *)
Definition currentPool (e : Engine) : option (list Template) :=
  match questionBank (ensureBank e) with
  | None => None
  | Some bank =>
      match bank !! currentDifficulty e with
      | None | Some [] => None
      | Some pool => Some pool
      end
  end.

(** The templates [getNextQuestion] chooses from: those of the pool whose
    id is not a recent one, or the whole pool when none is left. *)
Definition questionPool (e : Engine) (pool : list Template) : list Template :=
  let available :=
    List.filter (fun t => negb (includes (recentQuestions e) (tpl_id t))) pool in
  if 0 <? Z.of_nat (length available) then available else pool.

(** The template chosen by [getNextQuestion] for the random number [rt];
    [None] on the fallback path and when the choice is [undefined]. *)
Definition chosenTemplate (rt : Q) (e : Engine) : option Template :=
  pool ← currentPool e; getRandomElement (questionPool e pool) rt.

(** [getNextQuestion()], for the random numbers [rt] (choice of the
    template), [ra] and [rb] (operands).  The result is the returned
    question and the engine after the call; [None] is the [TypeError]
    raised by [generateQuestion] on an [undefined] template. *)
Definition getNextQuestion (now : Z) (rt ra rb : Q) (e : Engine)
    : option (Question * Engine) :=
  let e := ensureBank e in
  match currentPool e with
  | None => Some (generateFallbackQuestion now ra rb, e)
  | Some pool =>
      match getRandomElement (questionPool e pool) rt with
      | None => None
      | Some template =>
          let question := generateQuestion e now ra rb template in
          let e := addToRecentQuestions (tpl_id template) e in
          Some (question, setCurrentQuestion question e)
      end
  end.

(** [sanitizeInput(input)] of the engine: a number is printed; a string
    is trimmed and loses every character that is neither a digit nor a
    minus sign.  [input.toString()] throws on [null] and [undefined]. *)
Definition sanitizeInput (input : Value) : option string :=
  match input with
  | VNumber n => Some (toString n)
  | VString s => Some (keep isDigitOrMinus (trim s))
  | VNull | VUndefined => None
  end.

(** The result object of [validateAnswer]; [vr_close], [vr_userAnswer]
    and [vr_correctAnswer] are absent from the two failure results. *)
Record ValidationResult := mkValidation {
  vr_valid : bool;
  vr_correct : bool;
  vr_close : option bool;
  vr_userAnswer : option Z;
  vr_correctAnswer : option Z;
  vr_message : string
}.

Definition correctMessages : list string :=
  ["Great job!"; "You're a math whiz!"; "Perfect!"; "Awesome!";
   "Super smart!"; "You got it!"; "Excellent work!"; "Banana-tastic!"].

Definition closeMessages : list string :=
  ["Almost there!"; "So close!"; "Try again!"; "You can do it!";
   "Give it another try!"; "Nearly got it!"].

Definition farMessages : list string :=
  ["Not quite, try again!"; "Let's think about this!";
   "Give it another shot!"; "Keep trying!"; "You're learning!"].

Definition getCorrectMessage (r : Q) : string :=
  default "" (getRandomElement correctMessages r).

Definition getIncorrectMessage (isClose : bool) (r : Q) : string :=
  if isClose then default "" (getRandomElement closeMessages r)
  else default "" (getRandomElement farMessages r).

(** The answer to compare with: the given one, or that of the current
    question; [None] is [null]. *)
Definition expectedAnswer (correctAnswer : option Z) (e : Engine) : option Z :=
  match correctAnswer with
  | Some c => Some c
  | None => q_answer <$> currentQuestion e
  end.

(** [validateAnswer(userInput, correctAnswer = null)]; [r] is the random
    number that picks the message, and [None] is the [TypeError] of
    [sanitizeInput].  On the result of [parseInt], [isValidNumber]
    rejects [NaN] and nothing else. *)
Definition validateAnswer (r : Q) (userInput : Value)
    (correctAnswer : option Z) (e : Engine) : option ValidationResult :=
  match expectedAnswer correctAnswer e with
  | None =>
      Some (mkValidation false false None None None
              "No question to validate against")
  | Some expected =>
      cleaned ← sanitizeInput userInput;
      match parseInt cleaned with
      | None =>
          Some (mkValidation false false None None None
                  "Please enter a valid number")
      | Some userAnswer =>
          let isCorrect := userAnswer =? expected in
          let isClose := Z.abs (userAnswer - expected) <=? 2 in
          Some (mkValidation true isCorrect (Some (negb isCorrect && isClose))
                  (Some userAnswer) (Some expected)
                  (if isCorrect then getCorrectMessage r
                   else getIncorrectMessage isClose r))
      end
  end.

Definition reset (e : Engine) : Engine :=
  mkEngine (questionBank e) (currentDifficulty e) [] (maxRecentQuestions e)
    None.

(** The random numbers and the clock value of one call of
    [getNextQuestion]. *)
Record Draw := mkDraw {
  d_now : Z;
  d_template : Q;
  d_a : Q;
  d_b : Q
}.

Definition validDraw (d : Draw) : Prop :=
  unitRandom (d_template d) /\ unitRandom (d_a d) /\ unitRandom (d_b d).

(** Consecutive calls of [getNextQuestion]: the questions returned, each
    with the id of the template it was generated from (["fallback"] on
    the fallback path).  The list ends where a call throws. *)
Fixpoint draw (ds : list Draw) (e : Engine) : list (string * Question) :=
  match ds with
  | [] => []
  | d :: ds' =>
      match getNextQuestion (d_now d) (d_template d) (d_a d) (d_b d) e with
      | None => []
      | Some (q, e') =>
          (default "fallback" (tpl_id <$> chosenTemplate (d_template d) e), q)
          :: draw ds' e'
      end
  end.

(** The list of recent questions after one more id, for the bound 3 set
    by the constructor. *)
Definition pushed (recent : list string) (x : string) : list string :=
  if 3 <? Z.of_nat (length (recent ++ [x])) then tail (recent ++ [x])
  else recent ++ [x].

(** The list of recent questions as the constructor and
    [addToRecentQuestions] keep it: at most three entries. *)
Definition windowBounded (e : Engine) : Prop :=
  maxRecentQuestions e = 3 /\ (length (recentQuestions e) <= 3)%nat.

(** The state in which a run of draws from [pool] starts and stays. *)
Definition drawing (pool : list Template) (e : Engine) : Prop :=
  windowBounded e /\ currentPool e = Some pool.

(** The engines reached from the constructor through the methods. *)
Inductive reachable : Engine -> Prop :=
  | reach_constructor : reachable constructor
  | reach_initialize d e : reachable e -> reachable (initialize d e)
  | reach_setDifficulty level e :
      reachable e -> reachable (setDifficulty level e)
  | reach_getNextQuestion now rt ra rb e q e' :
      reachable e -> getNextQuestion now rt ra rb e = Some (q, e') ->
      reachable e'
  | reach_reset e : reachable e -> reachable (reset e).

End MathEngine.

(** ** utils/validators.js *)

Module Validators.
Import Js.

(** [isValidNumber(input)]. *)
Definition isValidNumber (input : Value) : bool :=
  match input with
  | VNull | VUndefined => false
  | VNumber _ => true
  | VString s =>
      if String.eqb s "" then false
      else
        let str := trim s in
        if String.eqb str "" then false
        else match toNumber str with Some _ => true | None => false end
  end.

(** [sanitizeInput(input)]. *)
Definition sanitizeInput (input : Value) : string :=
  match input with
  | VNull | VUndefined => ""
  | _ =>
      let cleaned := trim (String_ input) in
      let cleaned := keep isDigitOrMinus cleaned in
      let cleaned :=
        if 0 <? indexOf "-" cleaned then keep notMinus cleaned
        else cleaned in
      let cleaned :=
        if 2 <? splitLength "-" cleaned
        then "-" +:+ keep notMinus cleaned
        else cleaned in
      cleaned
  end.

(** The result object of [validateAnswer]; [va_close] is absent from the
    failure result. *)
Record AnswerResult := mkAnswer {
  va_valid : bool;
  va_correct : bool;
  va_close : option bool;
  va_value : option Z;
  va_message : string
}.

(** [validateAnswer(input, expected)].  In [va_value], [None] is [null]
    in the failure result and [NaN] in the other one; every comparison
    with [NaN] is false. *)
Definition validateAnswer (input : Value) (expected : Z) : AnswerResult :=
  let cleaned := sanitizeInput input in
  if negb (isValidNumber (VString cleaned)) then
    mkAnswer false false None None "Please enter a number"
  else
    match parseInt cleaned with
    | None =>
        mkAnswer true false (Some false) None "Not quite, try again!"
    | Some userAnswer =>
        let isCorrect := userAnswer =? expected in
        let isClose := Z.abs (userAnswer - expected) <=? 2 in
        mkAnswer true isCorrect (Some (negb isCorrect && isClose))
          (Some userAnswer)
          (if isCorrect then "Correct!" else "Not quite, try again!")
    end.

(** [isAnswerClose(userAnswer, correctAnswer, threshold = 2)] on numbers. *)
Definition isAnswerClose (userAnswer correctAnswer threshold : Z) : bool :=
  let diff := Z.abs (userAnswer - correctAnswer) in
  (0 <? diff) && (diff <=? threshold).

End Validators.

(** ** ProgressManager.js *)

Module ProgressManager.
Import Js.

Record SessionData := mkSession {
  difficulty : string;
  currentQuestion : Z;
  totalQuestions : Z;
  score : Z;
  correctAnswers : Z;
  incorrectAnswers : Z;
  totalAnswers : Z;
  bananasCollected : Z;
  startTime : Z;
  elapsedTime : Z;
  starsEarned : Z
}.

Record Preferences := mkPreferences {
  soundEnabled : bool;
  musicEnabled : bool
}.

Record PersistentData := mkPersistent {
  playerId : string;
  createdAt : Z;
  lastPlayed : Z;
  totalSessions : Z;
  totalBananas : Z;
  totalStars : Z;
  levelsCompleted : gmap string (list Z);
  highScores : gmap string Z;
  preferences : Preferences
}.

(** The two objects a manager holds; [storageKey] is a constant. *)
Record Manager := mkManager {
  sessionData : SessionData;
  persistentData : PersistentData
}.

Definition storageKey : string := "gorilla-math-progress".

(** [localStorage]: its entries, and whether reading and writing throw
    (storage disabled, quota exceeded). *)
Record Storage := mkStorage {
  items : gmap string string;
  readThrows : bool;
  writeThrows : bool
}.

(** [localStorage.getItem(key)]; the outer [None] is an exception, the
    inner one [null]. *)
Definition getItem (key : string) (st : Storage) : option (option string) :=
  if readThrows st then None else Some (items st !! key).

Definition setItem (key value : string) (st : Storage) : option Storage :=
  if writeThrows st then None
  else Some (mkStorage (<[key := value]> (items st)) (readThrows st)
               (writeThrows st)).

Definition removeItem (key : string) (st : Storage) : option Storage :=
  if writeThrows st then None
  else Some (mkStorage (delete key (items st)) (readThrows st)
               (writeThrows st)).

(** Parsed JSON. *)
#[warnings="-register-all"]
Inductive Json :=
  | JNull
  | JBool (b : bool)
  | JNumber (n : Z)
  | JString (s : string)
  | JArray (l : list Json)
  | JObject (fields : list (string * Json)).

(** [o[key]] on parsed JSON: the last field of that name of an object,
    [undefined] ([None]) otherwise. *)
Definition field (key : string) (j : Json) : option Json :=
  match j with
  | JObject fields =>
      snd <$> List.find (fun kv => String.eqb (fst kv) key) (rev fields)
  | _ => None
  end.

Definition truthy (j : Json) : bool :=
  match j with
  | JNull => false
  | JBool b => b
  | JNumber n => negb (n =? 0)
  | JString s => negb (String.eqb s "")
  | JArray _ | JObject _ => true
  end.

Definition getDefaultSessionData (now : Z) : SessionData :=
  mkSession "easy" 0 5 0 0 0 0 0 now 0 0.

(** [generatePlayerId()]; [suffix] is the base-36 rendering of a random
    number. *)
Definition generatePlayerId (now : Z) (suffix : string) : string :=
  "player_" +:+ toString now +:+ "_" +:+ suffix.

Definition getDefaultPersistentData (now : Z) (suffix : string)
    : PersistentData :=
  mkPersistent (generatePlayerId now suffix) now now 0 0 0
    {[ "easy" := []; "medium" := []; "hard" := [] ]}
    {[ "easy" := 0; "medium" := 0; "hard" := 0 ]}
    (mkPreferences true true).

Definition constructor (now : Z) (suffix : string) : Manager :=
  mkManager (getDefaultSessionData now) (getDefaultPersistentData now suffix).

Definition withSession (f : SessionData -> SessionData) (m : Manager)
    : Manager :=
  mkManager (f (sessionData m)) (persistentData m).

Definition withPersistent (f : PersistentData -> PersistentData)
    (m : Manager) : Manager :=
  mkManager (sessionData m) (f (persistentData m)).

Definition startSession (now : Z) (difficulty' : string)
    (totalQuestions' : Z) (m : Manager) : Manager :=
  let d := getDefaultSessionData now in
  mkManager
    (mkSession difficulty' (currentQuestion d) totalQuestions' (score d)
       (correctAnswers d) (incorrectAnswers d) (totalAnswers d)
       (bananasCollected d) now (elapsedTime d) (starsEarned d))
    (persistentData m).

Definition incrementScore (points : Z) (m : Manager) : Manager :=
  if points <? 0 then m
  else withSession (fun s =>
         mkSession (difficulty s) (currentQuestion s) (totalQuestions s)
           (score s + points) (correctAnswers s) (incorrectAnswers s)
           (totalAnswers s) (bananasCollected s) (startTime s)
           (elapsedTime s) (starsEarned s)) m.

Definition recordAnswer (isCorrect : bool) (m : Manager) : Manager :=
  withSession (fun s =>
    mkSession (difficulty s) (currentQuestion s) (totalQuestions s) (score s)
      (if isCorrect then correctAnswers s + 1 else correctAnswers s)
      (if isCorrect then incorrectAnswers s else incorrectAnswers s + 1)
      (totalAnswers s + 1) (bananasCollected s) (startTime s)
      (elapsedTime s) (starsEarned s)) m.

Definition addBananas (count : Z) (m : Manager) : Manager :=
  if count <? 0 then m
  else withSession (fun s =>
         mkSession (difficulty s) (currentQuestion s) (totalQuestions s)
           (score s) (correctAnswers s) (incorrectAnswers s)
           (totalAnswers s) (bananasCollected s + count) (startTime s)
           (elapsedTime s) (starsEarned s)) m.

Definition nextQuestion (m : Manager) : Manager :=
  withSession (fun s =>
    mkSession (difficulty s) (currentQuestion s + 1) (totalQuestions s)
      (score s) (correctAnswers s) (incorrectAnswers s) (totalAnswers s)
      (bananasCollected s) (startTime s) (elapsedTime s) (starsEarned s)) m.

(** [calculateAccuracy()]; the quotient is exact. *)
Definition calculateAccuracy (m : Manager) : Q :=
  let s := sessionData m in
  if totalAnswers s =? 0 then 0%Q
  else (inject_Z (correctAnswers s) / inject_Z (totalAnswers s) * 100)%Q.

Definition calculateStars (m : Manager) : Z :=
  let accuracy := calculateAccuracy m in
  if Qle_bool 95 accuracy then 3
  else if Qle_bool 80 accuracy then 2
  else if Qle_bool 60 accuracy then 1
  else 0.

Definition updateElapsedTime (now : Z) (m : Manager) : Manager :=
  withSession (fun s =>
    mkSession (difficulty s) (currentQuestion s) (totalQuestions s) (score s)
      (correctAnswers s) (incorrectAnswers s) (totalAnswers s)
      (bananasCollected s) (startTime s) (now - startTime s)
      (starsEarned s)) m.

Definition setStarsEarned (stars : Z) (m : Manager) : Manager :=
  withSession (fun s =>
    mkSession (difficulty s) (currentQuestion s) (totalQuestions s) (score s)
      (correctAnswers s) (incorrectAnswers s) (totalAnswers s)
      (bananasCollected s) (startTime s) (elapsedTime s) stars) m.

Definition setHighScores (h : gmap string Z) (p : PersistentData)
    : PersistentData :=
  mkPersistent (playerId p) (createdAt p) (lastPlayed p) (totalSessions p)
    (totalBananas p) (totalStars p) (levelsCompleted p) h (preferences p).

Definition setLevelsCompleted (l : gmap string (list Z)) (p : PersistentData)
    : PersistentData :=
  mkPersistent (playerId p) (createdAt p) (lastPlayed p) (totalSessions p)
    (totalBananas p) (totalStars p) l (highScores p) (preferences p).

Definition setPreferences (q : Preferences) (p : PersistentData)
    : PersistentData :=
  mkPersistent (playerId p) (createdAt p) (lastPlayed p) (totalSessions p)
    (totalBananas p) (totalStars p) (levelsCompleted p) (highScores p) q.

(** The four updates at the start of [completeSession]. *)
Definition addSessionTotals (now stars : Z) (s : SessionData)
    (p : PersistentData) : PersistentData :=
  mkPersistent (playerId p) (createdAt p) now (totalSessions p + 1)
    (totalBananas p + bananasCollected s) (totalStars p + stars)
    (levelsCompleted p) (highScores p) (preferences p).

(** [getHighScore(difficulty)]: [highScores[difficulty] || 0]. *)
Definition getHighScore (difficulty' : string) (m : Manager) : Z :=
  default 0 (highScores (persistentData m) !! difficulty').

Definition getCompletedLevels (difficulty' : string) (m : Manager) : list Z :=
  default [] (levelsCompleted (persistentData m) !! difficulty').

(** The object written by [saveProgress]. *)
Record LastSession := mkLastSession {
  ls_difficulty : string;
  ls_score : Z;
  ls_stars : Z;
  ls_bananas : Z;
  ls_timestamp : Z
}.

Record SavedData := mkSaved {
  sv_persistent : PersistentData;
  sv_lastSession : LastSession
}.

(** The object returned by [completeSession]. *)
Record Results := mkResults {
  r_score : Z;
  r_accuracy : Q;
  r_stars : Z;
  r_bananas : Z;
  r_correctAnswers : Z;
  r_totalAnswers : Z;
  r_elapsedTime : Z
}.

(** A call either returns or throws; the objects it has changed before
    throwing stay changed. *)
Inductive Outcome (A : Type) :=
  | Returned (a : A)
  | Thrown.
Arguments Returned {A} a.
Arguments Thrown {A}.

Section Platform.

(** [JSON.parse] ([None] is a [SyntaxError]) and [JSON.stringify] are the
    platform's.  So is the object spread [{...defaults, ...stored}] of
    [loadProgress] and [importProgress]: the stored object can hold
    values of any type under any name, and nothing below depends on what
    the spread makes of them. *)
Variable JSON_parse : string -> option Json.
Variable JSON_stringify : SavedData -> string.
Variable spreadPersistent : PersistentData -> Json -> PersistentData.

Definition saveProgress (now : Z) (m : Manager) (st : Storage)
    : bool * Storage :=
  let s := sessionData m in
  let data :=
    mkSaved (persistentData m)
      (mkLastSession (difficulty s) (score s) (starsEarned s)
         (bananasCollected s) now) in
  match setItem storageKey (JSON_stringify data) st with
  | Some st' => (true, st')
  | None => (false, st)
  end.

(** [loadProgress()].  Every exception of the [try] block ends in
    [return false]: a throwing [getItem], a [SyntaxError] of
    [JSON.parse], and the [TypeError] of [data.persistent] when the
    stored text is [null]. *)
Definition loadProgress (now : Z) (suffix : string) (m : Manager)
    (st : Storage) : bool * Manager :=
  match getItem storageKey st with
  | None => (false, m)
  | Some None => (false, m)
  | Some (Some saved) =>
      if String.eqb saved "" then (false, m)
      else
        match JSON_parse saved with
        | None => (false, m)
        | Some JNull => (false, m)
        | Some data =>
            match field "persistent" data with
            | Some stored =>
                if truthy stored then
                  (true,
                   withPersistent (fun _ =>
                     spreadPersistent (getDefaultPersistentData now suffix)
                       stored) m)
                else (true, m)
            | None => (true, m)
            end
        end
  end.

Definition initialize (now : Z) (suffix : string) (m : Manager)
    (st : Storage) : Manager :=
  snd (loadProgress now suffix m st).

(** [completeSession()].  [levelsCompleted[difficulty].length] throws
    when the difficulty of the session has no list of levels. *)
Definition completeSession (now : Z) (m : Manager) (st : Storage)
    : Outcome Results * Manager * Storage :=
  let m := updateElapsedTime now m in
  let stars := calculateStars m in
  let m := setStarsEarned stars m in
  let m := withPersistent (addSessionTotals now stars (sessionData m)) m in
  let difficulty' := difficulty (sessionData m) in
  let m :=
    if match highScores (persistentData m) !! difficulty' with
       | Some h => h <? score (sessionData m)
       | None => false
       end
    then withPersistent (fun p =>
           setHighScores (<[difficulty' := score (sessionData m)]> (highScores p)) p) m
    else m in
  match levelsCompleted (persistentData m) !! difficulty' with
  | None => (Thrown, m, st)
  | Some levels =>
      let levelNumber := Z.of_nat (length levels) + 1 in
      let m :=
        if negb (includes levels levelNumber)
        then withPersistent (fun p =>
               setLevelsCompleted
                 (<[difficulty' := levels ++ [levelNumber]]> (levelsCompleted p)) p) m
        else m in
      let st := snd (saveProgress now m st) in
      let s := sessionData m in
      (Returned
         (mkResults (score s) (calculateAccuracy m) stars (bananasCollected s)
            (correctAnswers s) (totalAnswers s) (elapsedTime s)),
       m, st)
  end.

Definition resetSession (now : Z) (m : Manager) : Manager :=
  withSession (fun _ => getDefaultSessionData now) m.

Definition resetAllProgress (now : Z) (suffix : string) (m : Manager)
    (st : Storage) : Manager * Storage :=
  let m := constructor now suffix in
  match removeItem storageKey st with
  | Some st' => (m, st')
  | None => (m, st)
  end.

(** [updatePreferences(preferences)]; [update] is the spread of the given
    object over the current preferences. *)
Definition updatePreferences (now : Z) (update : Preferences -> Preferences)
    (m : Manager) (st : Storage) : Manager * Storage :=
  let m := withPersistent (fun p => setPreferences (update (preferences p)) p) m in
  (m, snd (saveProgress now m st)).

(** [importProgress(data)]; [data.persistent] throws on [null], and the
    exception is caught. *)
Definition importProgress (now : Z) (suffix : string) (data : Json)
    (m : Manager) (st : Storage) : bool * Manager * Storage :=
  match data with
  | JNull => (false, m, st)
  | _ =>
      let m :=
        match field "persistent" data with
        | Some stored =>
            if truthy stored then
              withPersistent (fun _ =>
                spreadPersistent (getDefaultPersistentData now suffix) stored) m
            else m
        | None => m
        end in
      (true, m, snd (saveProgress now m st))
  end.

(** A call of an operation that changes the manager or the storage. *)
Inductive Call :=
  | CallInitialize (now : Z) (suffix : string)
  | CallStartSession (now : Z) (difficulty' : string) (totalQuestions' : Z)
  | CallIncrementScore (points : Z)
  | CallRecordAnswer (isCorrect : bool)
  | CallAddBananas (count : Z)
  | CallNextQuestion
  | CallUpdateElapsedTime (now : Z)
  | CallCompleteSession (now : Z)
  | CallSaveProgress (now : Z)
  | CallLoadProgress (now : Z) (suffix : string)
  | CallResetSession (now : Z)
  | CallResetAllProgress (now : Z) (suffix : string)
  | CallUpdatePreferences (now : Z) (update : Preferences -> Preferences)
  | CallImportProgress (now : Z) (suffix : string) (data : Json).

(** The manager and the storage after one call. *)
Definition exec (c : Call) (ms : Manager * Storage) : Manager * Storage :=
  let '(m, st) := ms in
  match c with
  | CallInitialize now suffix => (initialize now suffix m st, st)
  | CallStartSession now d n => (startSession now d n m, st)
  | CallIncrementScore points => (incrementScore points m, st)
  | CallRecordAnswer isCorrect => (recordAnswer isCorrect m, st)
  | CallAddBananas count => (addBananas count m, st)
  | CallNextQuestion => (nextQuestion m, st)
  | CallUpdateElapsedTime now => (updateElapsedTime now m, st)
  | CallCompleteSession now =>
      let '(_, m', st') := completeSession now m st in (m', st')
  | CallSaveProgress now => (m, snd (saveProgress now m st))
  | CallLoadProgress now suffix => (snd (loadProgress now suffix m st), st)
  | CallResetSession now => (resetSession now m, st)
  | CallResetAllProgress now suffix => resetAllProgress now suffix m st
  | CallUpdatePreferences now update => updatePreferences now update m st
  | CallImportProgress now suffix data =>
      let '(_, m', st') := importProgress now suffix data m st in (m', st')
  end.

(** The manager and the storage after a sequence of calls. *)
Definition run (cs : list Call) (ms : Manager * Storage) : Manager * Storage :=
  fold_left (fun ms c => exec c ms) cs ms.

(** The calls that replace the persistent record by a loaded, an imported
    or a default one. *)
Definition replacesPersistent (c : Call) : bool :=
  match c with
  | CallInitialize _ _ | CallLoadProgress _ _ | CallResetAllProgress _ _
  | CallImportProgress _ _ _ => true
  | _ => false
  end.

End Platform.

(** The three answer counters of the session. *)
Definition counters (m : Manager) : Z * Z * Z :=
  let s := sessionData m in
  (totalAnswers s, correctAnswers s, incorrectAnswers s).

Definition countersConsistent (m : Manager) : Prop :=
  let s := sessionData m in
  totalAnswers s = correctAnswers s + incorrectAnswers s.

(** The calls that put a default session in place. *)
Definition startsFresh (c : Call) : bool :=
  match c with
  | CallStartSession _ _ _ | CallResetSession _ | CallResetAllProgress _ _ =>
      true
  | _ => false
  end.

Definition isRecordAnswer (c : Call) : bool :=
  match c with
  | CallRecordAnswer _ => true
  | _ => false
  end.

Definition emptyStorage : Storage := mkStorage ∅ false false.

End ProgressManager.

(** ** Further built-ins *)

Module JsText.
Import Js.

(** [s.slice(0, -1)]: the string without its last character. *)
Fixpoint dropLast (s : string) : string :=
  match s with
  | EmptyString => EmptyString
  | String c EmptyString => EmptyString
  | String c s' => String c (dropLast s')
  end.

(** [s.substring(0, n)] for a natural number [n]. *)
Fixpoint take (n : nat) (s : string) : string :=
  match n, s with
  | O, _ => EmptyString
  | S _, EmptyString => EmptyString
  | S n', String c s' => String c (take n' s')
  end.

(** [s.length]. *)
Definition len (s : string) : Z := Z.of_nat (String.length s).

(** The class [[a-zA-Z]]. *)
Definition isLetter (c : ascii) : bool :=
  let n := N_of_ascii c in
  (((65 <=? n) && (n <=? 90)) || ((97 <=? n) && (n <=? 122)))%N.

(** The class [[a-zA-Z0-9\s]]. *)
Definition isNameChar (c : ascii) : bool :=
  isLetter c || isDigit c || isSpace c.

(** [/^[0-9]$/.test(s)]: exactly one digit. *)
Definition isOneDigit (s : string) : bool :=
  match s with
  | String c EmptyString => isDigit c
  | _ => false
  end.

End JsText.

(** ** More of utils/validators.js *)

Module ValidatorsMore.
Import Js JsText.

(** [isValidDifficulty(difficulty)].  [toLowerCase] changes the letters A
    to Z; the lower-case form of any other character is no letter of a
    tier name, so the result is that of the source. *)
Definition isValidDifficulty (difficulty : Value) : bool :=
  let validLevels := ["easy"; "medium"; "hard"] in
  includes validLevels (toLowerCase (String_ difficulty)).

(** The result object of [validatePlayerName]. *)
Record NameResult := mkName {
  nr_valid : bool;
  nr_message : string
}.

(** [validatePlayerName(name)]. *)
Definition validatePlayerName (name : Value) : NameResult :=
  match name with
  | VString s =>
      if String.eqb s "" then mkName false "Name is required"
      else
        let trimmed := trim s in
        if len trimmed =? 0 then mkName false "Name cannot be empty"
        else if len trimmed <? 2 then
          mkName false "Name must be at least 2 characters"
        else if 20 <? len trimmed then
          mkName false "Name must be 20 characters or less"
        else if negb (allChars isNameChar trimmed) then
          mkName false "Name can only contain letters, numbers, and spaces"
        else mkName true "Valid name"
  | _ => mkName false "Name is required"
  end.

(** [isValidQuestion(question)] on an object made by the engine: it is an
    object, the five required properties are its own, and its answer is
    a number, so the type and the operation decide. *)
Definition isValidQuestion (question : MathEngine.Question) : bool :=
  let validTypes := ["equation"; "word-problem"; "visual"] in
  let validOperations := ["addition"; "subtraction"] in
  if negb (Validators.isValidNumber (VNumber (MathEngine.q_answer question)))
  then false
  else if negb (includes validTypes (MathEngine.q_type question)) then false
  else if negb (includes validOperations (MathEngine.q_operation question))
  then false
  else true.

End ValidatorsMore.

(** ** InputManager.js *)

Module InputManager.
Import Js JsText.

(** The fields of the input manager that its handlers read and write. *)
Record Input := mkInput {
  inputEnabled : bool;
  currentInput : string;
  maxInputLength : Z
}.

Definition constructor : Input := mkInput false "" 3.

Definition setCurrentInput (s : string) (im : Input) : Input :=
  mkInput (inputEnabled im) s (maxInputLength im).

(** [handleNumberKey(digit)]. *)
Definition handleNumberKey (digit : string) (im : Input) : Input :=
  if negb (inputEnabled im) then im
  else if negb (isOneDigit digit) then im
  else if maxInputLength im <=? len (currentInput im) then im
  else setCurrentInput (currentInput im +:+ digit) im.

(** [handleBackspace()]. *)
Definition handleBackspace (im : Input) : Input :=
  if negb (inputEnabled im) then im
  else if len (currentInput im) =? 0 then im
  else setCurrentInput (dropLast (currentInput im)) im.



Definition enableInput (im : Input) : Input :=
  mkInput true (currentInput im) (maxInputLength im).

Definition disableInput (im : Input) : Input :=
  mkInput false (currentInput im) (maxInputLength im).

Definition clearInput (im : Input) : Input := setCurrentInput "" im.

(** [sanitizeInput(input)] of the input manager: digits only. *)
Definition sanitizeInput (input : string) : string := keep isDigit input.

(** [setInput(value)] on a string. *)
Definition setInput (value : string) (im : Input) : Input :=
  let sanitized := sanitizeInput value in
  if maxInputLength im <? len sanitized then
    setCurrentInput (take (Z.to_nat (maxInputLength im)) sanitized) im
  else setCurrentInput sanitized im.


(** [reset()]. *)
Definition reset (im : Input) : Input := mkInput false "" (maxInputLength im).

(** What reaches the input manager: keys, clicks and calls. *)
Inductive Event :=
  | NumberKey (digit : string)
  | Backspace
  | Clear
  | Enable
  | Disable
  | ClearInput
  | SetInput (value : string)
  | SetMaxInputLength (length : Z)
  | Reset.



(** [isValidInput(input = this.currentInput)]. *)
Definition isValidInput (input : string) : bool :=
  if len input =? 0 then false
  else match parseInt input with Some _ => true | None => false end.

(** [getInputAsNumber()]; [None] is [null]. *)
Definition getInputAsNumber (im : Input) : option Z :=
  if negb (isValidInput (currentInput im)) then None
  else parseInt (currentInput im).


End InputManager.

(** ** NumberPad.js *)

Module NumberPad.
Import Js JsText.

(** The text typed on the pad. *)
Definition constructor : string := "".

(** [onNumberPress(number)]. *)
Definition onNumberPress (number : Z) (currentInput : string) : string :=
  if 3 <=? len currentInput then currentInput
  else
    let currentInput :=
      if String.eqb currentInput "0" then "" else currentInput in
    currentInput +:+ toString number.

(** [onBackspace()]. *)
Definition onBackspace (currentInput : string) : string :=
  let currentInput :=
    if 0 <? len currentInput then dropLast currentInput else currentInput in
  if String.eqb currentInput "" then "0" else currentInput.

(** [clear()]. *)
Definition clear (currentInput : string) : string := "0".

(** [onSubmit()]: the string emitted and handed to the callback, [None]
    when the press is ignored. *)
Definition onSubmit (currentInput : string) : option string :=
  if String.eqb currentInput "" || String.eqb currentInput "0" then None
  else Some currentInput.

(** [getCurrentInput()]. *)
Definition getCurrentInput (currentInput : string) : string :=
  if String.eqb currentInput "" then "0" else currentInput.

(** The buttons of the pad; the number buttons carry 0 to 9. *)
Inductive Button :=
  | Number (number : Z)
  | BackspaceButton
  | ClearButton.

Definition press (b : Button) (currentInput : string) : string :=
  match b with
  | Number number => onNumberPress number currentInput
  | BackspaceButton => onBackspace currentInput
  | ClearButton => clear currentInput
  end.

Definition pressAll (bs : list Button) (currentInput : string) : string :=
  fold_left (fun input b => press b input) bs currentInput.

(** The buttons that [createNumberButtons] and [createActionButtons] put
    on the pad, the submit button apart. *)
Definition buttons : list Button :=
  map Number [7; 8; 9; 4; 5; 6; 1; 2; 3; 0] ++ [BackspaceButton; ClearButton].

(** The decimal numerals of 0 to 999, and the empty text the pad starts
    with. *)
Definition numerals : list string := "" :: map toString (seqZ 0 1000).

Definition among (s : string) (l : list string) : bool :=
  existsb (String.eqb s) l.

(** Every button takes a text of [numerals] to a text of [numerals]. *)
Definition closedUnder (bs : list Button) (l : list string) : bool :=
  forallb (fun s => forallb (fun b => among (press b s) l) bs) l.

(** The number buttons that spell the decimal numeral of [n]. *)
Definition keysFor (n : Z) : list Button :=
  map (fun c => Number (digitValue c)) (list_ascii_of_string (toString n)).

#[global] Instance Button_eq_dec : EqDecision Button.
Proof. solve_decision. Defined.

End NumberPad.

(** ** GameScene.js: answers and scores *)

Module GameScene.
Import Js.

(** [GAME_STATES] and [SCORING.CORRECT_ANSWER] of [utils/constants.js]. *)
Definition WAITING_INPUT : string := "waiting".
Definition VALIDATING : string := "validating".
Definition SHOWING_FEEDBACK : string := "feedback".
Definition CORRECT_ANSWER : Z := 100.

(** The fields of the scene that [handleAnswer], [showFeedback] and
    [allowRetry] read and write; [numberPad] is the text of the pad.
    Panels, sounds, the interactivity of the pad's buttons and the delayed
    calls that the methods schedule are not modelled. *)
Record Scene := mkScene {
  gameState : string;
  attemptCount : Z;
  mathEngine : MathEngine.Engine;
  progressManager : ProgressManager.Manager;
  inputManager : InputManager.Input;
  numberPad : string
}.

(** [showFeedback(result)]. *)
Definition showFeedback (result : MathEngine.ValidationResult) (sc : Scene)
    : Scene :=
  let pm := progressManager sc in
  let pm :=
    if MathEngine.vr_correct result then
      ProgressManager.incrementScore CORRECT_ANSWER
        (ProgressManager.recordAnswer true pm)
    else ProgressManager.recordAnswer false pm in
  mkScene SHOWING_FEEDBACK (attemptCount sc) (mathEngine sc) pm
    (inputManager sc) (numberPad sc).

(** [handleAnswer(userAnswer)]; [r] picks the message of the result, and
    [None] is the [TypeError] of [validateAnswer] on [null]. *)
Definition handleAnswer (r : Q) (userAnswer : Value) (sc : Scene)
    : option Scene :=
  if negb (String.eqb (gameState sc) WAITING_INPUT) then Some sc
  else
    let sc :=
      mkScene VALIDATING (attemptCount sc) (mathEngine sc)
        (progressManager sc) (InputManager.disableInput (inputManager sc))
        (numberPad sc) in
    result ← MathEngine.validateAnswer r userAnswer None (mathEngine sc);
    let sc :=
      mkScene (gameState sc) (attemptCount sc + 1) (mathEngine sc)
        (progressManager sc) (inputManager sc) (numberPad sc) in
    Some (showFeedback result sc).

(** [allowRetry()]: what it does before it returns.  With three attempts
    or more it shows a panel and leaves the next question to a delayed
    call. *)
Definition allowRetry (sc : Scene) : Scene :=
  if 3 <=? attemptCount sc then sc
  else
    mkScene WAITING_INPUT (attemptCount sc) (mathEngine sc)
      (progressManager sc)
      (InputManager.enableInput (InputManager.clearInput (inputManager sc)))
      (NumberPad.clear (numberPad sc)).

(** What happens to a scene while one question is shown: an answer
    arrives as a string, from the pad or from the keyboard, or the
    feedback timer calls [allowRetry]. *)
Inductive Event :=
  | Answer (r : Q) (userAnswer : string)
  | Retry.

Definition step (ev : Event) (sc : Scene) : option Scene :=
  match ev with
  | Answer r userAnswer => handleAnswer r (VString userAnswer) sc
  | Retry => Some (allowRetry sc)
  end.

Fixpoint play (evs : list Event) (sc : Scene) : option Scene :=
  match evs with
  | [] => Some sc
  | ev :: evs' => sc' ← step ev sc; play evs' sc'
  end.

Definition session (sc : Scene) : ProgressManager.SessionData :=
  ProgressManager.sessionData (progressManager sc).

End GameScene.

(** ** More of ProgressManager.js *)

Module ProgressMore.
Import ProgressManager.

(** [isLevelCompleted(difficulty, levelNumber)]; [None] is the
    [TypeError] on a difficulty without a list. *)
Definition isLevelCompleted (difficulty' : string) (levelNumber : Z)
    (m : Manager) : option bool :=
  levels ← levelsCompleted (persistentData m) !! difficulty';
  Some (Js.includes levels levelNumber).

(** Every list of completed levels is 1, 2, ..., n. *)
Definition levelsInOrder (m : Manager) : Prop :=
  forall tier levels,
    levelsCompleted (persistentData m) !! tier = Some levels ->
    levels = seqZ 1 (Z.of_nat (length levels)).

Definition isCompleteSession (c : Call) : bool :=
  match c with
  | CallCompleteSession _ => true
  | _ => false
  end.

(** The number of [completeSession] calls in a sequence of calls. *)
Definition completions (cs : list Call) : Z :=
  Z.of_nat (length (List.filter isCompleteSession cs)).

Definition keepsPersistent (cs : list Call) : bool :=
  forallb (fun c => negb (replacesPersistent c)) cs.

End ProgressMore.

(** ** The specification's wording, for comparison with the code *)

Module SpecText.
Import Js.

(** Setting the difficulty as the specification words it: the tier
    named by the input, whatever its letter-casing, and Easy when the
    input names no tier. *)
Definition tierOf (level : string) : string :=
  if includes MathEngine.validLevels (toLowerCase level)
  then toLowerCase level else "easy".

(** A minus sign appears at a position other than 0. *)
Definition minusBeyondStart (s : string) : bool :=
  match s with
  | EmptyString => false
  | String _ s' => 0 <? count "-" s'
  end.

(** Several leading minus signs become one. *)
Fixpoint collapseLeadingMinus (s : string) : string :=
  match s with
  | String "-"%char (String "-"%char _ as s') => collapseLeadingMinus s'
  | _ => s
  end.

(** Sanitization as the specification words it: strip white space at
    both ends; remove every character that is not a digit or a minus
    sign; if a minus sign appears anywhere other than position 0,
    remove all minus signs; collapse several leading minus signs to one. *)
Definition sanitize (s : string) : string :=
  let s := trim s in
  let s := keep isDigitOrMinus s in
  let s :=
    if minusBeyondStart s then keep notMinus s else s in
  collapseLeadingMinus s.

End SpecText.

(** * Properties *)

(** ** Strings and random numbers *)

Section JsFacts.
Import Js.

Lemma append_cons (c : ascii) (s1 s2 : string) :
  String c s1 +:+ s2 = String c (s1 +:+ s2).
Proof. reflexivity. Qed.

Lemma append_empty_l (s : string) : EmptyString +:+ s = s.
Proof. reflexivity. Qed.

Lemma append_assoc_s (s1 s2 s3 : string) :
  (s1 +:+ s2) +:+ s3 = s1 +:+ (s2 +:+ s3).
Proof.
  induction s1 as [|c s1 IH]; [reflexivity|].
  rewrite !append_cons. f_equal. exact IH.
Qed.

Lemma prefix_append (p s : string) : String.prefix p (p +:+ s) = true.
Proof.
  induction p as [|c p IH].
  - rewrite append_empty_l. now destruct s.
  - rewrite append_cons. simpl.
    destruct (ascii_dec c c) as [_|n]; [exact IH | now elim n].
Qed.

Lemma skip_append (p s : string) : skip (String.length p) (p +:+ s) = s.
Proof.
  induction p as [|c p IH]; [now destruct s|].
  rewrite append_cons. simpl. exact IH.
Qed.

Lemma count_nonneg (c : ascii) (s : string) : 0 <= count c s.
Proof. induction s as [|d s IH]; simpl; [lia | destruct (Ascii.eqb d c); lia]. Qed.

Lemma count_append (c : ascii) (s1 s2 : string) :
  count c (s1 +:+ s2) = count c s1 + count c s2.
Proof.
  induction s1 as [|d s1 IH]; [reflexivity|].
  rewrite append_cons. simpl. rewrite IH. lia.
Qed.

(** A pattern that starts with a character absent from [pre] is first
    found right after [pre]. *)
Lemma replace_first (c : ascii) (pat rep pre rest : string) :
  count c pre = 0 ->
  replace (String c pat) rep (pre +:+ String c pat +:+ rest)
  = pre +:+ rep +:+ rest.
Proof.
  induction pre as [|d pre IH]; intros Hc.
  - rewrite !append_empty_l.
    destruct (String c pat +:+ rest) as [|x y] eqn:E; [discriminate|].
    unfold replace; fold replace.
    rewrite <- E, prefix_append, skip_append. reflexivity.
  - simpl in Hc. pose proof (count_nonneg c pre).
    destruct (Ascii.eqb_spec d c) as [->|Hne]; [lia|].
    rewrite !append_cons. simpl.
    destruct (ascii_dec c d) as [->|_]; [now elim Hne|].
    f_equal. apply IH. lia.
Qed.

Lemma count_string_of_uint (c : ascii) (d : Decimal.uint) :
  isDigit c = false -> count c (NilEmpty.string_of_uint d) = 0.
Proof.
  intros Hc. induction d; cbn [NilEmpty.string_of_uint count];
    try reflexivity; rewrite IHd;
    match goal with
    | |- (if Ascii.eqb ?x c then _ else _) + 0 = 0 =>
        destruct (Ascii.eqb_spec x c) as [<-|_]; [discriminate Hc | reflexivity]
    end.
Qed.

(** A printed integer holds digits and at most a minus sign. *)
Lemma count_toString (c : ascii) (n : Z) :
  isDigitOrMinus c = false -> count c (toString n) = 0.
Proof.
  intros Hc. apply orb_false_iff in Hc as [Hd Hm].
  unfold toString.
  destruct (Z.to_int n) as [d|d]; cbn [NilEmpty.string_of_int count].
  - now apply count_string_of_uint.
  - rewrite count_string_of_uint by assumption.
    unfold isMinus in Hm. rewrite Ascii.eqb_sym in Hm. now rewrite Hm.
Qed.

Lemma randomBelow_range (r : Q) (n : Z) :
  unitRandom r -> 0 < n -> 0 <= randomBelow r n < n.
Proof.
  intros [H0 H1] Hn. unfold randomBelow.
  assert (Hq : (inject_Z 0 < inject_Z n)%Q) by (rewrite <- Zlt_Qlt; exact Hn).
  change (inject_Z 0) with 0%Q in Hq.
  split.
  - rewrite <- (Qfloor_Z 0). apply Qfloor_resp_le.
    apply Qmult_le_0_compat; [exact H0 | now apply Qlt_le_weak].
  - assert (Hlt : (r * inject_Z n < inject_Z n)%Q).
    { rewrite <- (Qmult_1_l (inject_Z n)) at 2.
      apply Qmult_lt_compat_r; assumption. }
    pose proof (Qfloor_le (r * inject_Z n)) as Hf.
    rewrite (Zlt_Qlt (Qfloor (r * inject_Z n)) n).
    eapply Qle_lt_trans; eassumption.
Qed.

End JsFacts.

(** ** Question generation *)

Section GenerationFacts.
Import Js MathEngine.

(** Operands are drawn from the range of the template. *)
Lemma randomInt_range (min max : Z) (r : Q) :
  unitRandom r -> min <= max -> min <= randomInt min max r <= max.
Proof.
  intros Hr Hle. unfold randomInt.
  pose proof (randomBelow_range r (max - min + 1) Hr). lia.
Qed.

(** C1.  A question generated from a subtraction template has the larger
    operand minus the smaller one as its answer, so the answer is not
    negative, and its text is the template with the larger operand put in
    place of the first occurrence of [{a}] and the smaller one in place
    of the first occurrence of [{b}]; for a template of the usual shape
    [pre {a} mid {b} post] the text is [pre larger mid smaller post]. *)
Theorem generateQuestion_subtraction (e : Engine) (now : Z) (ra rb : Q)
    (t : Template) :
  tpl_operation t = "subtraction" ->
  let a := randomInt (tpl_minValue t) (tpl_maxValue t) ra in
  let b := randomInt (tpl_minValue t) (tpl_maxValue t) rb in
  let q := generateQuestion e now ra rb t in
  q_values q = (a, b) /\
  q_answer q = Z.max a b - Z.min a b /\
  0 <= q_answer q /\
  q_questionText q
  = replace "{b}" (toString (Z.min a b))
      (replace "{a}" (toString (Z.max a b)) (tpl_template t)) /\
  forall pre mid post : string,
    count "{" pre = 0 -> count "{" mid = 0 ->
    tpl_template t = pre +:+ "{a}" +:+ mid +:+ "{b}" +:+ post ->
    q_questionText q
    = pre +:+ toString (Z.max a b) +:+ mid +:+ toString (Z.min a b) +:+ post.
Proof.
  intros Hop a b q.
  assert (Hans : q_answer q = Z.max a b - Z.min a b).
  { unfold q, generateQuestion. cbn [q_answer]. rewrite Hop. reflexivity. }
  assert (Htxt : q_questionText q
                 = replace "{b}" (toString (Z.min a b))
                     (replace "{a}" (toString (Z.max a b)) (tpl_template t))).
  { unfold q, generateQuestion. cbn [q_questionText]. rewrite Hop. reflexivity. }
  repeat split; try assumption.
  - rewrite Hans. lia.
  - intros pre mid post Hpre Hmid Htpl.
    rewrite Htxt, Htpl.
    rewrite (replace_first "{" "a}" _ pre _ Hpre).
    rewrite <- (append_assoc_s (toString (Z.max a b)) mid).
    rewrite <- (append_assoc_s pre).
    rewrite (replace_first "{" "b}").
    + now rewrite !append_assoc_s.
    + rewrite !count_append, Hpre, Hmid, count_toString; reflexivity.
Qed.

Lemma generateQuestion_subtraction_witness :
  let q := generateQuestion constructor 0 (1 # 4) (3 # 4)
             (mkTemplate "sub_easy_001" "equation" "subtraction"
                "{a} - {b} = ?" 0 10 (Some true) (Some "bananas")) in
  q_values q = (2, 8) /\ q_answer q = 6 /\ q_questionText q = "8 - 2 = ?".
Proof.
  destruct (generateQuestion_subtraction constructor 0 (1 # 4) (3 # 4)
              (mkTemplate "sub_easy_001" "equation" "subtraction"
                 "{a} - {b} = ?" 0 10 (Some true) (Some "bananas")) eq_refl)
    as (Hv & Ha & _ & _ & Hshape).
  split; [exact Hv | split; [exact Ha |]].
  exact (Hshape "" " - " " = ?" eq_refl eq_refl eq_refl).
Defined.

End GenerationFacts.

(** ** Sanitizing and validating an answer *)

Section SanitizeFacts.
Import Js.

Lemma keep_ext (p q : ascii -> bool) (s : string) :
  (forall c, p c = q c) -> keep p s = keep q s.
Proof.
  intros H. induction s as [|c s IH]; simpl; [reflexivity|].
  now rewrite H, IH.
Qed.

Lemma keep_keep (p q : ascii -> bool) (s : string) :
  keep p (keep q s) = keep (fun c => q c && p c) s.
Proof.
  induction s as [|c s IH]; simpl; [reflexivity|].
  destruct (q c); simpl; [destruct (p c)|]; now rewrite IH.
Qed.

Lemma allChars_keep (p : ascii -> bool) (s : string) :
  allChars p (keep p s) = true.
Proof.
  induction s as [|c s IH]; simpl; [reflexivity|].
  destruct (p c) eqn:E; simpl; [now rewrite E|exact IH].
Qed.

Lemma keep_all (p : ascii -> bool) (s : string) :
  allChars p s = true -> keep p s = s.
Proof.
  induction s as [|c s IH]; simpl; [reflexivity|].
  intros [Hc Hs]%andb_true_iff. now rewrite Hc, IH.
Qed.

Lemma allChars_impl (p q : ascii -> bool) (s : string) :
  (forall c, p c = true -> q c = true) ->
  allChars p s = true -> allChars q s = true.
Proof.
  intros H. induction s as [|c s IH]; simpl; [reflexivity|].
  intros [Hc Hs]%andb_true_iff. now rewrite (H _ Hc), IH.
Qed.

Lemma keep_trimStart (p : ascii -> bool) (s : string) :
  (forall c, isSpace c = true -> p c = false) ->
  keep p (trimStart s) = keep p s.
Proof.
  intros H. induction s as [|c s IH]; simpl; [reflexivity|].
  destruct (isSpace c) eqn:E; [|reflexivity].
  now rewrite (H _ E).
Qed.

Lemma keep_trimEnd (p : ascii -> bool) (s : string) :
  (forall c, isSpace c = true -> p c = false) ->
  keep p (trimEnd s) = keep p s.
Proof.
  intros H. induction s as [|c s IH]; [reflexivity|].
  cbn [trimEnd]. destruct (trimEnd s) as [|d r] eqn:E.
  - cbn [keep] in IH. cbn [keep]. rewrite <- IH.
    destruct (isSpace c) eqn:Hc; [now rewrite (H _ Hc)|reflexivity].
  - cbn [keep] in IH. cbn [keep]. now rewrite IH.
Qed.

(** Trimming first changes nothing when white space is deleted anyway. *)
Lemma keep_trim (p : ascii -> bool) (s : string) :
  (forall c, isSpace c = true -> p c = false) ->
  keep p (trim s) = keep p s.
Proof.
  intros H. unfold trim. now rewrite keep_trimEnd, keep_trimStart.
Qed.

Lemma space_not_digitOrMinus (c : ascii) :
  isSpace c = true -> isDigitOrMinus c = false.
Proof.
  unfold isSpace, isDigitOrMinus, isDigit, isMinus. intros H.
  repeat (apply orb_true_iff in H as [H|H]);
    apply N.eqb_eq in H;
    rewrite <- (ascii_N_embedding c), H; reflexivity.
Qed.

Lemma space_not_digit (c : ascii) : isSpace c = true -> isDigit c = false.
Proof.
  intros H%space_not_digitOrMinus. now apply orb_false_iff in H as [H _].
Qed.

Lemma digit_not_minus (c : ascii) : isDigit c = true -> isMinus c = false.
Proof.
  unfold isMinus. intros H. destruct (Ascii.eqb_spec c "-") as [->|]; [discriminate H|reflexivity].
Qed.

Lemma keep_digits_of_kept (s : string) :
  keep notMinus (keep isDigitOrMinus s) = keep isDigit s.
Proof.
  rewrite keep_keep. apply keep_ext. intros c.
  unfold isDigitOrMinus, notMinus.
  destruct (isDigit c) eqn:Hd; simpl.
  - now rewrite (digit_not_minus _ Hd).
  - now destruct (isMinus c).
Qed.

Lemma count_keep_notMinus (s : string) : count "-" (keep notMinus s) = 0.
Proof.
  induction s as [|c s IH]; [reflexivity|].
  cbn [keep]. unfold notMinus at 1, isMinus.
  destruct (Ascii.eqb_spec c "-") as [->|Hne]; cbn [negb]; [exact IH|].
  cbn [count]. rewrite IH.
  destruct (Ascii.eqb_spec c "-"); [contradiction|reflexivity].
Qed.

Lemma keep_notMinus_id (s : string) :
  count "-" s = 0 -> keep notMinus s = s.
Proof.
  induction s as [|c s IH]; [reflexivity|].
  cbn [count keep]. pose proof (count_nonneg "-" s).
  unfold notMinus at 1, isMinus.
  destruct (Ascii.eqb_spec c "-"); cbn [negb]; [lia|].
  intros H'. rewrite IH by lia. reflexivity.
Qed.

Lemma indexOf_lower (c : ascii) (s : string) : -1 <= indexOf c s.
Proof.
  induction s as [|d s IH]; cbn [indexOf]; [lia|].
  destruct (Ascii.eqb d c); [lia|].
  destruct (indexOf c s <? 0) eqn:E; [lia|]. apply Z.ltb_ge in E. lia.
Qed.

Lemma indexOf_absent (c : ascii) (s : string) :
  indexOf c s = -1 <-> count c s = 0.
Proof.
  induction s as [|d s IH]; cbn [indexOf count]; [easy|].
  pose proof (count_nonneg c s). pose proof (indexOf_lower c s).
  destruct (Ascii.eqb d c); [lia|].
  destruct (indexOf c s <? 0) eqn:E.
  - apply Z.ltb_lt in E. split; intros _; [|reflexivity].
    rewrite Z.add_0_l. apply IH. lia.
  - apply Z.ltb_ge in E. split; intros H'; [lia|].
    rewrite Z.add_0_l in H'. apply IH in H'. lia.
Qed.

Lemma indexOf_zero (c : ascii) (s : string) :
  indexOf c s = 0 -> exists s', s = String c s'.
Proof.
  destruct s as [|d s]; cbn [indexOf]; [discriminate|].
  destruct (Ascii.eqb_spec d c) as [->|_]; [intros _; now exists s|].
  pose proof (indexOf_lower c s).
  destruct (indexOf c s <? 0) eqn:E; [discriminate|].
  apply Z.ltb_ge in E. lia.
Qed.

(** The two steps of [validators.js] that deal with minus signs leave the
    other characters, preceded by one minus sign exactly when the string
    started with one. *)
Lemma minus_steps (k : string) :
  (let cleaned := if 0 <? indexOf "-" k then keep notMinus k else k in
   if 2 <? splitLength "-" cleaned then "-" +:+ keep notMinus cleaned
   else cleaned)
  = (if indexOf "-" k =? 0 then "-" else "") +:+ keep notMinus k.
Proof.
  cbv zeta. unfold splitLength.
  pose proof (indexOf_lower "-" k) as Hlow.
  destruct (0 <? indexOf "-" k) eqn:Hpos.
  - apply Z.ltb_lt in Hpos. rewrite count_keep_notMinus.
    replace (indexOf "-" k =? 0) with false by (symmetry; apply Z.eqb_neq; lia).
    reflexivity.
  - apply Z.ltb_ge in Hpos.
    destruct (indexOf "-" k =? 0) eqn:Hz.
    + apply Z.eqb_eq, indexOf_zero in Hz as [k' ->].
      cbn [count keep]. unfold notMinus at 1 3, isMinus.
      rewrite Ascii.eqb_refl. cbn [negb].
      pose proof (count_nonneg "-" k').
      destruct (2 <? 1 + count "-" k' + 1) eqn:E; [reflexivity|].
      apply Z.ltb_ge in E. rewrite keep_notMinus_id by lia. reflexivity.
    + apply Z.eqb_neq in Hz.
      assert (Hc : count "-" k = 0) by (apply indexOf_absent; lia).
      rewrite Hc, keep_notMinus_id by assumption. reflexivity.
Qed.

(** [sanitizeInput] of [validators.js], in closed form. *)
Lemma validators_sanitize_closed (x : string) :
  Validators.sanitizeInput (VString x)
  = (if indexOf "-" (keep isDigitOrMinus x) =? 0 then "-" else "")
    +:+ keep isDigit x.
Proof.
  unfold Validators.sanitizeInput. cbn [String_].
  rewrite minus_steps, keep_digits_of_kept.
  now rewrite !keep_trim by auto using space_not_digitOrMinus, space_not_digit.
Qed.

End SanitizeFacts.

Section ValidateFacts.
Import Js.

Lemma trimStart_id (c : ascii) (s : string) :
  isSpace c = false -> trimStart (String c s) = String c s.
Proof. intros H. cbn [trimStart]. now rewrite H. Qed.

Lemma trimEnd_id (s : string) :
  allChars isDigitOrMinus s = true -> trimEnd s = s.
Proof.
  induction s as [|c s IH]; [reflexivity|].
  cbn [allChars trimEnd]. intros [Hc Hs]%andb_true_iff.
  rewrite (IH Hs). destruct s; [|reflexivity].
  destruct (isSpace c) eqn:E; [|reflexivity].
  apply space_not_digitOrMinus in E. congruence.
Qed.

Lemma trim_id (s : string) :
  allChars isDigitOrMinus s = true -> trim s = s.
Proof.
  intros H. unfold trim. destruct s as [|c s]; [reflexivity|].
  rewrite trimStart_id.
  - now apply trimEnd_id.
  - destruct (isSpace c) eqn:E; [|reflexivity].
    apply space_not_digitOrMinus in E.
    cbn [allChars] in H. apply andb_true_iff in H as [H _]. congruence.
Qed.

(** A string that starts with a digit is read without a sign. *)
Lemma unsigned_digit (c : ascii) :
  isDigit c = true -> c <> "-"%char /\ c <> "+"%char.
Proof. intros H; split; intros ->; discriminate H. Qed.

Lemma parseInt_unsigned (c : ascii) (s : string) :
  isDigit c = true ->
  parseInt (String c s) = readDigits 0 false (String c s).
Proof.
  intros H. unfold parseInt. rewrite trimStart_id.
  - destruct (unsigned_digit c H) as [Hm Hp].
    destruct c as [[] [] [] [] [] [] [] []]; try reflexivity; congruence.
  - destruct (isSpace c) eqn:E; [|reflexivity].
    apply space_not_digit in E. congruence.
Qed.

Lemma toNumber_unsigned (c : ascii) (s : string) :
  allChars isDigit (String c s) = true ->
  toNumber (String c s) = readDigits 0 false (String c s).
Proof.
  intros H. unfold toNumber.
  rewrite trim_id
    by (eapply allChars_impl; [|exact H]; intros d Hd; unfold isDigitOrMinus;
        now rewrite Hd).
  assert (Hc : isDigit c = true) by (cbn [allChars] in H; now apply andb_true_iff in H).
  destruct c as [[] [] [] [] [] [] [] []]; try discriminate Hc;
    cbv beta iota; now rewrite H.
Qed.

(** What [sanitizeInput] of [validators.js] returns is accepted by
    [isValidNumber] whenever [parseInt] reads a number from it. *)
Lemma isValidNumber_sanitized (input : Value) (parsed : Z) :
  parseInt (Validators.sanitizeInput input) = Some parsed ->
  Validators.isValidNumber (VString (Validators.sanitizeInput input)) = true.
Proof.
  assert (Hshape : exists (neg : bool) (D : string),
             allChars isDigit D = true /\
             Validators.sanitizeInput input
             = (if neg then "-" else "") +:+ D).
  { destruct input as [x|n| |].
    - eexists _, _. split; [|apply validators_sanitize_closed].
      apply allChars_keep.
    - unfold Validators.sanitizeInput. rewrite minus_steps.
      eexists _, _. split; [|reflexivity].
      rewrite keep_digits_of_kept. apply allChars_keep.
    - exists false, "". split; reflexivity.
    - exists false, "". split; reflexivity. }
  destruct Hshape as (neg & D & HD & ->).
  destruct D as [|c D]; [destruct neg; discriminate|].
  assert (Hc : isDigit c = true)
    by (cbn [allChars] in HD; now apply andb_true_iff in HD).
  assert (Hall0 : allChars isDigitOrMinus (String c D) = true).
  { eapply allChars_impl; [|exact HD].
    intros d Hd. unfold isDigitOrMinus. now rewrite Hd. }
  destruct neg.
  - change ("-" +:+ String c D) with (String "-" (String c D)).
    intros Hp. unfold Validators.isValidNumber.
    assert (Hall : allChars isDigitOrMinus (String "-" (String c D)) = true).
    { cbn [allChars]. cbn [allChars] in Hall0. now rewrite Hall0. }
    rewrite !trim_id by exact Hall.
    change (String.eqb (String "-" (String c D)) "") with false. cbv iota.
    unfold toNumber. rewrite trim_id by exact Hall. rewrite HD.
    unfold parseInt in Hp. rewrite trimStart_id in Hp by reflexivity.
    destruct (readDigits 0 false (String c D)); [reflexivity|discriminate].
  - rewrite append_empty_l. intros Hp.
    rewrite parseInt_unsigned in Hp by exact Hc.
    unfold Validators.isValidNumber.
    rewrite !trim_id by exact Hall0.
    change (String.eqb (String c D) "") with false. cbv iota.
    rewrite toNumber_unsigned by exact HD. now rewrite Hp.
Qed.

Lemma close_iff (parsed expected : Z) :
  negb (parsed =? expected) && (Z.abs (parsed - expected) <=? 2) = true
  <-> 0 < Z.abs (parsed - expected) <= 2.
Proof.
  rewrite andb_true_iff, negb_true_iff, Z.eqb_neq, Z.leb_le. lia.
Qed.

(** The two flags computed by both [validateAnswer] functions. *)
Lemma flags_spec (parsed expected : Z) :
  let isCorrect := parsed =? expected in
  let isClose := Z.abs (parsed - expected) <=? 2 in
  (isCorrect = true <-> parsed = expected) /\
  (Some (negb isCorrect && isClose) = Some true
   <-> 0 < Z.abs (parsed - expected) <= 2) /\
  ~ (isCorrect = true /\ Some (negb isCorrect && isClose) = Some true).
Proof.
  cbv zeta. split; [apply Z.eqb_eq|]. split.
  - rewrite <- close_iff. split; [intros [= H]; exact H | intros ->; reflexivity].
  - intros [H1 [= H2]]. rewrite H1 in H2. discriminate H2.
Qed.

End ValidateFacts.

Section AnswerClaims.
Import Js.

(** C2.  When the sanitized input parses to an integer, [validateAnswer]
    of the engine and of [validators.js] report a valid answer that is
    correct exactly when the parsed number equals the expected one and
    close exactly when their distance is 1 or 2; the two flags are never
    both set. *)
Theorem validateAnswer_correct_close :
  (forall (r : Q) (input : Value) (correctAnswer : option Z)
          (e : MathEngine.Engine) (expected : Z) (cleaned : string)
          (parsed : Z),
      MathEngine.expectedAnswer correctAnswer e = Some expected ->
      MathEngine.sanitizeInput input = Some cleaned ->
      parseInt cleaned = Some parsed ->
      exists res,
        MathEngine.validateAnswer r input correctAnswer e = Some res /\
        MathEngine.vr_valid res = true /\
        MathEngine.vr_userAnswer res = Some parsed /\
        (MathEngine.vr_correct res = true <-> parsed = expected) /\
        (MathEngine.vr_close res = Some true
         <-> 0 < Z.abs (parsed - expected) <= 2) /\
        ~ (MathEngine.vr_correct res = true /\
           MathEngine.vr_close res = Some true)) /\
  (forall (input : Value) (expected parsed : Z),
      parseInt (Validators.sanitizeInput input) = Some parsed ->
      let res := Validators.validateAnswer input expected in
      Validators.va_valid res = true /\
      Validators.va_value res = Some parsed /\
      (Validators.va_correct res = true <-> parsed = expected) /\
      (Validators.va_close res = Some true
       <-> 0 < Z.abs (parsed - expected) <= 2) /\
      ~ (Validators.va_correct res = true /\
         Validators.va_close res = Some true)).
Proof.
  split.
  - intros r input correctAnswer e expected cleaned parsed He Hs Hp.
    unfold MathEngine.validateAnswer. rewrite He, Hs. cbn [mbind option_bind].
    rewrite Hp. eexists. split; [reflexivity|].
    cbn [MathEngine.vr_valid MathEngine.vr_userAnswer MathEngine.vr_correct
         MathEngine.vr_close].
    split; [reflexivity|]. split; [reflexivity|]. apply flags_spec.
  - intros input expected parsed Hp res. subst res.
    unfold Validators.validateAnswer.
    rewrite (isValidNumber_sanitized _ _ Hp), Hp. cbn [negb].
    cbn [Validators.va_valid Validators.va_value Validators.va_correct
         Validators.va_close].
    split; [reflexivity|]. split; [reflexivity|]. apply flags_spec.
Qed.

Lemma validateAnswer_correct_close_witness :
  (exists res,
      MathEngine.validateAnswer (1 # 2) (VString " 13 apples") (Some 12)
        MathEngine.constructor = Some res /\
      MathEngine.vr_valid res = true /\
      MathEngine.vr_userAnswer res = Some 13 /\
      (MathEngine.vr_correct res = true <-> 13 = 12) /\
      (MathEngine.vr_close res = Some true <-> 0 < Z.abs (13 - 12) <= 2) /\
      ~ (MathEngine.vr_correct res = true /\
         MathEngine.vr_close res = Some true)) /\
  Validators.va_correct (Validators.validateAnswer (VString "12abc") 12) = true.
Proof.
  destruct validateAnswer_correct_close as [Hengine Hvalidators].
  split.
  - exact (Hengine (1 # 2) (VString " 13 apples") (Some 12)
             MathEngine.constructor 12 "13" 13 eq_refl eq_refl eq_refl).
  - destruct (Hvalidators (VString "12abc") 12 12 eq_refl)
      as (_ & _ & Hcorrect & _).
    apply Hcorrect. reflexivity.
Defined.

End AnswerClaims.

Section SanitizeClaims.
Import Js.

(** C6, as amended.  Both sanitizers return digits and minus signs only,
    with the digits of the input in their order: white space at the ends
    and every other character are gone.  [sanitizeInput] of
    [validators.js] removes all minus signs when the first one is not at
    position 0, and otherwise replaces two or more minus signs by a
    single leading one. *)
Theorem sanitizeInput_amended (x : string) :
  let k := keep isDigitOrMinus x in
  keep isDigitOrMinus (trim x) = k /\
  (exists s, MathEngine.sanitizeInput (VString x) = Some s /\
             allChars isDigitOrMinus s = true /\
             keep isDigit s = keep isDigit x) /\
  allChars isDigitOrMinus (Validators.sanitizeInput (VString x)) = true /\
  keep isDigit (Validators.sanitizeInput (VString x)) = keep isDigit x /\
  Validators.sanitizeInput (VString x)
  = (if 0 <? indexOf "-" k then keep notMinus k
     else if 2 <=? count "-" k then "-" +:+ keep notMinus k
     else k).
Proof.
  intros k.
  assert (Hk : keep isDigitOrMinus (trim x) = k)
    by (apply keep_trim, space_not_digitOrMinus).
  assert (Hdigits : forall y, keep isDigit (keep isDigitOrMinus y) = keep isDigit y).
  { intros y. rewrite keep_keep. apply keep_ext. intros c.
    unfold isDigitOrMinus. now destruct (isDigit c), (isMinus c). }
  assert (Hweak : forall y, allChars isDigit y = true ->
                            allChars isDigitOrMinus y = true).
  { intros y. apply allChars_impl. intros c Hc. unfold isDigitOrMinus.
    now rewrite Hc. }
  split; [exact Hk|]. split; [|split; [|split]].
  - exists k. unfold MathEngine.sanitizeInput. rewrite Hk.
    split; [reflexivity|]. split; [apply allChars_keep|apply Hdigits].
  - rewrite validators_sanitize_closed.
    destruct (indexOf "-" (keep isDigitOrMinus x) =? 0).
    + change ("-" +:+ keep isDigit x) with (String "-" (keep isDigit x)).
      cbn [allChars]. apply Hweak, allChars_keep.
    + rewrite append_empty_l. apply Hweak, allChars_keep.
  - rewrite validators_sanitize_closed.
    pose proof (keep_all isDigit (keep isDigit x) (allChars_keep _ _)) as Hid.
    destruct (indexOf "-" (keep isDigitOrMinus x) =? 0).
    + change ("-" +:+ keep isDigit x) with (String "-" (keep isDigit x)).
      cbn [keep]. change (isDigit "-") with false. cbv iota. exact Hid.
    + rewrite append_empty_l. exact Hid.
  - unfold Validators.sanitizeInput. cbn [String_]. rewrite Hk.
    destruct (0 <? indexOf "-" k).
    + unfold splitLength. now rewrite count_keep_notMinus.
    + unfold splitLength.
      destruct (2 <=? count "-" k) eqn:E.
      * apply Z.leb_le in E.
        replace (2 <? count "-" k + 1) with true
          by (symmetry; apply Z.ltb_lt; lia).
        reflexivity.
      * apply Z.leb_gt in E.
        replace (2 <? count "-" k + 1) with false
          by (symmetry; apply Z.ltb_ge; lia).
        reflexivity.
Qed.

(** C6, as stated, fails on ["-1-5"]: a minus sign stands at position 2,
    so every minus sign should go, but [validators.js] keeps one. *)
Lemma sanitizeInput_counterexample :
  SpecText.sanitize "-1-5" = "15" /\
  Validators.sanitizeInput (VString "-1-5") = "-15" /\
  Validators.sanitizeInput (VString "-1-5") <> SpecText.sanitize "-1-5".
Proof. repeat split; [reflexivity..|discriminate]. Qed.

(** The sanitizer of the engine deals with no minus sign at all: the
    input of its own unit test, ["1-5"], which the test wants as ["15"],
    comes back unchanged, and [parseInt] then reads [1]. *)
Example engine_sanitizeInput_inner_minus :
  MathEngine.sanitizeInput (VString "1-5") = Some "1-5" /\
  parseInt "1-5" = Some 1 /\
  Validators.sanitizeInput (VString "1-5") = "15".
Proof. repeat split; reflexivity. Qed.

(** Sanitizing twice is sanitizing once ([validators.js]). *)
Lemma validators_sanitize_idempotent (x : string) :
  Validators.sanitizeInput (VString (Validators.sanitizeInput (VString x)))
  = Validators.sanitizeInput (VString x).
Proof.
  rewrite (validators_sanitize_closed x).
  set (D := keep isDigit x).
  assert (HD : allChars isDigit D = true) by apply allChars_keep.
  assert (HDk : keep isDigitOrMinus D = D).
  { apply keep_all. eapply allChars_impl; [|exact HD].
    intros d Hd. unfold isDigitOrMinus. now rewrite Hd. }
  assert (HDm : count "-" D = 0).
  { unfold D. rewrite <- keep_digits_of_kept. apply count_keep_notMinus. }
  rewrite validators_sanitize_closed.
  destruct (indexOf "-" (keep isDigitOrMinus x) =? 0).
  - change ("-" +:+ D) with (String "-" D).
    cbn [keep]. change (isDigitOrMinus "-") with true.
    change (isDigit "-") with false. cbv iota.
    rewrite HDk, (keep_all _ _ HD). reflexivity.
  - rewrite !append_empty_l, HDk, (keep_all _ _ HD).
    assert (Hi : indexOf "-" D = -1) by now apply indexOf_absent.
    rewrite Hi. reflexivity.
Qed.

End SanitizeClaims.

(** ** Setting the difficulty *)

Section DifficultyClaims.
Import Js MathEngine.

(** C5, as amended.  The three lower-case names set their tier and clear
    the list of recent questions; every other string, other letter-casings
    of the three names included, sets the tier to easy.  No call changes
    the bank, the bound of the list or the current question. *)
Theorem setDifficulty_amended (level : string) (e : Engine) :
  (level ∈ validLevels ->
     currentDifficulty (setDifficulty level e) = level /\
     recentQuestions (setDifficulty level e) = []) /\
  (level ∉ validLevels ->
     currentDifficulty (setDifficulty level e) = "easy") /\
  questionBank (setDifficulty level e) = questionBank e /\
  maxRecentQuestions (setDifficulty level e) = maxRecentQuestions e /\
  currentQuestion (setDifficulty level e) = currentQuestion e.
Proof.
  unfold setDifficulty, includes.
  destruct (bool_decide_reflect (level ∈ validLevels)) as [Hin|Hout];
    cbn [negb currentDifficulty recentQuestions questionBank
         maxRecentQuestions currentQuestion];
    repeat split; intros; try reflexivity; contradiction.
Qed.

Lemma setDifficulty_amended_witness :
  let e := mkEngine None "easy" ["add_easy_001"; "sub_easy_001"] 3 None in
  (currentDifficulty (setDifficulty "hard" e) = "hard" /\
   recentQuestions (setDifficulty "hard" e) = []) /\
  currentDifficulty (setDifficulty "Medium" (setDifficulty "hard" e)) = "easy".
Proof.
  intros e. split.
  - apply (setDifficulty_amended "hard" e).
    apply (bool_decide_unpack _). exact I.
  - apply (setDifficulty_amended "Medium" (setDifficulty "hard" e)).
    apply (bool_decide_unpack _). exact I.
Defined.

(** C5, as stated, fails on ["MEDIUM"]: the specification's wording
    selects the medium tier, the engine selects easy. *)
Lemma setDifficulty_counterexample :
  SpecText.tierOf "MEDIUM" = "medium" /\
  currentDifficulty (setDifficulty "MEDIUM" constructor) = "easy" /\
  currentDifficulty (setDifficulty "MEDIUM" constructor)
  <> SpecText.tierOf "MEDIUM".
Proof. repeat split; [reflexivity..|discriminate]. Qed.

(** On a string that names no tier, [setDifficulty] returns before the
    list of recent questions is reset. *)
Example setDifficulty_unknown_keeps_recent :
  recentQuestions
    (setDifficulty "impossible" (mkEngine None "medium" ["q1"; "q2"; "q3"] 3 None))
  = ["q1"; "q2"; "q3"].
Proof. reflexivity. Qed.

End DifficultyClaims.

(** ** Drawing the next question *)

Section DrawFacts.
Import Js MathEngine.

Lemma index_elem {A} (arr : list A) (i : Z) (x : A) :
  index arr i = Some x -> x ∈ arr.
Proof.
  unfold index. destruct (i <? 0); [discriminate|].
  apply list_elem_of_lookup_2.
Qed.

Lemma getRandomElement_elem {A} (arr : list A) (r : Q) (x : A) :
  getRandomElement arr r = Some x -> x ∈ arr.
Proof. destruct arr; [discriminate|]. apply index_elem. Qed.

(** A random number of the unit interval always selects an element of a
    non-empty array. *)
Lemma getRandomElement_some {A} (arr : list A) (r : Q) :
  unitRandom r -> arr <> [] -> exists x, getRandomElement arr r = Some x.
Proof.
  intros Hr Hne. destruct arr as [|a arr]; [contradiction|].
  unfold getRandomElement, index.
  pose proof (randomBelow_range r (Z.of_nat (length (a :: arr))) Hr) as Hb.
  cbn [length] in Hb |- *.
  destruct Hb as [H0 Hn]; [lia|].
  replace (_ <? 0) with false by (symmetry; apply Z.ltb_ge; exact H0).
  apply lookup_lt_is_Some_2. cbn [length]. lia.
Qed.

Lemma ensureBank_fields (e : Engine) :
  currentDifficulty (ensureBank e) = currentDifficulty e /\
  recentQuestions (ensureBank e) = recentQuestions e /\
  maxRecentQuestions (ensureBank e) = maxRecentQuestions e /\
  currentQuestion (ensureBank e) = currentQuestion e.
Proof. unfold ensureBank. destruct (questionBank e); repeat split. Qed.

Lemma ensureBank_idem (e : Engine) : ensureBank (ensureBank e) = ensureBank e.
Proof. unfold ensureBank. destruct (questionBank e) eqn:E; [now rewrite E|reflexivity]. Qed.

Lemma currentPool_ensureBank (e : Engine) :
  currentPool (ensureBank e) = currentPool e.
Proof.
  unfold currentPool. rewrite ensureBank_idem.
  now destruct (ensureBank_fields e) as (-> & _).
Qed.

Lemma currentPool_same (e1 e2 : Engine) :
  questionBank e1 = questionBank e2 ->
  currentDifficulty e1 = currentDifficulty e2 ->
  currentPool e1 = currentPool e2.
Proof.
  intros Hb Hd. unfold currentPool, ensureBank. rewrite Hd.
  destruct (questionBank e2) eqn:E2; rewrite Hb; cbn [questionBank];
    rewrite ?Hb, ?E2; reflexivity.
Qed.

Lemma questionPool_ensureBank (e : Engine) (pool : list Template) :
  questionPool (ensureBank e) pool = questionPool e pool.
Proof.
  unfold questionPool. now destruct (ensureBank_fields e) as (_ & -> & _).
Qed.

Lemma currentPool_nonempty (e : Engine) (pool : list Template) :
  currentPool e = Some pool -> pool <> [].
Proof.
  unfold currentPool. destruct (questionBank (ensureBank e)); [|discriminate].
  destruct (_ !! _) as [[|t l]|]; try discriminate.
  intros [= <-]. discriminate.
Qed.

Lemma questionPool_nonempty (e : Engine) (pool : list Template) :
  pool <> [] -> questionPool e pool <> [].
Proof.
  intros Hne. unfold questionPool.
  destruct (List.filter _ pool) as [|t l]; cbn [length]; [exact Hne|].
  replace (0 <? Z.of_nat (S (length l))) with true
    by (symmetry; apply Z.ltb_lt; lia).
  discriminate.
Qed.

Lemma questionPool_subset (e : Engine) (pool : list Template) (t : Template) :
  t ∈ questionPool e pool -> t ∈ pool.
Proof.
  unfold questionPool.
  destruct (0 <? _); [|easy].
  rewrite list_elem_of_In, filter_In, <- list_elem_of_In. tauto.
Qed.

(** While the pool has a template that is not a recent one, no recent
    template is chosen. *)
Lemma questionPool_fresh (e : Engine) (pool : list Template) (t t' : Template) :
  t' ∈ pool -> tpl_id t' ∉ recentQuestions e ->
  t ∈ questionPool e pool -> tpl_id t ∉ recentQuestions e.
Proof.
  intros Hin Hfresh. unfold questionPool.
  set (keepFresh := fun t0 => negb (includes (recentQuestions e) (tpl_id t0))).
  assert (Hav : t' ∈ List.filter keepFresh pool).
  { rewrite list_elem_of_In, filter_In, <- list_elem_of_In. split; [exact Hin|].
    unfold keepFresh, includes. now rewrite bool_decide_eq_false_2. }
  destruct (List.filter keepFresh pool) as [|a l] eqn:E.
  - now apply elem_of_nil in Hav.
  - cbn [length].
    replace (0 <? Z.of_nat (S (length l))) with true
      by (symmetry; apply Z.ltb_lt; lia).
    rewrite <- E, list_elem_of_In, filter_In. intros [_ Hk].
    unfold keepFresh, includes in Hk.
    apply negb_true_iff, bool_decide_eq_false in Hk. exact Hk.
Qed.

Lemma pushed_length (recent : list string) (x : string) :
  (length recent <= 3)%nat -> (length (pushed recent x) <= 3)%nat.
Proof.
  intros H. unfold pushed.
  destruct recent as [|a [|b [|c [|d l]]]];
    try (cbn [length] in H; lia); vm_compute; lia.
Qed.

(** Three draws of the same template fill the list with its id. *)
Lemma pushed_thrice (recent : list string) (x : string) :
  (length recent <= 3)%nat ->
  pushed (pushed (pushed recent x) x) x = [x; x; x].
Proof.
  intros H. unfold pushed.
  destruct recent as [|a [|b [|c [|d l]]]];
    try (cbn [length] in H; lia); reflexivity.
Qed.

(** One call of [getNextQuestion] on a non-empty pool. *)
Lemma getNextQuestion_step (e : Engine) (pool : list Template) (d : Draw) :
  windowBounded e -> currentPool e = Some pool -> validDraw d ->
  exists t q e',
    chosenTemplate (d_template d) e = Some t /\
    t ∈ questionPool e pool /\
    getNextQuestion (d_now d) (d_template d) (d_a d) (d_b d) e = Some (q, e') /\
    q = generateQuestion (ensureBank e) (d_now d) (d_a d) (d_b d) t /\
    currentQuestion e' = Some q /\
    recentQuestions e' = pushed (recentQuestions e) (tpl_id t) /\
    windowBounded e' /\ currentPool e' = Some pool.
Proof.
  intros [Hmax Hlen] Hpool (Ht & _ & _).
  destruct (getRandomElement_some (questionPool e pool) (d_template d) Ht)
    as [t Hsel].
  { apply questionPool_nonempty. eapply currentPool_nonempty. exact Hpool. }
  destruct (ensureBank_fields e) as (Hd & Hr & Hm & Hq).
  exists t. eexists. eexists. split; [|split; [|split; [|split; [|split; [|split; [|split]]]]]].
  - unfold chosenTemplate. rewrite Hpool. exact Hsel.
  - eapply getRandomElement_elem. exact Hsel.
  - unfold getNextQuestion.
    rewrite currentPool_ensureBank, Hpool, questionPool_ensureBank, Hsel.
    reflexivity.
  - reflexivity.
  - reflexivity.
  - cbn [setCurrentQuestion addToRecentQuestions recentQuestions].
    unfold addToRecentQuestions. cbn [recentQuestions].
    rewrite Hm, Hr, Hmax. reflexivity.
  - split.
    + cbn [setCurrentQuestion addToRecentQuestions maxRecentQuestions].
      now rewrite Hm.
    + cbn [setCurrentQuestion addToRecentQuestions recentQuestions
           maxRecentQuestions].
      rewrite Hm, Hr, Hmax. now apply pushed_length.
  - rewrite <- Hpool, <- (currentPool_ensureBank e).
    apply currentPool_same; reflexivity.
Qed.

End DrawFacts.

Section DrawClaims.
Import Js MathEngine.

Variable pool : list Template.
Hypothesis two_ids : exists t1 t2, t1 ∈ pool /\ t2 ∈ pool /\ tpl_id t1 <> tpl_id t2.

Lemma draw_cons (e : Engine) (d : Draw) (ds : list Draw) :
  drawing pool e -> validDraw d ->
  exists t q e',
    t ∈ questionPool e pool /\
    q_id q = tpl_id t +:+ "_" +:+ toString (d_now d) /\
    recentQuestions e' = pushed (recentQuestions e) (tpl_id t) /\
    drawing pool e' /\
    draw (d :: ds) e = (tpl_id t, q) :: draw ds e'.
Proof.
  intros [Hw Hp] Hd.
  destruct (getNextQuestion_step e pool d Hw Hp Hd)
    as (t & q & e' & Hc & Hin & Hn & Hq & _ & Hr & Hw' & Hp').
  exists t, q, e'. repeat split; try assumption.
  - now rewrite Hq.
  - destruct Hw'; assumption.
  - destruct Hw'; assumption.
  - cbn [draw]. now rewrite Hn, Hc.
Qed.

Lemma draw_length (ds : list Draw) (e : Engine) :
  drawing pool e -> Forall validDraw ds -> length (draw ds e) = length ds.
Proof.
  revert e. induction ds as [|d ds IH]; intros e He Hall; [reflexivity|].
  apply Forall_cons in Hall as [Hd Hall].
  destruct (draw_cons e d ds He Hd) as (t & q & e' & _ & _ & _ & He' & ->).
  cbn [length]. f_equal. now apply IH.
Qed.

Lemma draw_ids (ds : list Draw) (e : Engine) (k : nat) (d : Draw)
    (id : string) (q : Question) :
  drawing pool e -> Forall validDraw ds ->
  ds !! k = Some d -> draw ds e !! k = Some (id, q) ->
  q_id q = id +:+ "_" +:+ toString (d_now d) /\
  exists t, t ∈ pool /\ tpl_id t = id.
Proof.
  revert e k. induction ds as [|d0 ds IH]; intros e k He Hall Hk Ho;
    [discriminate Hk|].
  apply Forall_cons in Hall as [Hd Hall].
  destruct (draw_cons e d0 ds He Hd) as (t & q0 & e' & Hin & Hid & _ & He' & Heq).
  rewrite Heq in Ho. destruct k as [|k].
  - injection Hk as <-. injection Ho as <- <-. split; [exact Hid|].
    exists t. split; [|reflexivity]. eapply questionPool_subset. exact Hin.
  - eapply IH; eassumption.
Qed.

(** After three draws of the template [x], the fourth draw is another
    template. *)
Lemma fourth_differs (e : Engine) (t : Template) (x : string) :
  drawing pool e -> recentQuestions e = [x; x; x] ->
  t ∈ questionPool e pool -> tpl_id t <> x.
Proof.
  intros He Hr Hin Heq.
  destruct two_ids as (t1 & t2 & H1 & H2 & Hne).
  assert (Hfresh : exists t', t' ∈ pool /\ tpl_id t' ∉ recentQuestions e).
  { rewrite Hr. destruct (decide (tpl_id t1 = x)) as [E1|E1].
    - exists t2. split; [exact H2|]. intros Hx.
      repeat (apply elem_of_cons in Hx as [Hx|Hx]; [congruence|]).
      now apply elem_of_nil in Hx.
    - exists t1. split; [exact H1|]. intros Hx.
      repeat (apply elem_of_cons in Hx as [Hx|Hx]; [congruence|]).
      now apply elem_of_nil in Hx. }
  destruct Hfresh as (t' & Hin' & Hf').
  apply (questionPool_fresh e pool t t' Hin' Hf' Hin).
  rewrite Hr, Heq. apply elem_of_cons. now left.
Qed.

Lemma draw_window (k : nat) (ds : list Draw) (e : Engine) (x : string) :
  drawing pool e -> Forall validDraw ds ->
  ~ ((draw ds e).*1 !! k = Some x /\
     (draw ds e).*1 !! S k = Some x /\
     (draw ds e).*1 !! S (S k) = Some x /\
     (draw ds e).*1 !! S (S (S k)) = Some x).
Proof.
  revert ds e. induction k as [|k IH]; intros ds e He Hall.
  - destruct ds as [|d1 [|d2 [|d3 [|d4 ds]]]];
      repeat match goal with
             | H : Forall validDraw (_ :: _) |- _ =>
                 apply Forall_cons in H as [? H]
             end.
    + intros (Hk & _). discriminate Hk.
    + destruct (draw_cons e d1 [] He) as (t1 & q1 & e1 & _ & _ & _ & _ & ->);
        [assumption|].
      intros (_ & Hk & _). discriminate Hk.
    + destruct (draw_cons e d1 [d2] He) as (t1 & q1 & e1 & _ & _ & _ & He1 & ->);
        [assumption|].
      destruct (draw_cons e1 d2 [] He1) as (t2 & q2 & e2 & _ & _ & _ & _ & ->);
        [assumption|].
      intros (_ & _ & Hk & _). discriminate Hk.
    + destruct (draw_cons e d1 [d2; d3] He)
        as (t1 & q1 & e1 & _ & _ & _ & He1 & ->); [assumption|].
      destruct (draw_cons e1 d2 [d3] He1)
        as (t2 & q2 & e2 & _ & _ & _ & He2 & ->); [assumption|].
      destruct (draw_cons e2 d3 [] He2)
        as (t3 & q3 & e3 & _ & _ & _ & _ & ->); [assumption|].
      intros (_ & _ & _ & Hk). discriminate Hk.
    + destruct (draw_cons e d1 (d2 :: d3 :: d4 :: ds) He)
        as (t1 & q1 & e1 & _ & _ & Hr1 & He1 & ->); [assumption|].
      destruct (draw_cons e1 d2 (d3 :: d4 :: ds) He1)
        as (t2 & q2 & e2 & _ & _ & Hr2 & He2 & ->); [assumption|].
      destruct (draw_cons e2 d3 (d4 :: ds) He2)
        as (t3 & q3 & e3 & _ & _ & Hr3 & He3 & ->); [assumption|].
      destruct (draw_cons e3 d4 ds He3)
        as (t4 & q4 & e4 & Hin4 & _ & _ & _ & ->); [assumption|].
      cbn. intros ([= X1] & [= X2] & [= X3] & [= X4]).
      apply (fourth_differs e3 t4 x He3); [|exact Hin4|exact X4].
      rewrite Hr3, Hr2, Hr1, X1, X2, X3.
      apply pushed_thrice. destruct He as [[_ Hlen] _]. exact Hlen.
  - destruct ds as [|d ds].
    + intros (Hk & _). discriminate Hk.
    + apply Forall_cons in Hall as [Hd Hall].
      destruct (draw_cons e d ds He Hd) as (t & q & e' & _ & _ & _ & He' & ->).
      cbn. now apply IH.
Qed.

End DrawClaims.

Section DrawTheorems.
Import Js MathEngine.

(** Every engine reached through the methods keeps at most three recent
    questions. *)
Lemma reachable_windowBounded (e : Engine) : reachable e -> windowBounded e.
Proof.
  induction 1 as [|d e _ IH|level e _ IH|now rt ra rb e q e' _ IH Hn|e _ IH].
  - split; [reflexivity|cbn; lia].
  - exact IH.
  - destruct IH as [Hm Hl]. unfold setDifficulty.
    destruct (negb _); split; cbn; try assumption; lia.
  - destruct IH as [Hm Hl]. unfold getNextQuestion in Hn.
    destruct (ensureBank_fields e) as (_ & Hr & Hmx & _).
    destruct (currentPool (ensureBank e)).
    + destruct (getRandomElement _ rt); [|discriminate].
      injection Hn as _ <-. split.
      * cbn. now rewrite Hmx.
      * cbn [setCurrentQuestion addToRecentQuestions recentQuestions
             maxRecentQuestions].
        rewrite Hmx, Hr, Hm. now apply pushed_length.
    + injection Hn as _ <-. split; [now rewrite Hmx | now rewrite Hr].
  - destruct IH as [Hm Hl]. split; cbn; [assumption|lia].
Qed.

(** C4.  In a run of draws from a pool with at least two template ids,
    every call returns a question generated from a template of the pool,
    no four consecutive questions come from the same template, and so a
    run of four or more draws uses at least two template ids. *)
Theorem draw_two_templates (e : Engine) (pool : list Template)
    (ds : list Draw) :
  windowBounded e ->
  currentPool e = Some pool ->
  (exists t1 t2, t1 ∈ pool /\ t2 ∈ pool /\ tpl_id t1 <> tpl_id t2) ->
  Forall validDraw ds ->
  let out := draw ds e in
  length out = length ds /\
  (forall k d id q,
      ds !! k = Some d -> out !! k = Some (id, q) ->
      q_id q = id +:+ "_" +:+ toString (d_now d) /\
      exists t, t ∈ pool /\ tpl_id t = id) /\
  (forall k x,
      ~ (out.*1 !! k = Some x /\ out.*1 !! S k = Some x /\
         out.*1 !! S (S k) = Some x /\ out.*1 !! S (S (S k)) = Some x)) /\
  ((4 <= length ds)%nat ->
   exists i j x y, out.*1 !! i = Some x /\ out.*1 !! j = Some y /\ x <> y).
Proof.
  intros Hw Hp Hids Hall out.
  assert (He : drawing pool e) by (split; assumption).
  assert (Hlen : length out = length ds) by now apply (draw_length pool).
  assert (Hwin : forall k x,
             ~ (out.*1 !! k = Some x /\ out.*1 !! S k = Some x /\
                out.*1 !! S (S k) = Some x /\ out.*1 !! S (S (S k)) = Some x))
    by (intros k x; now apply (draw_window pool Hids)).
  split; [exact Hlen|]. split; [|split; [exact Hwin|]].
  - intros k d id q. now apply (draw_ids pool).
  - intros H4.
    destruct (lookup_lt_is_Some_2 (out.*1) 0) as [x0 H0];
      [rewrite length_fmap; lia|].
    destruct (lookup_lt_is_Some_2 (out.*1) 1) as [x1 H1];
      [rewrite length_fmap; lia|].
    destruct (lookup_lt_is_Some_2 (out.*1) 2) as [x2 H2];
      [rewrite length_fmap; lia|].
    destruct (lookup_lt_is_Some_2 (out.*1) 3) as [x3 H3];
      [rewrite length_fmap; lia|].
    destruct (decide (x0 = x1)) as [E1|N1]; [|now exists 0%nat, 1%nat, x0, x1].
    destruct (decide (x0 = x2)) as [E2|N2]; [|now exists 0%nat, 2%nat, x0, x2].
    destruct (decide (x0 = x3)) as [E3|N3]; [|now exists 0%nat, 3%nat, x0, x3].
    subst x1 x2 x3. now elim (Hwin 0%nat x0).
Qed.

Lemma draw_two_templates_witness :
  let ds := [mkDraw 1000 0 (1 # 4) (3 # 4); mkDraw 2000 (1 # 2) (1 # 2) 0;
             mkDraw 3000 (3 # 4) 0 (1 # 3); mkDraw 4000 0 (1 # 5) (4 # 5)] in
  exists i j x y,
    (draw ds constructor).*1 !! i = Some x /\
    (draw ds constructor).*1 !! j = Some y /\ x <> y.
Proof.
  intros ds.
  refine (proj2 (proj2 (proj2
    (draw_two_templates constructor
       (default [] (getDefaultQuestionBank !! "easy")) ds _ _ _ _))) _).
  - split; [reflexivity|cbn; lia].
  - reflexivity.
  - eexists _, _. split; [apply list_elem_of_here|].
    split; [apply list_elem_of_further, list_elem_of_here|discriminate].
  - repeat constructor; cbn; unfold Qle, Qlt; cbn; lia.
  - cbn; lia.
Defined.

End DrawTheorems.

Section FallbackClaims.
Import Js MathEngine.

(** With a random number of the unit interval, [getNextQuestion] returns
    a question. *)
Lemma getNextQuestion_returns (now : Z) (rt ra rb : Q) (e : Engine) :
  unitRandom rt -> exists q e', getNextQuestion now rt ra rb e = Some (q, e').
Proof.
  intros Hr. unfold getNextQuestion.
  destruct (currentPool (ensureBank e)) as [pool|] eqn:Hp; [|eauto].
  destruct (getRandomElement_some (questionPool (ensureBank e) pool) rt Hr)
    as [t ->]; [|eauto].
  apply questionPool_nonempty. eapply currentPool_nonempty. exact Hp.
Qed.

(** On a missing or empty pool the fallback question is returned and the
    current question stays what it was. *)
Lemma getNextQuestion_fallback (now : Z) (rt ra rb : Q) (e : Engine) :
  currentPool e = None ->
  getNextQuestion now rt ra rb e
  = Some (generateFallbackQuestion now ra rb, ensureBank e) /\
  currentQuestion (ensureBank e) = currentQuestion e.
Proof.
  intros Hp. unfold getNextQuestion.
  rewrite currentPool_ensureBank, Hp. split; [reflexivity|].
  apply ensureBank_fields.
Qed.

(** C7, at the failing input: a bank whose pools are empty.  The call
    returns the fallback question, but the engine has no current
    question afterwards, and validating against it fails. *)
Theorem getNextQuestion_fallback_not_current :
  let e := initialize (Some {[ "easy" := []; "medium" := []; "hard" := [] ]})
             constructor in
  exists q e',
    getNextQuestion 1000 (1 # 2) (1 # 4) (3 # 4) e = Some (q, e') /\
    q_id q = "fallback_1000" /\ q_questionText q = "3 + 8 = ?" /\
    q_answer q = 11 /\
    currentQuestion e' = None /\
    currentQuestion e' <> Some q /\
    validateAnswer (1 # 2) (VString "11") None e'
    = Some (mkValidation false false None None None
              "No question to validate against").
Proof.
  intros e. eexists. eexists.
  split; [vm_compute; reflexivity|].
  repeat split; try reflexivity. discriminate.
Qed.

End FallbackClaims.

(** ** Accuracy and stars *)

Section GradingClaims.
Import ProgressManager.

Lemma Qle_bool_false (x y : Q) : Qle_bool x y = false <-> (y < x)%Q.
Proof.
  split.
  - intros H. apply Qnot_le_lt. intros Hle.
    apply Qle_bool_iff in Hle. congruence.
  - intros H. destruct (Qle_bool x y) eqn:E; [|reflexivity].
    apply Qle_bool_iff in E. lra.
Qed.

(** C3.  The accuracy is 0 without answers and the percentage of correct
    answers otherwise; the stars are 3 from 95, 2 from 80, 1 from 60 and
    0 below, so a session without answers earns no star. *)
Theorem accuracy_and_stars (m : Manager) :
  let s := sessionData m in
  let accuracy := calculateAccuracy m in
  (totalAnswers s = 0 -> accuracy = 0%Q /\ calculateStars m = 0) /\
  (totalAnswers s <> 0 ->
   accuracy
   = (inject_Z (correctAnswers s) / inject_Z (totalAnswers s) * 100)%Q) /\
  (calculateStars m = 3 <-> (95 <= accuracy)%Q) /\
  (calculateStars m = 2 <-> (80 <= accuracy)%Q /\ (accuracy < 95)%Q) /\
  (calculateStars m = 1 <-> (60 <= accuracy)%Q /\ (accuracy < 80)%Q) /\
  (calculateStars m = 0 <-> (accuracy < 60)%Q).
Proof.
  intros s accuracy. split; [|split].
  - intros H0. unfold accuracy, calculateStars, calculateAccuracy.
    fold s. rewrite H0. split; reflexivity.
  - intros Hn. unfold accuracy, calculateAccuracy. fold s.
    apply Z.eqb_neq in Hn. now rewrite Hn.
  - unfold calculateStars. fold accuracy.
    destruct (Qle_bool 95 accuracy) eqn:E95;
      [apply Qle_bool_iff in E95 | apply Qle_bool_false in E95];
      (destruct (Qle_bool 80 accuracy) eqn:E80;
       [apply Qle_bool_iff in E80 | apply Qle_bool_false in E80]);
      (destruct (Qle_bool 60 accuracy) eqn:E60;
       [apply Qle_bool_iff in E60 | apply Qle_bool_false in E60]);
      repeat split; intros; try discriminate; try lra;
      match goal with
      | H : _ /\ _ |- _ => destruct H; lra
      | _ => idtac
      end.
Qed.

Lemma accuracy_and_stars_witness :
  let empty := constructor 0 "abc" in
  let mixed := recordAnswer false (recordAnswer true (recordAnswer true empty)) in
  (calculateAccuracy empty = 0%Q /\ calculateStars empty = 0) /\
  calculateAccuracy mixed = (inject_Z 2 / inject_Z 3 * 100)%Q /\
  calculateStars mixed = 1.
Proof.
  intros empty mixed. split; [|split].
  - apply (accuracy_and_stars empty). reflexivity.
  - apply (accuracy_and_stars mixed). discriminate.
  - apply (accuracy_and_stars mixed).
    split; vm_compute; [discriminate | reflexivity].
Defined.

(** The stars at the boundaries: 95, 94, 80, 79, 60 and 59 correct
    answers out of 100. *)
Example stars_boundaries :
  let session correct :=
    mkManager (mkSession "easy" 0 5 0 correct (100 - correct) 100 0 0 0 0)
      (getDefaultPersistentData 0 "abc") in
  map (fun correct => calculateStars (session correct)) [95; 94; 80; 79; 60; 59]
  = [3; 2; 2; 1; 1; 0].
Proof. reflexivity. Qed.

End GradingClaims.

(** ** Sessions and the persistent record *)

Section ProgressClaims.
Import ProgressManager.

Variable JSON_parse : string -> option Json.
Variable JSON_stringify : SavedData -> string.
Variable spreadPersistent : PersistentData -> Json -> PersistentData.

Local Abbreviation completeSession := (completeSession JSON_stringify).
Local Abbreviation loadProgress := (loadProgress JSON_parse spreadPersistent).
Local Abbreviation exec := (exec JSON_parse JSON_stringify spreadPersistent).
Local Abbreviation run := (run JSON_parse JSON_stringify spreadPersistent).

(** What [completeSession] does to the high scores. *)
Lemma completeSession_highScores (now : Z) (m : Manager) (st : Storage) :
  let s := sessionData m in
  highScores (persistentData (completeSession now m st).1.2)
  = match highScores (persistentData m) !! difficulty s with
    | Some h =>
        if h <? score s then <[difficulty s := score s]> (highScores (persistentData m))
        else highScores (persistentData m)
    | None => highScores (persistentData m)
    end.
Proof.
  unfold ProgressManager.completeSession. cbn.
  destruct (highScores (persistentData m) !! difficulty (sessionData m))
    as [h|] eqn:Eh; [destruct (h <? score (sessionData m))|]; cbn;
    destruct (levelsCompleted (persistentData m) !! difficulty (sessionData m));
    cbn; try destruct (negb _); reflexivity.
Qed.

Lemma exec_highScores (c : Call) (ms : Manager * Storage) :
  replacesPersistent c = false ->
  match c with
  | CallCompleteSession now =>
      highScores (persistentData (exec c ms).1)
      = highScores (persistentData (completeSession now ms.1 ms.2).1.2)
  | _ => highScores (persistentData (exec c ms).1)
         = highScores (persistentData ms.1)
  end.
Proof.
  destruct ms as [m st]. destruct c; cbn; try discriminate; intros _;
    try reflexivity.
  - unfold incrementScore. now destruct (points <? 0).
  - unfold addBananas. now destruct (count <? 0).
  - now destruct (ProgressManager.completeSession JSON_stringify now m st)
      as [[o m'] st'].
Qed.

Lemma getHighScore_exec (c : Call) (ms : Manager * Storage) (tier : string) :
  replacesPersistent c = false ->
  getHighScore tier ms.1 <= getHighScore tier (exec c ms).1.
Proof.
  intros Hc. pose proof (exec_highScores c ms Hc) as H.
  unfold getHighScore.
  destruct c; try (rewrite H; lia).
  rewrite H, completeSession_highScores. cbv zeta.
  destruct (highScores (persistentData ms.1) !! difficulty (sessionData ms.1))
    as [h|] eqn:Eh; [|lia].
  destruct (h <? score (sessionData ms.1)) eqn:Elt; [|lia].
  apply Z.ltb_lt in Elt.
  destruct (decide (tier = difficulty (sessionData ms.1))) as [->|Hne].
  - rewrite lookup_insert_eq, Eh. cbn. lia.
  - rewrite lookup_insert_ne by congruence. lia.
Qed.

Lemma getHighScore_run (cs : list Call) (ms : Manager * Storage)
    (tier : string) :
  forallb (fun c => negb (replacesPersistent c)) cs = true ->
  getHighScore tier ms.1 <= getHighScore tier (run cs ms).1.
Proof.
  revert ms. induction cs as [|c cs IH]; intros ms Hcs; [cbn; lia|].
  cbn [forallb] in Hcs. apply andb_true_iff in Hcs as [Hc Hcs].
  apply negb_true_iff in Hc.
  change (run (c :: cs) ms) with (run cs (exec c ms)).
  etransitivity; [apply (getHighScore_exec c ms tier Hc)|now apply IH].
Qed.

(** C8.  When the tier of the session has a high score, [completeSession]
    makes it the larger of that score and the score of the session, and
    leaves the high scores of the other tiers alone.  Whatever the calls,
    as long as the record is not replaced by a loaded, imported or
    default one, the high score of no tier decreases; after sessions of
    500 and of 300 points on the hard tier it is 500. *)
Theorem highScore_max_monotone :
  (forall (now : Z) (m : Manager) (st : Storage) (h : Z),
      highScores (persistentData m) !! difficulty (sessionData m) = Some h ->
      let m' := (completeSession now m st).1.2 in
      highScores (persistentData m') !! difficulty (sessionData m)
      = Some (Z.max h (score (sessionData m))) /\
      getHighScore (difficulty (sessionData m)) m'
      = Z.max (getHighScore (difficulty (sessionData m)) m)
          (score (sessionData m)) /\
      forall tier, tier <> difficulty (sessionData m) ->
        highScores (persistentData m') !! tier
        = highScores (persistentData m) !! tier) /\
  (forall (cs : list Call) (ms : Manager * Storage) (tier : string),
      forallb (fun c => negb (replacesPersistent c)) cs = true ->
      getHighScore tier ms.1 <= getHighScore tier (run cs ms).1) /\
  getHighScore "hard"
    (run [CallStartSession 10 "hard" 5; CallIncrementScore 500;
          CallRecordAnswer true; CallCompleteSession 20;
          CallStartSession 30 "hard" 5; CallIncrementScore 300;
          CallRecordAnswer true; CallCompleteSession 40]
       (constructor 0 "abc", emptyStorage)).1 = 500.
Proof.
  split; [|split].
  - intros now m st h Hh m'. subst m'.
    unfold getHighScore.
    rewrite completeSession_highScores. cbv zeta. rewrite Hh.
    destruct (h <? score (sessionData m)) eqn:E.
    + apply Z.ltb_lt in E. rewrite lookup_insert_eq. cbn.
      repeat split; [f_equal; lia | lia |].
      intros tier Hne. now rewrite lookup_insert_ne by congruence.
    + apply Z.ltb_ge in E. rewrite Hh. cbn.
      repeat split; [f_equal; lia | lia].
  - apply getHighScore_run.
  - vm_compute. reflexivity.
Qed.

(** C9.  With a stored text that [JSON.parse] rejects, [loadProgress]
    returns [false] and changes nothing, exactly as with no stored text;
    the persistent record of a new manager is still the default one. *)
Theorem loadProgress_corrupted (now : Z) (suffix : string) (m : Manager)
    (st : Storage) (saved : string) :
  getItem storageKey st = Some (Some saved) ->
  JSON_parse saved = None ->
  loadProgress now suffix m st = (false, m) /\
  (forall st0, getItem storageKey st0 = Some None ->
     loadProgress now suffix m st0 = loadProgress now suffix m st) /\
  (forall now0 suffix0,
     persistentData (loadProgress now suffix (constructor now0 suffix0) st).2
     = getDefaultPersistentData now0 suffix0).
Proof.
  intros Hget Hparse.
  assert (Hload : forall m0, loadProgress now suffix m0 st = (false, m0)).
  { intros m0. unfold ProgressManager.loadProgress. rewrite Hget.
    destruct (String.eqb saved ""); [reflexivity|].
    now rewrite Hparse. }
  split; [apply Hload|]. split.
  - intros st0 Hnone. rewrite Hload.
    unfold ProgressManager.loadProgress. now rewrite Hnone.
  - intros now0 suffix0. now rewrite Hload.
Qed.

Lemma exec_completeSession (now : Z) (m : Manager) (st : Storage) :
  (exec (CallCompleteSession now) (m, st)).1 = (completeSession now m st).1.2.
Proof.
  cbn [ProgressManager.exec].
  now destruct (ProgressManager.completeSession JSON_stringify now m st)
    as [[o m'] st'].
Qed.

Lemma completeSession_counters (now : Z) (m : Manager) (st : Storage) :
  counters (completeSession now m st).1.2 = counters m.
Proof.
  unfold ProgressManager.completeSession. cbn.
  destruct (highScores (persistentData m) !! difficulty (sessionData m))
    as [h|]; [destruct (h <? score (sessionData m))|]; cbn;
    destruct (levelsCompleted (persistentData m) !! difficulty (sessionData m));
    cbn; try destruct (negb _); reflexivity.
Qed.

Lemma exec_counters (c : Call) (ms : Manager * Storage) :
  startsFresh c = false -> isRecordAnswer c = false ->
  counters (exec c ms).1 = counters ms.1.
Proof.
  destruct ms as [m st].
  destruct c; cbn [startsFresh isRecordAnswer]; try discriminate;
    intros _ _; cbn [ProgressManager.exec fst snd]; try reflexivity.
  - unfold initialize, ProgressManager.loadProgress.
    repeat case_match; reflexivity.
  - unfold incrementScore. now destruct (points <? 0).
  - unfold addBananas. now destruct (count <? 0).
  - fold (exec (CallCompleteSession now) (m, st)).
    rewrite exec_completeSession. apply completeSession_counters.
  - unfold ProgressManager.loadProgress. repeat case_match; reflexivity.
  - unfold ProgressManager.importProgress.
    repeat case_match; simplify_eq; reflexivity.
Qed.

Lemma exec_consistent (c : Call) (ms : Manager * Storage) :
  countersConsistent ms.1 -> countersConsistent (exec c ms).1.
Proof.
  destruct (startsFresh c) eqn:Ef; [|destruct (isRecordAnswer c) eqn:Er].
  - destruct ms as [m st]. destruct c; try discriminate; intros _.
    + reflexivity.
    + reflexivity.
    + cbn [ProgressManager.exec]. unfold resetAllProgress.
      now destruct (removeItem storageKey st).
  - destruct ms as [m st]. destruct c; try discriminate.
    unfold countersConsistent. cbn. destruct isCorrect; lia.
  - unfold countersConsistent.
    pose proof (exec_counters c ms Ef Er) as H. unfold counters in H.
    injection H as -> -> ->. tauto.
Qed.

(** C10.  A call that starts or resets a session sets the three counters
    to 0; [recordAnswer] adds 1 to the total and to exactly one of the
    other two; no other call changes a counter.  So every call keeps the
    total equal to the sum of the other two, and it holds after every
    sequence of calls on a new manager. *)
Theorem session_counters :
  (forall now suffix, counters (constructor now suffix) = (0, 0, 0)) /\
  (forall (c : Call) (ms : Manager * Storage),
      startsFresh c = true -> counters (exec c ms).1 = (0, 0, 0)) /\
  (forall (isCorrect : bool) (ms : Manager * Storage),
      counters (exec (CallRecordAnswer isCorrect) ms).1
      = (let '(total, correct, incorrect) := counters ms.1 in
         (total + 1,
          if isCorrect then correct + 1 else correct,
          if isCorrect then incorrect else incorrect + 1))) /\
  (forall (c : Call) (ms : Manager * Storage),
      startsFresh c = false -> isRecordAnswer c = false ->
      counters (exec c ms).1 = counters ms.1) /\
  (forall (c : Call) (ms : Manager * Storage),
      countersConsistent ms.1 -> countersConsistent (exec c ms).1) /\
  (forall (cs : list Call) now suffix (st : Storage),
      countersConsistent (run cs (constructor now suffix, st)).1).
Proof.
  split; [reflexivity|]. split; [|split; [|split; [|split]]].
  - intros c [m st] Hf. destruct c; try discriminate; try reflexivity.
    cbn [ProgressManager.exec]. unfold resetAllProgress.
    now destruct (removeItem storageKey st).
  - intros isCorrect [m st]. reflexivity.
  - apply exec_counters.
  - apply exec_consistent.
  - intros cs now suffix st.
    assert (H0 : countersConsistent (constructor now suffix, st).1)
      by reflexivity.
    revert H0. generalize (constructor now suffix, st).
    induction cs as [|c cs IH]; intros ms Hms; [exact Hms|].
    change (run (c :: cs) ms) with (run cs (exec c ms)).
    apply IH. now apply exec_consistent.
Qed.

End ProgressClaims.

Section ProgressWitnesses.
Import ProgressManager.

Lemma highScore_max_monotone_witness :
  let parse := fun _ : string => @None Json in
  let stringify := fun _ : SavedData => "{}" in
  let spread := fun (p : PersistentData) (_ : Json) => p in
  let m := incrementScore 500 (startSession 10 "hard" 5 (constructor 0 "abc")) in
  highScores (persistentData (completeSession stringify 20 m emptyStorage).1.2)
    !! "hard" = Some (Z.max 0 500) /\
  getHighScore "hard" (constructor 0 "abc")
  <= getHighScore "hard"
       (run parse stringify spread
          [CallStartSession 10 "hard" 5; CallIncrementScore 500;
           CallCompleteSession 20]
          (constructor 0 "abc", emptyStorage)).1.
Proof.
  intros parse stringify spread m.
  destruct (highScore_max_monotone parse stringify spread) as (Hmax & Hmono & _).
  split.
  - apply (Hmax 20 m emptyStorage 0). reflexivity.
  - apply (Hmono _ (constructor 0 "abc", emptyStorage) "hard"). reflexivity.
Defined.

Lemma loadProgress_corrupted_witness :
  let parse := fun _ : string => @None Json in
  let spread := fun (p : PersistentData) (_ : Json) => p in
  let st := mkStorage {[ storageKey := "invalid json {]" ]} false false in
  loadProgress parse spread 5 "xyz" (constructor 0 "abc") st
  = (false, constructor 0 "abc").
Proof.
  intros parse spread st.
  refine (proj1 (loadProgress_corrupted parse spread 5 "xyz"
                   (constructor 0 "abc") st "invalid json {]" _ _));
    reflexivity.
Defined.

Lemma session_counters_witness :
  let parse := fun _ : string => @None Json in
  let stringify := fun _ : SavedData => "{}" in
  let spread := fun (p : PersistentData) (_ : Json) => p in
  let ms := (recordAnswer true (constructor 0 "abc"), emptyStorage) in
  counters (exec parse stringify spread (CallStartSession 7 "medium" 5) ms).1
  = (0, 0, 0) /\
  counters (exec parse stringify spread (CallCompleteSession 9) ms).1
  = counters ms.1 /\
  countersConsistent (exec parse stringify spread (CallIncrementScore 10) ms).1.
Proof.
  intros parse stringify spread ms.
  destruct (session_counters parse stringify spread)
    as (_ & Hfresh & _ & Hsame & Hkeep & _).
  split; [|split].
  - apply (Hfresh (CallStartSession 7 "medium" 5) ms). reflexivity.
  - apply (Hsame (CallCompleteSession 9) ms); reflexivity.
  - apply (Hkeep (CallIncrementScore 10) ms). reflexivity.
Defined.

End ProgressWitnesses.

(** * Further properties *)

(** ** Printing and reading a number *)

Section NumberRoundTrip.
Import Js.

Lemma readDigits_of_uint_acc (d : Decimal.uint) (p : positive) :
  readDigits (Z.pos p) true (NilEmpty.string_of_uint d)
  = Some (Z.pos (Pos.of_uint_acc d p)).
Proof.
  revert p. induction d; intros p;
    cbn [NilEmpty.string_of_uint Pos.of_uint_acc readDigits];
    [reflexivity|..];
    match goal with
    | |- context [isDigit ?c] => change (isDigit c) with true
    end; cbv iota; rewrite <- IHd; f_equal;
    match goal with
    | |- context [digitValue ?c] =>
        let v := eval vm_compute in (digitValue c) in
        change (digitValue c) with v
    end; lia.
Qed.

Lemma readDigits_of_uint (d : Decimal.uint) (seen : bool) :
  readDigits 0 seen (NilEmpty.string_of_uint d)
  = match d with
    | Decimal.Nil => if seen then Some 0 else None
    | _ => Some (Z.of_N (Pos.of_uint d))
    end.
Proof.
  revert seen. induction d; intros seen;
    cbn [NilEmpty.string_of_uint Pos.of_uint readDigits];
    [reflexivity|..];
    match goal with
    | |- context [isDigit ?c] => change (isDigit c) with true
    end; cbv iota; try apply readDigits_of_uint_acc.
  change (10 * 0 + digitValue "0") with 0. rewrite IHd.
  now destruct d.
Qed.

Lemma string_of_uint_head (d : Decimal.uint) :
  d <> Decimal.Nil ->
  exists c s, NilEmpty.string_of_uint d = String c s /\ isDigit c = true.
Proof.
  destruct d; [congruence|..]; intros _;
    cbn [NilEmpty.string_of_uint]; eexists _, _; split; reflexivity.
Qed.

(** Reading a printed integer gives the integer back. *)
Lemma parseInt_toString (n : Z) : parseInt (toString n) = Some n.
Proof.
  unfold toString. destruct n as [|p|p]; [reflexivity|..];
    cbn [Z.to_int NilEmpty.string_of_int].
  - destruct (string_of_uint_head (Pos.to_uint p)) as (c & s & E & Hc);
      [apply Unsigned.to_uint_nonnil|].
    rewrite E, parseInt_unsigned by exact Hc. rewrite <- E.
    rewrite readDigits_of_uint.
    pose proof (Unsigned.to_uint_nonnil p).
    destruct (Pos.to_uint p) eqn:Ep; [congruence|..];
      rewrite <- Ep, DecimalPos.Unsigned.of_to; reflexivity.
  - unfold parseInt. rewrite trimStart_id by reflexivity.
    rewrite readDigits_of_uint.
    pose proof (Unsigned.to_uint_nonnil p).
    destruct (Pos.to_uint p) eqn:Ep; [congruence|..];
      rewrite <- Ep, DecimalPos.Unsigned.of_to; reflexivity.
Qed.

End NumberRoundTrip.

(** ** More on question generation *)

Section GenerationBounds.
Import Js MathEngine.

(** X1.  With a well-formed range, both operands of a generated question
    lie in the range of the template; the answer of a subtraction lies
    between 0 and the width of the range, and every other answer is the
    sum of the operands, between twice the lower and twice the upper
    bound. *)
Theorem generateQuestion_bounds (e : Engine) (now : Z) (ra rb : Q)
    (t : Template) :
  unitRandom ra -> unitRandom rb -> tpl_minValue t <= tpl_maxValue t ->
  let q := generateQuestion e now ra rb t in
  tpl_minValue t <= fst (q_values q) <= tpl_maxValue t /\
  tpl_minValue t <= snd (q_values q) <= tpl_maxValue t /\
  (tpl_operation t = "subtraction" ->
   0 <= q_answer q <= tpl_maxValue t - tpl_minValue t) /\
  (tpl_operation t <> "subtraction" ->
   q_answer q = fst (q_values q) + snd (q_values q) /\
   2 * tpl_minValue t <= q_answer q <= 2 * tpl_maxValue t).
Proof.
  intros Ha Hb Hle q.
  pose proof (randomInt_range _ _ ra Ha Hle) as Hra.
  pose proof (randomInt_range _ _ rb Hb Hle) as Hrb.
  unfold q, generateQuestion. cbn [q_values q_answer fst snd].
  split; [exact Hra|]. split; [exact Hrb|]. split.
  - intros Hop.
    destruct (String.eqb_spec (tpl_operation t) "addition") as [E|_];
      [rewrite Hop in E; discriminate E|].
    destruct (String.eqb_spec (tpl_operation t) "subtraction");
      [lia|contradiction].
  - intros Hop.
    destruct (String.eqb_spec (tpl_operation t) "addition"); [lia|].
    destruct (String.eqb_spec (tpl_operation t) "subtraction");
      [contradiction|lia].
Qed.

Lemma generateQuestion_bounds_witness :
  let t := mkTemplate "add_hard_001" "equation" "addition" "{a} + {b} = ?"
             25 50 (Some false) None in
  let q := generateQuestion constructor 0 (1 # 2) (9 # 10) t in
  q_answer q = fst (q_values q) + snd (q_values q) /\
  2 * 25 <= q_answer q <= 2 * 50.
Proof.
  intros t q.
  refine (proj2 (proj2 (proj2
    (generateQuestion_bounds constructor 0 (1 # 2) (9 # 10) t _ _ _))) _).
  - split; unfold Qle, Qlt; cbn; lia.
  - split; unfold Qle, Qlt; cbn; lia.
  - cbn. lia.
  - discriminate.
Defined.

(** X2.  As long as the pool holds a template whose id is not among the
    recent ones, [getNextQuestion] generates the question from such a
    template: the template is in the pool, its id was not a recent one
    and (with a positive bound on the list) is the newest recent one
    afterwards, and the question is the current one. *)
Theorem getNextQuestion_avoids_recent (now : Z) (rt ra rb : Q) (e : Engine)
    (pool : list Template) (fresh : Template) :
  unitRandom rt -> currentPool e = Some pool ->
  0 < maxRecentQuestions e ->
  fresh ∈ pool -> (tpl_id fresh ∉ recentQuestions e) ->
  exists t q e',
    getNextQuestion now rt ra rb e = Some (q, e') /\
    t ∈ pool /\ (tpl_id t ∉ recentQuestions e) /\
    q = generateQuestion (ensureBank e) now ra rb t /\
    q_difficulty q = currentDifficulty e /\
    currentQuestion e' = Some q /\
    last (recentQuestions e') = Some (tpl_id t).
Proof.
  intros Hr Hp Hmax Hin Hfresh.
  destruct (getRandomElement_some (questionPool e pool) rt Hr) as [t Hsel].
  { apply questionPool_nonempty. eapply currentPool_nonempty. exact Hp. }
  pose proof (getRandomElement_elem _ _ _ Hsel) as Ht.
  destruct (ensureBank_fields e) as (Hd & Hrec & Hmx & _).
  exists t. eexists. eexists. split.
  { unfold getNextQuestion.
    rewrite currentPool_ensureBank, Hp, questionPool_ensureBank, Hsel.
    reflexivity. }
  split; [eapply questionPool_subset; exact Ht|].
  split; [exact (questionPool_fresh e pool t fresh Hin Hfresh Ht)|].
  split; [reflexivity|]. split; [exact Hd|]. split; [reflexivity|].
  cbn [setCurrentQuestion addToRecentQuestions recentQuestions].
  rewrite Hrec, Hmx.
  destruct (Z.ltb (maxRecentQuestions e) _) eqn:E.
  - destruct (recentQuestions e) as [|x l].
    + apply Z.ltb_lt in E. cbn in E. lia.
    + cbn [app tail]. apply last_snoc.
  - apply last_snoc.
Qed.

Lemma getNextQuestion_avoids_recent_witness :
  let e := mkEngine None "medium" ["add_medium_001"; "sub_medium_001"] 3 None in
  exists t q e',
    getNextQuestion 5 (1 # 3) (1 # 2) (1 # 2) e = Some (q, e') /\
    (tpl_id t ∉ recentQuestions e) /\
    last (recentQuestions e') = Some (tpl_id t).
Proof.
  intros e.
  destruct (getNextQuestion_avoids_recent 5 (1 # 3) (1 # 2) (1 # 2) e
              (default [] (getDefaultQuestionBank !! "medium"))
              (mkTemplate "add_medium_002" "word-problem" "addition"
                 "The gorilla swung past {a} vines and then {b} more. How many vines total?"
                 10 25 (Some false) None))
    as (t & q & e' & Hn & _ & Hf & _ & _ & _ & Hl).
  - split; unfold Qle, Qlt; cbn; lia.
  - reflexivity.
  - reflexivity.
  - do 2 apply list_elem_of_further. apply list_elem_of_here.
  - apply (bool_decide_unpack _). exact I.
  - exists t, q, e'. split; [exact Hn | split; [exact Hf | exact Hl]].
Defined.

End GenerationBounds.

(** ** The list of recent questions in longer runs *)

Section WindowRuns.
Import Js MathEngine.

Variable pool : list Template.

Lemma pushed_ends (recent : list string) (x : string) :
  (length recent <= 3)%nat -> exists pre, pushed recent x = pre ++ [x].
Proof.
  intros H. unfold pushed.
  destruct recent as [|a [|b [|c [|d l]]]];
    try (cbn [length] in H; lia).
  - now exists [].
  - now exists [a].
  - now exists [a; b].
  - now exists [b; c].
Qed.

(** An id with at most one id after it is still in the list after the
    next push. *)
Lemma pushed_keeps (recent pre suf : list string) (x y : string) :
  (length recent <= 3)%nat -> recent = pre ++ x :: suf ->
  (length suf <= 1)%nat ->
  exists pre', pushed recent y = pre' ++ x :: (suf ++ [y]).
Proof.
  intros Hlen -> Hsuf. unfold pushed.
  rewrite length_app in Hlen. cbn [length] in Hlen.
  destruct (3 <? _) eqn:E.
  - apply Z.ltb_lt in E. rewrite !length_app in E. cbn [length] in E.
    destruct pre as [|p pre]; [cbn [length] in *; lia|].
    exists pre. cbn [app tail]. now rewrite <- app_assoc.
  - exists pre. now rewrite <- app_assoc.
Qed.

Section FourIds.

Variable ids : list string.
Hypothesis ids_distinct : NoDup ids.
Hypothesis ids_four : (3 < length ids)%nat.
Hypothesis ids_pool : forall x, x ∈ ids -> exists t, t ∈ pool /\ tpl_id t = x.

Lemma exists_fresh (e : Engine) :
  (length (recentQuestions e) <= 3)%nat ->
  exists t, t ∈ pool /\ (tpl_id t ∉ recentQuestions e).
Proof.
  intros Hlen.
  destruct (decide (Forall (fun x => x ∈ recentQuestions e) ids)) as [Hall|Hex].
  - assert (Hsub : ids ⊆+ recentQuestions e).
    { apply NoDup_submseteq; [exact ids_distinct|].
      intros x Hx. eapply Forall_forall in Hall; eassumption. }
    apply submseteq_length in Hsub. lia.
  - apply not_Forall_Exists in Hex; [|intros x; apply _].
    apply Exists_exists in Hex as (x & Hx & Hnot).
    destruct (ids_pool x Hx) as (t & Ht & <-). now exists t.
Qed.

Lemma draw_cons_fresh (e : Engine) (d : Draw) (ds : list Draw) :
  drawing pool e -> validDraw d ->
  exists x q e',
    (x ∉ recentQuestions e) /\
    recentQuestions e' = pushed (recentQuestions e) x /\
    drawing pool e' /\
    draw (d :: ds) e = (x, q) :: draw ds e'.
Proof.
  intros He Hd.
  destruct (draw_cons pool e d ds He Hd) as (t & q & e' & Hin & _ & Hr & He' & Hq).
  exists (tpl_id t), q, e'.
  split; [|split; [exact Hr | split; [exact He' | exact Hq]]].
  destruct (exists_fresh e) as (t' & Ht' & Hf').
  { destruct He as [[_ Hl] _]. exact Hl. }
  exact (questionPool_fresh e pool t t' Ht' Hf' Hin).
Qed.

Lemma draw_skips_recent (j n : nat) (ds : list Draw) (e : Engine)
    (x : string) (pre suf : list string) :
  drawing pool e -> Forall validDraw ds ->
  recentQuestions e = pre ++ x :: suf -> (length suf <= n)%nat ->
  (j + n <= 2)%nat -> (draw ds e).*1 !! j <> Some x.
Proof.
  revert n ds e pre suf.
  induction j as [|j IH]; intros n ds e pre suf He Hall Hr Hsuf Hjn;
    (destruct ds as [|d ds]; [discriminate|]);
    apply Forall_cons in Hall as [Hd Hall];
    destruct (draw_cons_fresh e d ds He Hd) as (y & q & e' & Hy & Hr' & He' & ->).
  - cbn. intros [= ->]. apply Hy. rewrite Hr.
    apply elem_of_app. right. apply list_elem_of_here.
  - cbn [fmap list_fmap lookup list_lookup].
    destruct (pushed_keeps (recentQuestions e) pre suf x y) as [pre' Hk];
      [destruct He as [[_ Hl] _]; exact Hl | exact Hr | lia |].
    apply (IH (S n) ds e' pre' (suf ++ [y])); try assumption.
    + now rewrite Hr'.
    + rewrite length_app. cbn [length]. lia.
    + lia.
Qed.

(** X3.  When the pool has at least four template ids, a run of draws
    never uses a template again within the next three draws. *)
Theorem draw_distinct_within_three (ds : list Draw) (e : Engine)
    (k j : nat) (x : string) :
  drawing pool e -> Forall validDraw ds ->
  (1 <= j <= 3)%nat ->
  (draw ds e).*1 !! k = Some x -> (draw ds e).*1 !! (k + j)%nat <> Some x.
Proof.
  revert ds e. induction k as [|k IH]; intros ds e He Hall Hj Hk;
    (destruct ds as [|d ds]; [discriminate|]);
    apply Forall_cons in Hall as [Hd Hall];
    destruct (draw_cons_fresh e d ds He Hd) as (y & q & e' & Hy & Hr' & He' & Hq).
  - rewrite Hq in Hk |- *. cbn in Hk. injection Hk as ->.
    destruct j as [|j]; [lia|].
    cbn [Nat.add fmap list_fmap lookup list_lookup].
    destruct (pushed_ends (recentQuestions e) x) as [pre Hpre];
      [destruct He as [[_ Hl] _]; exact Hl|].
    apply (draw_skips_recent j 0 ds e' x pre []); try assumption.
    + now rewrite Hr'.
    + cbn. lia.
    + lia.
  - rewrite Hq in Hk |- *. cbn in Hk |- *. now apply IH.
Qed.

End FourIds.

End WindowRuns.

Section WindowWitnesses.
Import Js MathEngine.

Lemma draw_distinct_within_three_witness :
  let ds := [mkDraw 1000 0 (1 # 4) (3 # 4); mkDraw 2000 (1 # 2) (1 # 2) 0;
             mkDraw 3000 (3 # 4) 0 (1 # 3); mkDraw 4000 0 (1 # 5) (4 # 5)] in
  (draw ds constructor).*1 !! 0%nat = Some "add_easy_001" /\
  (draw ds constructor).*1 !! 3%nat <> Some "add_easy_001".
Proof.
  intros ds. split; [reflexivity|].
  refine (draw_distinct_within_three
            (default [] (getDefaultQuestionBank !! "easy"))
            ["add_easy_001"; "add_easy_002"; "sub_easy_001"; "sub_easy_002"]
            _ _ _ ds constructor 0 3 "add_easy_001" _ _ _ _).
  - apply (bool_decide_unpack _). exact I.
  - cbn. lia.
  - intros x Hx.
    repeat (apply elem_of_cons in Hx as [->|Hx]);
      [..|now apply elem_of_nil in Hx]; eexists.
    + split; [apply list_elem_of_here|reflexivity].
    + split; [apply list_elem_of_further, list_elem_of_here|reflexivity].
    + split; [do 2 apply list_elem_of_further; apply list_elem_of_here|].
      reflexivity.
    + split; [do 3 apply list_elem_of_further; apply list_elem_of_here|].
      reflexivity.
  - split; [split; [reflexivity|cbn; lia]|reflexivity].
  - repeat constructor; cbn; unfold Qle, Qlt; cbn; lia.
  - lia.
  - reflexivity.
Defined.

Lemma filter_none {A} (f : A -> bool) (l : list A) :
  (forall x, x ∈ l -> f x = false) -> List.filter f l = [].
Proof.
  induction l as [|a l IH]; intros H; [reflexivity|].
  cbn. rewrite (H a) by apply list_elem_of_here.
  apply IH. intros x Hx. apply H. now apply list_elem_of_further.
Qed.

Lemma randomBelow_fraction (i len : nat) :
  (i < len)%nat ->
  let r := (Z.of_nat i # Pos.of_nat len)%Q in
  unitRandom r /\ randomBelow r (Z.of_nat len) = Z.of_nat i.
Proof.
  intros Hlt r.
  assert (Hlen : Z.of_nat len = Z.pos (Pos.of_nat len)).
  { destruct len; [lia|]. now rewrite <- Pos.of_nat_succ, Zpos_P_of_succ_nat, Nat2Z.inj_succ. }
  split.
  - split; unfold r, Qle, Qlt; cbn [Qnum Qden]; lia.
  - unfold randomBelow. rewrite <- (Qfloor_Z (Z.of_nat i)).
    apply Qfloor_comp. unfold r, Qeq, Qmult, inject_Z. cbn [Qnum Qden].
    rewrite Hlen. lia.
Qed.

(** X4.  When every template of the pool is among the recent ones, the
    list of recent questions restrains nothing: each template of the
    pool, the one drawn last included, is drawn for some random number. *)
Theorem saturated_window_allows_all (e : Engine) (pool : list Template)
    (i : nat) (t : Template) :
  currentPool e = Some pool ->
  (forall t', t' ∈ pool -> tpl_id t' ∈ recentQuestions e) ->
  pool !! i = Some t ->
  exists rt,
    unitRandom rt /\ chosenTemplate rt e = Some t /\
    forall now ra rb, exists e',
      getNextQuestion now rt ra rb e
      = Some (generateQuestion (ensureBank e) now ra rb t, e').
Proof.
  intros Hp Hall Hi.
  assert (Hq : questionPool e pool = pool).
  { unfold questionPool. rewrite filter_none; [reflexivity|].
    intros x Hx. unfold includes.
    now rewrite bool_decide_eq_true_2 by now apply Hall. }
  pose proof (lookup_lt_Some _ _ _ Hi) as Hlt.
  destruct (randomBelow_fraction i (length pool) Hlt) as [Hr Hb].
  assert (Hsel : getRandomElement pool (Z.of_nat i # Pos.of_nat (length pool)) = Some t).
  { unfold getRandomElement. destruct pool as [|a l]; [discriminate Hi|].
    rewrite Hb. unfold index.
    replace (Z.of_nat i <? 0) with false by (symmetry; apply Z.ltb_ge; lia).
    now rewrite Nat2Z.id. }
  exists (Z.of_nat i # Pos.of_nat (length pool))%Q.
  split; [exact Hr|]. split.
  - unfold chosenTemplate. rewrite Hp. cbn. now rewrite Hq.
  - intros now ra rb. eexists. unfold getNextQuestion.
    rewrite currentPool_ensureBank, Hp, questionPool_ensureBank, Hq, Hsel.
    reflexivity.
Qed.

Lemma saturated_window_allows_all_witness :
  let e := mkEngine None "hard"
             ["add_hard_001"; "sub_hard_001"; "add_hard_002"] 3 None in
  exists rt t,
    unitRandom rt /\ chosenTemplate rt e = Some t /\
    tpl_id t = "add_hard_002".
Proof.
  intros e.
  destruct (saturated_window_allows_all e
              (default [] (getDefaultQuestionBank !! "hard")) 2
              (mkTemplate "add_hard_002" "word-problem" "addition"
                 "The gorilla collected {a} bananas yesterday and {b} today. How many total?"
                 25 50 (Some false) None))
    as (rt & Hr & Hc & _).
  - reflexivity.
  - intros t' Ht'.
    repeat (apply elem_of_cons in Ht' as [->|Ht']);
      [..|now apply elem_of_nil in Ht'];
      apply (bool_decide_unpack _); exact I.
  - reflexivity.
  - exists rt. eexists. split; [exact Hr|]. split; [exact Hc|reflexivity].
Defined.

End WindowWitnesses.

(** ** More on validating an answer *)

Section ValidateMore.
Import Js.

Lemma allChars_string_of_uint (d : Decimal.uint) :
  allChars isDigit (NilEmpty.string_of_uint d) = true.
Proof. induction d; cbn [NilEmpty.string_of_uint allChars]; auto. Qed.

Lemma allChars_digits_weaken (s : string) :
  allChars isDigit s = true -> allChars isDigitOrMinus s = true.
Proof.
  apply allChars_impl. intros c Hc. unfold isDigitOrMinus. now rewrite Hc.
Qed.

Lemma allChars_toString (n : Z) : allChars isDigitOrMinus (toString n) = true.
Proof.
  unfold toString.
  destruct (Z.to_int n) as [d|d]; cbn [NilEmpty.string_of_int allChars].
  - apply allChars_digits_weaken, allChars_string_of_uint.
  - apply allChars_digits_weaken, allChars_string_of_uint.
Qed.




Lemma readDigits_seen (s : string) (acc : Z) :
  allChars isDigit s = true -> exists v, readDigits acc true s = Some v.
Proof.
  revert acc. induction s as [|c s IH]; intros acc H; [now exists acc|].
  cbn [allChars] in H. apply andb_true_iff in H as [Hc Hs].
  cbn [readDigits]. rewrite Hc. now apply IH.
Qed.

Lemma readDigits_digits (c : ascii) (s : string) :
  allChars isDigit (String c s) = true ->
  exists v, readDigits 0 false (String c s) = Some v.
Proof.
  cbn [allChars]. intros [Hc Hs]%andb_true_iff.
  cbn [readDigits]. rewrite Hc. now apply readDigits_seen.
Qed.

(** The parse of an optionally signed, non-empty run of digits. *)
Lemma parseInt_signed_digits (neg : bool) (c : ascii) (D : string) :
  allChars isDigit (String c D) = true ->
  exists v, parseInt ((if neg then "-" else "") +:+ String c D) = Some v.
Proof.
  intros H. destruct (readDigits_digits c D H) as [v Hv].
  assert (Hc : isDigit c = true)
    by (cbn [allChars] in H; now apply andb_true_iff in H).
  destruct neg.
  - change ("-" +:+ String c D) with (String "-" (String c D)).
    unfold parseInt. rewrite trimStart_id by reflexivity.
    rewrite Hv. now exists (- v).
  - rewrite append_empty_l, parseInt_unsigned by exact Hc. now exists v.
Qed.


End ValidateMore.

Section ValidateAgree.
Import Js.


Lemma count_keep_zero (p : ascii -> bool) (c : ascii) (s : string) :
  count c s = 0 -> count c (keep p s) = 0.
Proof.
  induction s as [|d s IH]; [reflexivity|].
  cbn [count keep]. pose proof (count_nonneg c s).
  destruct (Ascii.eqb d c) eqn:E; [lia|].
  intros H0. destruct (p d); cbn [count]; rewrite ?E, IH; lia.
Qed.

(** X7.  On a string without a minus sign the two sanitizers return the
    same text, and the two [validateAnswer] functions the same verdict:
    the same validity, correctness, closeness and parsed number. *)
Theorem validateAnswer_agree_without_minus (r : Q) (x : string)
    (e : MathEngine.Engine) (expected : Z) :
  count "-" x = 0 ->
  MathEngine.sanitizeInput (VString x)
  = Some (Validators.sanitizeInput (VString x)) /\
  exists res,
    MathEngine.validateAnswer r (VString x) (Some expected) e = Some res /\
    let res' := Validators.validateAnswer (VString x) expected in
    MathEngine.vr_valid res = Validators.va_valid res' /\
    MathEngine.vr_correct res = Validators.va_correct res' /\
    MathEngine.vr_close res = Validators.va_close res' /\
    MathEngine.vr_userAnswer res = Validators.va_value res'.
Proof.
  intros Hx.
  assert (Hk : count "-" (keep isDigitOrMinus x) = 0)
    by now apply count_keep_zero.
  assert (Hs : Validators.sanitizeInput (VString x) = keep isDigitOrMinus x).
  { rewrite validators_sanitize_closed.
    apply indexOf_absent in Hk as Hi. rewrite Hi. cbn [Z.eqb].
    rewrite append_empty_l, <- keep_digits_of_kept.
    now apply keep_notMinus_id. }
  assert (He : MathEngine.sanitizeInput (VString x)
               = Some (keep isDigitOrMinus x)).
  { unfold MathEngine.sanitizeInput.
    now rewrite keep_trim by apply space_not_digitOrMinus. }
  split; [now rewrite He, Hs|].
  unfold MathEngine.validateAnswer, Validators.validateAnswer.
  cbn [MathEngine.expectedAnswer]. rewrite He, Hs.
  cbn [mbind option_bind].
  destruct (parseInt (keep isDigitOrMinus x)) as [v|] eqn:Hp.
  - assert (Hv : Validators.isValidNumber (VString (keep isDigitOrMinus x)) = true).
    { rewrite <- Hs. apply (isValidNumber_sanitized (VString x) v).
      now rewrite Hs. }
    rewrite Hv. eexists. split; [reflexivity|]. cbn. repeat split.
  - assert (Hv : Validators.isValidNumber (VString (keep isDigitOrMinus x)) = false).
    { assert (HD : allChars isDigit (keep isDigitOrMinus x) = true).
      { rewrite <- (keep_notMinus_id _ Hk), keep_digits_of_kept.
        apply allChars_keep. }
      destruct (keep isDigitOrMinus x) as [|c D] eqn:EK; [reflexivity|].
      destruct (parseInt_signed_digits false c D HD) as [v Hv].
      rewrite append_empty_l in Hv. congruence. }
    rewrite Hv. eexists. split; [reflexivity|]. cbn. repeat split.
Qed.

Lemma validateAnswer_agree_without_minus_witness :
  MathEngine.sanitizeInput (VString " 1 2 apples ")
  = Some (Validators.sanitizeInput (VString " 1 2 apples ")).
Proof.
  apply (proj1 (validateAnswer_agree_without_minus (1 # 2) " 1 2 apples "
                  MathEngine.constructor 12 eq_refl)).
Defined.

Lemma default_getRandomElement (l : list string) (r : Q) :
  unitRandom r -> l <> [] -> default "" (MathEngine.getRandomElement l r) ∈ l.
Proof.
  intros Hr Hl.
  destruct (getRandomElement_some l r Hr Hl) as [m Hm].
  rewrite Hm. cbn. eapply getRandomElement_elem. exact Hm.
Qed.

(** X8.  The message of a valid result tells the outcome: it is one of
    the messages for correct answers exactly when the answer is correct,
    one of the messages for close answers exactly when the answer is
    close, and one of the remaining messages otherwise. *)
Theorem validateAnswer_message_bucket (r : Q) (input : Value)
    (correctAnswer : option Z) (e : MathEngine.Engine)
    (res : MathEngine.ValidationResult) :
  unitRandom r ->
  MathEngine.validateAnswer r input correctAnswer e = Some res ->
  MathEngine.vr_valid res = true ->
  (MathEngine.vr_message res ∈ MathEngine.correctMessages
   <-> MathEngine.vr_correct res = true) /\
  (MathEngine.vr_message res ∈ MathEngine.closeMessages
   <-> MathEngine.vr_close res = Some true) /\
  (MathEngine.vr_message res ∈ MathEngine.farMessages
   <-> MathEngine.vr_correct res = false /\
       MathEngine.vr_close res = Some false).
Proof.
  intros Hr Hres Hvalid.
  assert (Hcc : Forall (fun m => (m ∉ MathEngine.closeMessages)
                                 /\ (m ∉ MathEngine.farMessages))
                  MathEngine.correctMessages)
    by (apply (bool_decide_unpack _); exact I).
  assert (Hcl : Forall (fun m => (m ∉ MathEngine.correctMessages)
                                 /\ (m ∉ MathEngine.farMessages))
                  MathEngine.closeMessages)
    by (apply (bool_decide_unpack _); exact I).
  assert (Hfa : Forall (fun m => (m ∉ MathEngine.correctMessages)
                                 /\ (m ∉ MathEngine.closeMessages))
                  MathEngine.farMessages)
    by (apply (bool_decide_unpack _); exact I).
  rewrite Forall_forall in Hcc, Hcl, Hfa.
  unfold MathEngine.validateAnswer in Hres.
  destruct (MathEngine.expectedAnswer correctAnswer e) as [expected|];
    [|injection Hres as <-; discriminate Hvalid].
  destruct (MathEngine.sanitizeInput input) as [cleaned|]; [|discriminate Hres].
  cbn [mbind option_bind] in Hres.
  destruct (parseInt cleaned) as [v|];
    [|injection Hres as <-; discriminate Hvalid].
  injection Hres as <-. cbn.
  destruct (v =? expected) eqn:Ec; cbn.
  - pose proof (default_getRandomElement MathEngine.correctMessages r Hr
                  ltac:(discriminate)) as Hin.
    fold (MathEngine.getCorrectMessage r) in Hin.
    destruct (Hcc _ Hin) as [H1 H2].
    repeat split; try tauto; try discriminate; intros; try tauto.
    destruct H as [H _]. discriminate H.
  - unfold MathEngine.getIncorrectMessage.
    destruct (Z.abs (v - expected) <=? 2) eqn:El.
    + pose proof (default_getRandomElement MathEngine.closeMessages r Hr
                    ltac:(discriminate)) as Hin.
      destruct (Hcl _ Hin) as [H1 H2].
      repeat split; try tauto; try discriminate; intros; try tauto.
      destruct H as [_ H]. discriminate H.
    + pose proof (default_getRandomElement MathEngine.farMessages r Hr
                    ltac:(discriminate)) as Hin.
      destruct (Hfa _ Hin) as [H1 H2].
      repeat split; try tauto; try discriminate; intros; try tauto.
Qed.

Lemma validateAnswer_message_bucket_witness :
  exists res,
    MathEngine.validateAnswer (1 # 2) (VString "13") (Some 12)
      MathEngine.constructor = Some res /\
    MathEngine.vr_message res ∈ MathEngine.closeMessages.
Proof.
  eexists. split; [reflexivity|].
  refine (proj2 (proj1 (proj2
    (validateAnswer_message_bucket (1 # 2) (VString "13") (Some 12)
       MathEngine.constructor _ _ eq_refl eq_refl))) eq_refl).
  split; unfold Qle, Qlt; cbn; lia.
Defined.

End ValidateAgree.

(** ** More of the validators *)

Section ValidatorFacts.
Import Js JsText ValidatorsMore.

(** X9.  [isValidDifficulty] accepts every spelling that [setDifficulty]
    accepts, and more: a tier name in another letter-casing passes
    [isValidDifficulty], yet [setDifficulty] then selects easy, as it does
    for every string that [isValidDifficulty] rejects. *)
Theorem isValidDifficulty_setDifficulty (level : string)
    (e : MathEngine.Engine) :
  (level ∈ MathEngine.validLevels ->
   isValidDifficulty (VString level) = true /\
   MathEngine.currentDifficulty (MathEngine.setDifficulty level e) = level) /\
  (isValidDifficulty (VString level) = true -> toLowerCase level <> level ->
   MathEngine.currentDifficulty (MathEngine.setDifficulty level e) = "easy") /\
  (isValidDifficulty (VString level) = false ->
   MathEngine.currentDifficulty (MathEngine.setDifficulty level e) = "easy").
Proof.
  assert (Hfix : forall l, l ∈ MathEngine.validLevels -> toLowerCase l = l).
  { intros l Hl.
    repeat (apply elem_of_cons in Hl as [->|Hl]); try reflexivity.
    now apply elem_of_nil in Hl. }
  unfold isValidDifficulty, MathEngine.setDifficulty, includes.
  cbn [String_]. fold MathEngine.validLevels.
  split; [|split].
  - intros Hl. rewrite (Hfix _ Hl).
    now rewrite !bool_decide_eq_true_2 by exact Hl.
  - intros _ Hne.
    destruct (bool_decide_reflect (level ∈ MathEngine.validLevels)) as [Hl|Hl];
      [elim Hne; now apply Hfix | reflexivity].
  - intros Hv. apply bool_decide_eq_false in Hv.
    destruct (bool_decide_reflect (level ∈ MathEngine.validLevels)) as [Hl|Hl];
      [|reflexivity].
    elim Hv. now rewrite (Hfix _ Hl).
Qed.

Lemma isValidDifficulty_setDifficulty_witness :
  isValidDifficulty (VString "HARD") = true /\
  MathEngine.currentDifficulty
    (MathEngine.setDifficulty "HARD" MathEngine.constructor) = "easy" /\
  MathEngine.currentDifficulty
    (MathEngine.setDifficulty "hard" MathEngine.constructor) = "hard" /\
  MathEngine.currentDifficulty
    (MathEngine.setDifficulty "expert"
       (MathEngine.setDifficulty "hard" MathEngine.constructor)) = "easy".
Proof.
  split; [reflexivity|]. split; [|split].
  - apply (proj1 (proj2 (isValidDifficulty_setDifficulty "HARD"
                           MathEngine.constructor)));
      [reflexivity|discriminate].
  - apply (proj1 (isValidDifficulty_setDifficulty "hard"
                    MathEngine.constructor)).
    apply (bool_decide_unpack _). exact I.
  - apply (proj2 (proj2 (isValidDifficulty_setDifficulty "expert" _))).
    reflexivity.
Defined.

(** X10.  [isAnswerClose] is symmetric in its two numbers, never holds
    for equal numbers or for a negative threshold, and grows with the
    threshold; with the threshold 2 it is the [close] flag of
    [validateAnswer]. *)
Theorem isAnswerClose_facts (a b : Z) :
  (forall t, Validators.isAnswerClose a b t = Validators.isAnswerClose b a t) /\
  (forall t, Validators.isAnswerClose a a t = false) /\
  (forall t, t < 0 -> Validators.isAnswerClose a b t = false) /\
  (forall t t', t <= t' -> Validators.isAnswerClose a b t = true ->
                Validators.isAnswerClose a b t' = true) /\
  (forall input, parseInt (Validators.sanitizeInput input) = Some a ->
     Validators.va_close (Validators.validateAnswer input b)
     = Some (Validators.isAnswerClose a b 2)).
Proof.
  unfold Validators.isAnswerClose. repeat split.
  - intros t. now replace (b - a) with (- (a - b)) by lia; rewrite Z.abs_opp.
  - intros t. now rewrite Z.sub_diag.
  - intros t Ht. apply andb_false_iff. right. apply Z.leb_gt. lia.
  - intros t t' Hle [H1 H2]%andb_true_iff. apply andb_true_iff.
    split; [exact H1|]. apply Z.leb_le. apply Z.leb_le in H2. lia.
  - intros input Hp. unfold Validators.validateAnswer.
    rewrite (isValidNumber_sanitized _ _ Hp), Hp. cbn. f_equal. f_equal.
    destruct (Z.eqb_spec a b) as [->|Hne]; cbn.
    + now rewrite Z.sub_diag.
    + symmetry. apply Z.ltb_lt. lia.
Qed.

Lemma isAnswerClose_facts_witness :
  Validators.isAnswerClose 14 12 3 = true /\
  Validators.va_close (Validators.validateAnswer (VString "14") 12)
  = Some (Validators.isAnswerClose 14 12 2).
Proof.
  destruct (isAnswerClose_facts 14 12) as (_ & _ & _ & Hmono & Hflag).
  split.
  - apply (Hmono 2 3); [lia|reflexivity].
  - apply (Hflag (VString "14")). reflexivity.
Defined.

End ValidatorFacts.

Section NameAndQuestionFacts.
Import Js JsText ValidatorsMore.

Lemma trimEnd_head (c : ascii) (s : string) :
  isSpace c = false -> exists s', trimEnd (String c s) = String c s'.
Proof.
  intros Hc. cbn [trimEnd]. destruct (trimEnd s).
  - rewrite Hc. now exists "".
  - now eexists.
Qed.

Lemma trimEnd_idem (s : string) : trimEnd (trimEnd s) = trimEnd s.
Proof.
  induction s as [|c s IH]; [reflexivity|].
  cbn [trimEnd]. destruct (trimEnd s) as [|d r] eqn:E.
  - destruct (isSpace c) eqn:Hc; [reflexivity|].
    cbn [trimEnd]. now rewrite Hc.
  - change (trimEnd (String c (String d r)))
      with (match trimEnd (String d r) with
            | EmptyString => if isSpace c then EmptyString else String c EmptyString
            | r0 => String c r0
            end).
    now rewrite IH.
Qed.

Lemma trimStart_head (s : string) :
  trimStart s = "" \/ exists c s', trimStart s = String c s' /\ isSpace c = false.
Proof.
  induction s as [|c s IH]; [now left|].
  cbn [trimStart]. destruct (isSpace c) eqn:Hc; [exact IH|].
  right. now exists c, s.
Qed.

(** Trimming twice is trimming once. *)
Lemma trim_idem (s : string) : trim (trim s) = trim s.
Proof.
  unfold trim. destruct (trimStart_head s) as [->|(c & s' & -> & Hc)];
    [reflexivity|].
  destruct (trimEnd_head c s' Hc) as [r Hr].
  rewrite Hr, trimStart_id by exact Hc. rewrite <- Hr. apply trimEnd_idem.
Qed.

Lemma validatePlayerName_spec (s : string) :
  nr_valid (validatePlayerName (VString s)) = true
  <-> 2 <= len (trim s) <= 20 /\ allChars isNameChar (trim s) = true.
Proof.
  unfold validatePlayerName.
  destruct (String.eqb_spec s "") as [->|Hs].
  - cbn. split; [discriminate|]. intros [H _]. unfold len in H. cbn in H. lia.
  - destruct (len (trim s) =? 0) eqn:E0;
      [apply Z.eqb_eq in E0; cbn; split; [discriminate|intros [H _]; lia]|].
    destruct (len (trim s) <? 2) eqn:E2;
      [apply Z.ltb_lt in E2; cbn; split; [discriminate|intros [H _]; lia]|].
    destruct (20 <? len (trim s)) eqn:E20;
      [apply Z.ltb_lt in E20; cbn; split; [discriminate|intros [H _]; lia]|].
    apply Z.ltb_ge in E2, E20.
    destruct (allChars isNameChar (trim s)); cbn.
    + split; [intros _; split; [lia|reflexivity]|reflexivity].
    + split; [discriminate|intros [_ H]; discriminate H].
Qed.

(** X11.  [validatePlayerName] accepts exactly the strings that, once
    trimmed, have 2 to 20 characters, all of them letters, digits or
    white space; white space around a name does not change the verdict,
    and nothing but a string is accepted. *)
Theorem validatePlayerName_valid (name : Value) :
  (nr_valid (validatePlayerName name) = true
   <-> exists s, name = VString s /\ 2 <= len (trim s) <= 20 /\
                 allChars isNameChar (trim s) = true) /\
  (forall s, name = VString s ->
     nr_valid (validatePlayerName (VString (trim s)))
     = nr_valid (validatePlayerName name)) /\
  (nr_valid (validatePlayerName name) = true
   <-> nr_message (validatePlayerName name) = "Valid name").
Proof.
  split; [|split].
  - destruct name as [s|n| |];
      try (cbn; split; [discriminate|intros (s & Hs & _); discriminate Hs]).
    rewrite validatePlayerName_spec. split.
    + intros H. now exists s.
    + intros (s' & [= <-] & H). exact H.
  - intros s ->. apply eq_true_iff_eq.
    rewrite !validatePlayerName_spec, trim_idem. reflexivity.
  - destruct name as [s|n| |]; try (cbn; split; discriminate).
    unfold validatePlayerName.
    repeat (match goal with
            | |- context [if ?b then _ else _] => destruct b
            end; cbn; try (split; [discriminate|discriminate]));
      split; reflexivity.
Qed.

Lemma validatePlayerName_valid_witness :
  nr_valid (validatePlayerName (VString "  Player 123 ")) = true /\
  nr_valid (validatePlayerName (VString (trim "  Player 123 "))) = true.
Proof.
  destruct (validatePlayerName_valid (VString "  Player 123 "))
    as (Hiff & Htrim & _).
  assert (H : nr_valid (validatePlayerName (VString "  Player 123 ")) = true).
  { apply Hiff. exists "  Player 123 ". split; [reflexivity|].
    split; [split; vm_compute; discriminate|reflexivity]. }
  split; [exact H|]. now rewrite (Htrim _ eq_refl).
Defined.

Lemma default_bank_templates (d : string) (pool : list MathEngine.Template) :
  MathEngine.getDefaultQuestionBank !! d = Some pool ->
  Forall (fun t =>
            includes ["equation"; "word-problem"; "visual"]
              (MathEngine.tpl_type t) = true /\
            includes ["addition"; "subtraction"]
              (MathEngine.tpl_operation t) = true) pool.
Proof.
  unfold MathEngine.getDefaultQuestionBank.
  rewrite !lookup_insert_Some, lookup_singleton_Some.
  intros [[_ <-]|[_ [[_ <-]|[_ [_ <-]]]]]; repeat constructor.
Qed.

(** X12.  With no bank loaded, or with the default bank, every question
    that [getNextQuestion] returns passes [isValidQuestion], whatever the
    difficulty and the random numbers. *)
Theorem default_bank_questions_valid (now : Z) (rt ra rb : Q)
    (e : MathEngine.Engine) :
  unitRandom rt ->
  MathEngine.questionBank e = None \/
  MathEngine.questionBank e = Some MathEngine.getDefaultQuestionBank ->
  exists q e',
    MathEngine.getNextQuestion now rt ra rb e = Some (q, e') /\
    isValidQuestion q = true.
Proof.
  intros Hr Hbank.
  destruct (getNextQuestion_returns now rt ra rb e Hr) as (q & e' & Hn).
  exists q, e'. split; [exact Hn|].
  assert (Hb : MathEngine.questionBank (MathEngine.ensureBank e)
               = Some MathEngine.getDefaultQuestionBank).
  { unfold MathEngine.ensureBank.
    destruct Hbank as [H|H]; rewrite H; [reflexivity|exact H]. }
  unfold MathEngine.getNextQuestion in Hn.
  destruct (MathEngine.currentPool (MathEngine.ensureBank e)) as [pool|] eqn:Hp.
  - destruct (MathEngine.getRandomElement _ rt) as [t|] eqn:Hsel;
      [|discriminate Hn].
    injection Hn as <- _.
    apply getRandomElement_elem, questionPool_subset in Hsel.
    unfold MathEngine.currentPool in Hp.
    rewrite ensureBank_idem, Hb in Hp.
    destruct (_ !! _) as [[|t0 l]|] eqn:Hl; try discriminate Hp.
    injection Hp as <-.
    apply default_bank_templates in Hl.
    rewrite Forall_forall in Hl. destruct (Hl t Hsel) as [Ht Ho].
    unfold isValidQuestion. cbn. now rewrite Ht, Ho.
  - injection Hn as <- _. reflexivity.
Qed.

Lemma default_bank_questions_valid_witness :
  exists q e',
    MathEngine.getNextQuestion 7 (2 # 3) (1 # 2) (1 # 2)
      (MathEngine.setDifficulty "hard" MathEngine.constructor) = Some (q, e') /\
    isValidQuestion q = true.
Proof.
  apply default_bank_questions_valid.
  - split; unfold Qle, Qlt; cbn; lia.
  - left. reflexivity.
Defined.

End NameAndQuestionFacts.

(** ** More on sessions *)

Section SessionFacts.
Import ProgressManager.

Variable JSON_parse : string -> option Json.
Variable JSON_stringify : SavedData -> string.
Variable spreadPersistent : PersistentData -> Json -> PersistentData.

Local Abbreviation completeSession := (completeSession JSON_stringify).
Local Abbreviation exec := (exec JSON_parse JSON_stringify spreadPersistent).
Local Abbreviation run := (run JSON_parse JSON_stringify spreadPersistent).

Lemma completeSession_score (now : Z) (m : Manager) (st : Storage) :
  score (sessionData (completeSession now m st).1.2) = score (sessionData m) /\
  bananasCollected (sessionData (completeSession now m st).1.2)
  = bananasCollected (sessionData m).
Proof.
  unfold ProgressManager.completeSession. cbn.
  destruct (highScores (persistentData m) !! difficulty (sessionData m))
    as [h|]; [destruct (h <? score (sessionData m))|]; cbn;
    destruct (levelsCompleted (persistentData m) !! difficulty (sessionData m));
    cbn; try destruct (negb _); split; reflexivity.
Qed.

(** What a call that keeps the session adds to the score and to the
    bananas. *)
Lemma exec_score (c : Call) (ms : Manager * Storage) :
  startsFresh c = false ->
  score (sessionData (exec c ms).1)
  = score (sessionData ms.1)
    + match c with
      | CallIncrementScore points => if points <? 0 then 0 else points
      | _ => 0
      end /\
  bananasCollected (sessionData (exec c ms).1)
  = bananasCollected (sessionData ms.1)
    + match c with
      | CallAddBananas count => if count <? 0 then 0 else count
      | _ => 0
      end.
Proof.
  destruct ms as [m st].
  destruct c; cbn [startsFresh]; try discriminate; intros _;
    try (cbn; split; lia).
  - cbn [ProgressManager.exec fst].
    unfold initialize, ProgressManager.loadProgress.
    repeat case_match; cbn; split; lia.
  - cbn. unfold incrementScore. destruct (points <? 0); cbn; split; lia.
  - cbn. unfold addBananas. destruct (count <? 0); cbn; split; lia.
  - rewrite exec_completeSession.
    destruct (completeSession_score now m st) as [-> ->]. cbn. split; lia.
  - cbn [ProgressManager.exec fst snd].
    unfold ProgressManager.loadProgress. repeat case_match; cbn; split; lia.
  - cbn [ProgressManager.exec]. unfold ProgressManager.importProgress.
    repeat case_match; simplify_eq; cbn; split; lia.
Qed.

Lemma exec_fresh (c : Call) (ms : Manager * Storage) :
  startsFresh c = true ->
  exists now, sessionData (exec c ms).1
              = mkSession (difficulty (sessionData (exec c ms).1)) 0
                  (totalQuestions (sessionData (exec c ms).1)) 0 0 0 0 0 now 0 0.
Proof.
  destruct ms as [m st]. destruct c; try discriminate; intros _.
  - now exists now.
  - now exists now.
  - exists now. cbn [ProgressManager.exec]. unfold resetAllProgress.
    now destruct (removeItem storageKey st).
Qed.

(** The counters and sums of a session are never negative. *)
Lemma exec_nonneg (c : Call) (ms : Manager * Storage) :
  let ok (m : Manager) :=
    0 <= score (sessionData m) /\ 0 <= bananasCollected (sessionData m) /\
    0 <= correctAnswers (sessionData m) /\
    0 <= incorrectAnswers (sessionData m) in
  ok ms.1 -> ok (exec c ms).1.
Proof.
  cbv zeta. intros (Hs & Hb & Hc & Hi).
  destruct (startsFresh c) eqn:Ef.
  - destruct (exec_fresh c ms Ef) as [now ->]. cbn. lia.
  - destruct (exec_score c ms Ef) as [-> ->].
    assert (Hcnt : 0 <= correctAnswers (sessionData (exec c ms).1) /\
                   0 <= incorrectAnswers (sessionData (exec c ms).1)).
    { destruct (isRecordAnswer c) eqn:Er.
      - destruct ms as [m st]. destruct c; try discriminate.
        cbn. destruct isCorrect; cbn in *; lia.
      - pose proof (exec_counters JSON_parse JSON_stringify spreadPersistent
                      c ms Ef Er) as H.
        unfold counters in H. injection H as _ -> ->. lia. }
    repeat split; try tauto.
    + destruct c; try lia. destruct (points <? 0) eqn:E; [lia|].
      apply Z.ltb_ge in E. lia.
    + destruct c; try lia. destruct (count <? 0) eqn:E; [lia|].
      apply Z.ltb_ge in E. lia.
Qed.

Lemma run_invariant (P : Manager -> Prop) (cs : list Call)
    (ms : Manager * Storage) :
  (forall c ms, P ms.1 -> P (exec c ms).1) -> P ms.1 -> P (run cs ms).1.
Proof.
  intros Hstep. revert ms. induction cs as [|c cs IH]; intros ms H; [exact H|].
  change (run (c :: cs) ms) with (run cs (exec c ms)).
  apply IH. now apply Hstep.
Qed.

(** X13.  Within a session the score and the bananas never go down: a
    call other than a new start or a reset leaves them or adds to them,
    and negative points or counts are ignored.  After any sequence of
    calls on a new manager the score, the bananas and the three counters
    are not negative. *)
Theorem score_never_decreases :
  (forall (c : Call) (ms : Manager * Storage),
      startsFresh c = false ->
      score (sessionData ms.1) <= score (sessionData (exec c ms).1) /\
      bananasCollected (sessionData ms.1)
      <= bananasCollected (sessionData (exec c ms).1)) /\
  (forall (points : Z) (ms : Manager * Storage),
      points < 0 -> exec (CallIncrementScore points) ms = ms) /\
  (forall (count : Z) (ms : Manager * Storage),
      count < 0 -> exec (CallAddBananas count) ms = ms) /\
  (forall (cs : list Call) now suffix (st : Storage),
      let s := sessionData (run cs (constructor now suffix, st)).1 in
      0 <= score s /\ 0 <= bananasCollected s /\ 0 <= correctAnswers s /\
      0 <= incorrectAnswers s).
Proof.
  split; [|split; [|split]].
  - intros c ms Hf. destruct (exec_score c ms Hf) as [-> ->].
    split.
    + destruct c; try lia. destruct (points <? 0) eqn:E; [lia|].
      apply Z.ltb_ge in E. lia.
    + destruct c; try lia. destruct (count <? 0) eqn:E; [lia|].
      apply Z.ltb_ge in E. lia.
  - intros points [m st] Hp. cbn. unfold incrementScore.
    now replace (points <? 0) with true by (symmetry; apply Z.ltb_lt; lia).
  - intros count [m st] Hp. cbn. unfold addBananas.
    now replace (count <? 0) with true by (symmetry; apply Z.ltb_lt; lia).
  - intros cs now suffix st.
    apply (run_invariant
             (fun m => 0 <= score (sessionData m) /\
                       0 <= bananasCollected (sessionData m) /\
                       0 <= correctAnswers (sessionData m) /\
                       0 <= incorrectAnswers (sessionData m))).
    + intros c ms. apply exec_nonneg.
    + cbn. lia.
Qed.

End SessionFacts.

Section AccuracyFacts.
Import ProgressManager.

Lemma accuracy_fraction (correct : Z) (total : positive) :
  (inject_Z correct / inject_Z (Z.pos total) * 100 == (correct * 100) # total)%Q.
Proof.
  unfold Qeq, Qdiv, Qmult, Qinv, inject_Z. cbn [Qnum Qden]. lia.
Qed.

Lemma calculateAccuracy_fraction (m : Manager) (total : positive) :
  totalAnswers (sessionData m) = Z.pos total ->
  (calculateAccuracy m == (correctAnswers (sessionData m) * 100) # total)%Q.
Proof.
  intros H. unfold calculateAccuracy. rewrite H. cbn [Z.eqb].
  apply accuracy_fraction.
Qed.

Lemma calculateStars_bounds (m : Manager) : 0 <= calculateStars m <= 3.
Proof.
  unfold calculateStars. repeat destruct (Qle_bool _ _); lia.
Qed.

(** The stars grow with the accuracy. *)
Lemma calculateStars_monotone (m m' : Manager) :
  (calculateAccuracy m <= calculateAccuracy m')%Q ->
  calculateStars m <= calculateStars m'.
Proof.
  intros H. unfold calculateStars.
  destruct (Qle_bool 95 (calculateAccuracy m)) eqn:A95;
    [apply Qle_bool_iff in A95|apply Qle_bool_false in A95];
    (destruct (Qle_bool 80 (calculateAccuracy m)) eqn:A80;
     [apply Qle_bool_iff in A80|apply Qle_bool_false in A80]);
    (destruct (Qle_bool 60 (calculateAccuracy m)) eqn:A60;
     [apply Qle_bool_iff in A60|apply Qle_bool_false in A60]);
    (destruct (Qle_bool 95 (calculateAccuracy m')) eqn:B95;
     [apply Qle_bool_iff in B95|apply Qle_bool_false in B95]);
    (destruct (Qle_bool 80 (calculateAccuracy m')) eqn:B80;
     [apply Qle_bool_iff in B80|apply Qle_bool_false in B80]);
    (destruct (Qle_bool 60 (calculateAccuracy m')) eqn:B60;
     [apply Qle_bool_iff in B60|apply Qle_bool_false in B60]);
    try lia; lra.
Qed.

Lemma accuracy_bounds (m : Manager) :
  0 <= correctAnswers (sessionData m) ->
  0 <= incorrectAnswers (sessionData m) ->
  countersConsistent m ->
  (0 <= calculateAccuracy m)%Q /\ (calculateAccuracy m <= 100)%Q.
Proof.
  unfold countersConsistent. cbv zeta. intros Hc Hi Ht.
  destruct (totalAnswers (sessionData m)) as [|total|total] eqn:E.
  - unfold calculateAccuracy. rewrite E. cbn. split; lra.
  - rewrite (calculateAccuracy_fraction m total E).
    split; unfold Qle; cbn [Qnum Qden]; lia.
  - lia.
Qed.

(** X14.  On consistent counters a correct answer never lowers the
    accuracy or the stars, and a wrong answer never raises them; a
    session whose answers are all correct has the accuracy 100 and three
    stars. *)
Theorem recordAnswer_accuracy (m : Manager) :
  0 <= correctAnswers (sessionData m) ->
  0 <= incorrectAnswers (sessionData m) ->
  countersConsistent m ->
  (calculateAccuracy m <= calculateAccuracy (recordAnswer true m))%Q /\
  (calculateAccuracy (recordAnswer false m) <= calculateAccuracy m)%Q /\
  calculateStars m <= calculateStars (recordAnswer true m) /\
  calculateStars (recordAnswer false m) <= calculateStars m /\
  (incorrectAnswers (sessionData m) = 0 -> 0 < totalAnswers (sessionData m) ->
   (calculateAccuracy m == 100)%Q /\ calculateStars m = 3).
Proof.
  intros Hc Hi Ht. unfold countersConsistent in Ht. cbv zeta in Ht.
  assert (Hup : (calculateAccuracy m <= calculateAccuracy (recordAnswer true m))%Q).
  { destruct (totalAnswers (sessionData m)) as [|total|total] eqn:E; [| |lia].
    - unfold calculateAccuracy at 1. rewrite E. cbn [Z.eqb].
      apply accuracy_bounds; cbn; unfold countersConsistent; cbn; lia.
    - rewrite (calculateAccuracy_fraction m total E).
      rewrite (calculateAccuracy_fraction (recordAnswer true m) (total + 1))
        by (cbn; rewrite E; reflexivity).
      cbn. unfold Qle. cbn [Qnum Qden]. nia. }
  assert (Hdown : (calculateAccuracy (recordAnswer false m) <= calculateAccuracy m)%Q).
  { destruct (totalAnswers (sessionData m)) as [|total|total] eqn:E; [| |lia].
    - unfold calculateAccuracy at 2. rewrite E. cbn [Z.eqb].
      rewrite (calculateAccuracy_fraction (recordAnswer false m) 1)
        by (cbn; rewrite E; reflexivity).
      cbn. unfold Qle. cbn [Qnum Qden]. lia.
    - rewrite (calculateAccuracy_fraction m total E).
      rewrite (calculateAccuracy_fraction (recordAnswer false m) (total + 1))
        by (cbn; rewrite E; reflexivity).
      cbn. unfold Qle. cbn [Qnum Qden]. nia. }
  split; [exact Hup|]. split; [exact Hdown|].
  split; [now apply calculateStars_monotone|].
  split; [now apply calculateStars_monotone|].
  intros H0 Hpos.
  destruct (totalAnswers (sessionData m)) as [|total|total] eqn:E; try lia.
  assert (Hacc : (calculateAccuracy m == 100)%Q).
  { rewrite (calculateAccuracy_fraction m total E).
    unfold Qeq. cbn [Qnum Qden]. lia. }
  split; [exact Hacc|].
  unfold calculateStars.
  replace (Qle_bool 95 (calculateAccuracy m)) with true; [reflexivity|].
  symmetry. apply Qle_bool_iff. rewrite Hacc. unfold Qle. cbn. lia.
Qed.

Lemma recordAnswer_accuracy_witness :
  let m := recordAnswer true (recordAnswer true (constructor 0 "abc")) in
  (calculateAccuracy m == 100)%Q /\ calculateStars m = 3 /\
  calculateStars (recordAnswer false m) <= calculateStars m.
Proof.
  intros m.
  destruct (recordAnswer_accuracy m) as (_ & _ & _ & Hdown & Hperfect);
    [cbn; lia | cbn; lia | reflexivity |].
  destruct Hperfect as [Ha Hs]; [reflexivity | reflexivity |].
  split; [exact Ha|]. split; [exact Hs|exact Hdown].
Defined.

Section Runs.

Variable JSON_parse : string -> option Json.
Variable JSON_stringify : SavedData -> string.
Variable spreadPersistent : PersistentData -> Json -> PersistentData.

Local Abbreviation run := (run JSON_parse JSON_stringify spreadPersistent).

(** X15.  After any sequence of calls on a new manager the accuracy lies
    between 0 and 100 and the stars between 0 and 3. *)
Theorem accuracy_and_stars_in_range (cs : list Call) (now : Z)
    (suffix : string) (st : Storage) :
  let m := (run cs (constructor now suffix, st)).1 in
  (0 <= calculateAccuracy m)%Q /\ (calculateAccuracy m <= 100)%Q /\
  0 <= calculateStars m <= 3.
Proof.
  intros m.
  assert (H : (0 <= correctAnswers (sessionData m) /\
               0 <= incorrectAnswers (sessionData m)) /\
              countersConsistent m).
  { unfold m.
    apply (run_invariant JSON_parse JSON_stringify spreadPersistent
             (fun m => (0 <= correctAnswers (sessionData m) /\
                        0 <= incorrectAnswers (sessionData m)) /\
                       countersConsistent m)).
    - intros c ms [[Hc Hi] Hk]. split.
      + destruct (startsFresh c) eqn:Ef.
        * destruct (exec_fresh JSON_parse JSON_stringify spreadPersistent
                      c ms Ef) as [t ->]. cbn. lia.
        * destruct (isRecordAnswer c) eqn:Er.
          -- destruct ms as [m0 st0]. destruct c; try discriminate.
             cbn. destruct isCorrect; cbn in *; lia.
          -- pose proof (exec_counters JSON_parse JSON_stringify
                           spreadPersistent c ms Ef Er) as H.
             unfold counters in H. injection H as _ -> ->. lia.
      + now apply exec_consistent.
    - cbn. unfold countersConsistent. cbn. lia. }
  destruct H as [[Hc Hi] Hk].
  destruct (accuracy_bounds m Hc Hi Hk) as [H0 H100].
  split; [exact H0|]. split; [exact H100|apply calculateStars_bounds].
Qed.

End Runs.

End AccuracyFacts.

(** ** More on completing a session and on the storage *)

Section CompletionFacts.
Import ProgressManager.

Variable JSON_parse : string -> option Json.
Variable JSON_stringify : SavedData -> string.
Variable spreadPersistent : PersistentData -> Json -> PersistentData.

Local Abbreviation saveProgress := (saveProgress JSON_stringify).
Local Abbreviation completeSession := (completeSession JSON_stringify).
Local Abbreviation loadProgress := (loadProgress JSON_parse spreadPersistent).
Local Abbreviation exec := (exec JSON_parse JSON_stringify spreadPersistent).
Local Abbreviation run := (run JSON_parse JSON_stringify spreadPersistent).

(** The manager after [completeSession], whatever the storage does. *)
Lemma completeSession_persistent (now : Z) (m : Manager) (st : Storage) :
  let s := sessionData m in
  let p := persistentData m in
  let stars := calculateStars m in
  let p' := persistentData (completeSession now m st).1.2 in
  totalSessions p' = totalSessions p + 1 /\
  totalBananas p' = totalBananas p + bananasCollected s /\
  totalStars p' = totalStars p + stars /\
  lastPlayed p' = now /\ playerId p' = playerId p /\
  createdAt p' = createdAt p /\ preferences p' = preferences p /\
  starsEarned (sessionData (completeSession now m st).1.2) = stars /\
  levelsCompleted p'
  = match levelsCompleted p !! difficulty s with
    | Some levels =>
        if negb (Js.includes levels (Z.of_nat (length levels) + 1))
        then <[difficulty s := levels ++ [Z.of_nat (length levels) + 1]]>
               (levelsCompleted p)
        else levelsCompleted p
    | None => levelsCompleted p
    end.
Proof.
  cbv zeta. unfold ProgressManager.completeSession. cbn.
  assert (Hs : calculateStars (updateElapsedTime now m) = calculateStars m)
    by reflexivity.
  destruct (highScores (persistentData m) !! difficulty (sessionData m))
    as [h|]; [destruct (h <? score (sessionData m))|]; cbn;
    destruct (levelsCompleted (persistentData m) !! difficulty (sessionData m));
    cbn; try destruct (negb _); cbn; rewrite ?Hs; repeat split; reflexivity.
Qed.

(** X16.  [completeSession] throws when the difficulty of the session has
    no list of completed levels, as after [startSession] with a name
    that is no tier: the session is counted in the totals all the same,
    and nothing is written to the storage. *)
Theorem completeSession_unknown_tier (now : Z) (m : Manager) (st : Storage) :
  levelsCompleted (persistentData m) !! difficulty (sessionData m) = None ->
  (completeSession now m st).1.1 = Thrown /\
  (completeSession now m st).2 = st /\
  totalSessions (persistentData (completeSession now m st).1.2)
  = totalSessions (persistentData m) + 1 /\
  levelsCompleted (persistentData (completeSession now m st).1.2)
  = levelsCompleted (persistentData m).
Proof.
  intros Hnone.
  destruct (completeSession_persistent now m st)
    as (Ht & _ & _ & _ & _ & _ & _ & _ & Hl).
  rewrite Hnone in Hl. split; [|split; [|split; assumption]].
  - unfold ProgressManager.completeSession. cbn.
    destruct (highScores (persistentData m) !! difficulty (sessionData m))
      as [h|]; [destruct (h <? score (sessionData m))|]; cbn;
      rewrite Hnone; reflexivity.
  - unfold ProgressManager.completeSession. cbn.
    destruct (highScores (persistentData m) !! difficulty (sessionData m))
      as [h|]; [destruct (h <? score (sessionData m))|]; cbn;
      rewrite Hnone; reflexivity.
Qed.

(** X17.  When the difficulty of the session has a list of completed
    levels, [completeSession] returns the numbers of the session; with a
    storage that takes the write, the entry of the manager then holds
    the saved record, and with one that refuses it the storage is
    unchanged while the manager and the returned numbers are the same. *)
Theorem completeSession_storage (now : Z) (m : Manager) (st : Storage)
    (levels : list Z) :
  levelsCompleted (persistentData m) !! difficulty (sessionData m)
  = Some levels ->
  let m' := (completeSession now m st).1.2 in
  let s' := sessionData m' in
  (completeSession now m st).1.1
  = Returned (mkResults (score s') (calculateAccuracy m') (calculateStars m)
                (bananasCollected s') (correctAnswers s') (totalAnswers s')
                (now - startTime (sessionData m))) /\
  (writeThrows st = false ->
   items (completeSession now m st).2
   = <[storageKey :=
         JSON_stringify
           (mkSaved (persistentData m')
              (mkLastSession (difficulty s') (score s') (calculateStars m)
                 (bananasCollected s') now))]> (items st)) /\
  (writeThrows st = true -> (completeSession now m st).2 = st) /\
  (forall st0, (completeSession now m st0).1 = (completeSession now m st).1).
Proof.
  intros Hl. cbv zeta. unfold ProgressManager.completeSession. cbn.
  assert (Hs : calculateStars (updateElapsedTime now m) = calculateStars m)
    by reflexivity.
  destruct (highScores (persistentData m) !! difficulty (sessionData m))
    as [h|]; [destruct (h <? score (sessionData m))|]; cbn;
    rewrite Hl; cbn; destruct (negb _); cbn;
    unfold ProgressManager.saveProgress, setItem; cbn; rewrite ?Hs;
    (split; [reflexivity|]);
    (split; [intros ->; reflexivity|]);
    (split; [intros ->; reflexivity|]);
    intros st0; reflexivity.
Qed.

End CompletionFacts.

Section PersistentFacts.
Import ProgressManager ProgressMore.

Variable JSON_parse : string -> option Json.
Variable JSON_stringify : SavedData -> string.
Variable spreadPersistent : PersistentData -> Json -> PersistentData.

Local Abbreviation completeSession := (completeSession JSON_stringify).
Local Abbreviation loadProgress := (loadProgress JSON_parse spreadPersistent).
Local Abbreviation exec := (exec JSON_parse JSON_stringify spreadPersistent).
Local Abbreviation run := (run JSON_parse JSON_stringify spreadPersistent).

(** Only [completeSession] and the calls that replace the record change
    its totals and its lists of levels. *)
Lemma exec_persistent_other (c : Call) (ms : Manager * Storage) :
  replacesPersistent c = false -> isCompleteSession c = false ->
  let p := persistentData ms.1 in
  let p' := persistentData (exec c ms).1 in
  totalSessions p' = totalSessions p /\ totalBananas p' = totalBananas p /\
  totalStars p' = totalStars p /\ levelsCompleted p' = levelsCompleted p.
Proof.
  destruct ms as [m st].
  destruct c; cbn [replacesPersistent isCompleteSession]; try discriminate;
    intros _ _; cbn; try (repeat split; reflexivity).
  - unfold incrementScore. destruct (points <? 0); repeat split; reflexivity.
  - unfold addBananas. destruct (count <? 0); repeat split; reflexivity.
Qed.

Lemma completeSession_levelsInOrder (now : Z) (m : Manager) (st : Storage) :
  levelsInOrder m ->
  levelsInOrder (completeSession now m st).1.2 /\
  forall levels,
    levelsCompleted (persistentData m) !! difficulty (sessionData m)
    = Some levels ->
    levelsCompleted (persistentData (completeSession now m st).1.2)
      !! difficulty (sessionData m)
    = Some (levels ++ [Z.of_nat (length levels) + 1]).
Proof.
  intros Hord.
  destruct (completeSession_persistent JSON_stringify now m st)
    as (_ & _ & _ & _ & _ & _ & _ & _ & Hl).
  destruct (levelsCompleted (persistentData m) !! difficulty (sessionData m))
    as [levels|] eqn:E.
  - assert (Hnew : Js.includes levels (Z.of_nat (length levels) + 1) = false).
    { unfold Js.includes. apply bool_decide_eq_false.
      rewrite (Hord _ _ E), elem_of_seqZ, length_seqZ. lia. }
    rewrite Hnew in Hl. cbn [negb] in Hl. split.
    + intros tier l Hlook. rewrite Hl in Hlook.
      destruct (decide (tier = difficulty (sessionData m))) as [->|Hne].
      * rewrite lookup_insert_eq in Hlook. injection Hlook as <-.
        rewrite length_app. cbn [length].
        replace (length levels + 1)%nat with (S (length levels)) by lia.
        rewrite seqZ_S, <- (Hord _ _ E). f_equal. f_equal. lia.
      * rewrite lookup_insert_ne in Hlook by congruence.
        exact (Hord _ _ Hlook).
    + intros levels' [= <-]. rewrite Hl. apply lookup_insert_eq.
  - split; [|discriminate]. intros tier l. rewrite Hl. apply (Hord tier l).
Qed.

(** X18.  The lists of completed levels of a new manager are empty, and
    each [completeSession] on a tier that has a list appends the next
    number to it: as long as the record is not replaced by a loaded or
    imported one, every list is 1, 2, ..., n. *)
Theorem completed_levels_sequential :
  (forall now suffix, levelsInOrder (constructor now suffix)) /\
  (forall (now : Z) (m : Manager) (st : Storage) (levels : list Z),
      levelsInOrder m ->
      levelsCompleted (persistentData m) !! difficulty (sessionData m)
      = Some levels ->
      let m' := (completeSession now m st).1.2 in
      getCompletedLevels (difficulty (sessionData m)) m'
      = levels ++ [Z.of_nat (length levels) + 1] /\
      isLevelCompleted (difficulty (sessionData m))
        (Z.of_nat (length levels) + 1) m' = Some true) /\
  (forall (cs : list Call) (ms : Manager * Storage),
      keepsPersistent cs = true ->
      levelsInOrder ms.1 -> levelsInOrder (run cs ms).1).
Proof.
  split; [|split].
  - intros now suffix tier levels. cbn.
    rewrite !lookup_insert_Some, lookup_singleton_Some.
    intros [[_ <-]|[_ [[_ <-]|[_ [_ <-]]]]]; reflexivity.
  - intros now m st levels Hord Hl m'. subst m'.
    destruct (completeSession_levelsInOrder now m st Hord) as [_ Happ].
    unfold getCompletedLevels, isLevelCompleted.
    rewrite (Happ _ Hl). cbn. split; [reflexivity|].
    f_equal. unfold Js.includes. apply bool_decide_eq_true.
    apply elem_of_app. right. apply list_elem_of_here.
  - intros cs. induction cs as [|c cs IH]; intros ms Hcs Hord; [exact Hord|].
    unfold keepsPersistent in Hcs. cbn [forallb] in Hcs.
    apply andb_true_iff in Hcs as [Hc Hcs]. apply negb_true_iff in Hc.
    change (run (c :: cs) ms) with (run cs (exec c ms)).
    apply IH; [exact Hcs|].
    destruct (isCompleteSession c) eqn:Ec.
    + destruct c; try discriminate. destruct ms as [m st].
      rewrite exec_completeSession.
      now apply completeSession_levelsInOrder.
    + destruct (exec_persistent_other c ms Hc Ec) as (_ & _ & _ & Hl).
      intros tier levels. rewrite Hl. apply (Hord tier levels).
Qed.

End PersistentFacts.

Section LifetimeFacts.
Import ProgressManager ProgressMore.

Variable JSON_parse : string -> option Json.
Variable JSON_stringify : SavedData -> string.
Variable spreadPersistent : PersistentData -> Json -> PersistentData.

Local Abbreviation completeSession := (completeSession JSON_stringify).
Local Abbreviation loadProgress := (loadProgress JSON_parse spreadPersistent).
Local Abbreviation exec := (exec JSON_parse JSON_stringify spreadPersistent).
Local Abbreviation run := (run JSON_parse JSON_stringify spreadPersistent).

Lemma completions_cons (c : Call) (cs : list Call) :
  completions (c :: cs)
  = (if isCompleteSession c then 1 else 0) + completions cs.
Proof.
  unfold completions. cbn [List.filter].
  destruct (isCompleteSession c); cbn [length]; lia.
Qed.

Lemma run_totals (cs : list Call) (ms : Manager * Storage) :
  keepsPersistent cs = true ->
  0 <= score (sessionData ms.1) /\ 0 <= bananasCollected (sessionData ms.1) /\
  0 <= correctAnswers (sessionData ms.1) /\
  0 <= incorrectAnswers (sessionData ms.1) ->
  let p := persistentData ms.1 in
  let p' := persistentData (run cs ms).1 in
  totalSessions p' = totalSessions p + completions cs /\
  totalBananas p <= totalBananas p' /\
  totalStars p <= totalStars p' <= totalStars p + 3 * completions cs.
Proof.
  revert ms. induction cs as [|c cs IH]; intros ms Hcs Hok.
  - cbn. unfold completions. cbn. lia.
  - unfold keepsPersistent in Hcs. cbn [forallb] in Hcs.
    apply andb_true_iff in Hcs as [Hc Hcs]. apply negb_true_iff in Hc.
    change (run (c :: cs) ms) with (run cs (exec c ms)).
    pose proof (exec_nonneg JSON_parse JSON_stringify spreadPersistent c ms Hok)
      as Hok'.
    specialize (IH (exec c ms) Hcs Hok'). cbv zeta in IH |- *.
    destruct IH as (Hs & Hb & Ht). rewrite completions_cons.
    destruct (isCompleteSession c) eqn:Ec.
    + destruct c; try discriminate. destruct ms as [m st].
      rewrite exec_completeSession in Hs, Hb, Ht.
      destruct (completeSession_persistent JSON_stringify now m st)
        as (Es & Eb & Et & _).
      pose proof (calculateStars_bounds m).
      cbn [fst] in *. rewrite Es in Hs. rewrite Eb in Hb. rewrite Et in Ht.
      lia.
    + destruct (exec_persistent_other JSON_parse JSON_stringify
                  spreadPersistent c ms Hc Ec) as (Es & Eb & Et & _).
      rewrite Es in Hs. rewrite Eb in Hb. rewrite Et in Ht. lia.
Qed.

(** X19.  On a manager that is never loaded, imported into or reset, the
    number of sessions is the number of [completeSession] calls, those
    that throw included; the bananas are not negative, and the stars lie
    between 0 and three times the number of sessions. *)
Theorem lifetime_totals (cs : list Call) (now : Z) (suffix : string)
    (st : Storage) :
  keepsPersistent cs = true ->
  let p := persistentData (run cs (constructor now suffix, st)).1 in
  totalSessions p = completions cs /\ 0 <= totalBananas p /\
  0 <= totalStars p <= 3 * totalSessions p.
Proof.
  intros Hcs.
  destruct (run_totals cs (constructor now suffix, st) Hcs) as (Hs & Hb & Ht);
    [cbn; lia|].
  cbn in Hs, Hb, Ht. cbv zeta. lia.
Qed.

(** X20.  [resetAllProgress] puts a default session and a default record
    in place.  With a storage that takes the removal, the entry of the
    manager is gone, the other entries stay, and a following
    [loadProgress] returns [false] and changes nothing; with a storage
    that refuses it, the stored entry survives the reset. *)
Theorem resetAllProgress_storage (now : Z) (suffix : string) (m : Manager)
    (st : Storage) :
  (resetAllProgress now suffix m st).1 = constructor now suffix /\
  (writeThrows st = false ->
   let st' := (resetAllProgress now suffix m st).2 in
   items st' !! storageKey = None /\
   (forall key, key <> storageKey -> items st' !! key = items st !! key) /\
   forall now' suffix' m',
     loadProgress now' suffix' m' st' = (false, m')) /\
  (writeThrows st = true -> (resetAllProgress now suffix m st).2 = st).
Proof.
  unfold resetAllProgress, removeItem.
  destruct (writeThrows st) eqn:Ew; cbn [fst snd].
  - split; [reflexivity|]. split; [discriminate|reflexivity].
  - split; [reflexivity|]. split; [|discriminate].
    intros _. cbn. split; [apply lookup_delete_eq|]. split.
    + intros key Hne. now apply lookup_delete_ne.
    + intros now' suffix' m'. unfold ProgressManager.loadProgress, getItem.
      cbn. destruct (readThrows st); [reflexivity|].
      now rewrite lookup_delete_eq.
Qed.

(** X21.  [loadProgress] returns [true] exactly when the stored text is
    not empty and parses to something other than [null], and only a
    stored object with a truthy [persistent] property changes the
    record: any other parsed value is reported as loaded and leaves the
    manager as it was.  The session is never changed. *)
Theorem loadProgress_result (now : Z) (suffix : string) (m : Manager)
    (st : Storage) :
  ((loadProgress now suffix m st).1 = true
   <-> exists saved data,
         getItem storageKey st = Some (Some saved) /\ saved <> "" /\
         JSON_parse saved = Some data /\ data <> JNull) /\
  ((loadProgress now suffix m st).1 = false ->
   (loadProgress now suffix m st).2 = m) /\
  (forall saved data,
     getItem storageKey st = Some (Some saved) -> saved <> "" ->
     JSON_parse saved = Some data -> data <> JNull ->
     (forall stored, field "persistent" data = Some stored ->
                     truthy stored = false) ->
     loadProgress now suffix m st = (true, m)) /\
  sessionData (loadProgress now suffix m st).2 = sessionData m.
Proof.
  split; [|split; [|split]].
  - unfold ProgressManager.loadProgress.
    destruct (getItem storageKey st) as [[saved|]|] eqn:Eg; cbn;
      [|split; [discriminate|intros (s & d & H & _); discriminate H]..].
    destruct (String.eqb_spec saved "") as [->|Hs]; cbn;
      [split; [discriminate|intros (s & d & [= <-] & Hne & _); now elim Hne]|].
    destruct (JSON_parse saved) as [data|] eqn:Ep; cbn;
      [|split; [discriminate|intros (s & d & [= <-] & _ & Hd & _); congruence]].
    split.
    + intros H. exists saved, data. repeat split; try assumption.
      intros ->. discriminate H.
    + intros (s & d & [= <-] & _ & Hd & Hnull).
      rewrite Ep in Hd. injection Hd as <-.
      destruct data; try contradiction; repeat case_match; reflexivity.
  - unfold ProgressManager.loadProgress.
    repeat case_match; cbn; intros; try discriminate; reflexivity.
  - intros saved data Eg Hs Ep Hnull Hfalsy.
    unfold ProgressManager.loadProgress. rewrite Eg.
    destruct (String.eqb_spec saved "") as [->|_]; [now elim Hs|].
    rewrite Ep.
    destruct data; try contradiction;
      (destruct (field "persistent" _) as [stored|] eqn:Ef;
       [rewrite (Hfalsy stored eq_refl)|]; reflexivity).
  - unfold ProgressManager.loadProgress.
    repeat case_match; reflexivity.
Qed.

End LifetimeFacts.

Section ProgressWitnessesMore.
Import ProgressManager ProgressMore.

Lemma score_never_decreases_witness :
  let parse := fun _ : string => @None Json in
  let stringify := fun _ : SavedData => "{}" in
  let spread := fun (p : PersistentData) (_ : Json) => p in
  let ms := (incrementScore 100 (constructor 0 "abc"), emptyStorage) in
  score (sessionData ms.1)
  <= score (sessionData (exec parse stringify spread (CallCompleteSession 9) ms).1) /\
  exec parse stringify spread (CallIncrementScore (-5)) ms = ms /\
  exec parse stringify spread (CallAddBananas (-1)) ms = ms.
Proof.
  intros parse stringify spread ms.
  destruct (score_never_decreases parse stringify spread)
    as (Hmono & Hpoints & Hcount & _).
  split; [|split].
  - apply (Hmono (CallCompleteSession 9) ms). reflexivity.
  - apply Hpoints. lia.
  - apply Hcount. lia.
Defined.

Lemma completeSession_unknown_tier_witness :
  let stringify := fun _ : SavedData => "{}" in
  let m := startSession 1 "nonexistent" 5 (constructor 0 "abc") in
  (completeSession stringify 9 m emptyStorage).1.1 = Thrown /\
  (completeSession stringify 9 m emptyStorage).2 = emptyStorage.
Proof.
  intros stringify m.
  destruct (completeSession_unknown_tier stringify 9 m emptyStorage)
    as (Ht & Hs & _); [reflexivity|].
  split; assumption.
Defined.

Lemma completeSession_storage_witness :
  let stringify := fun _ : SavedData => "{}" in
  let m := startSession 1 "easy" 5 (constructor 0 "abc") in
  items (completeSession stringify 9 m emptyStorage).2 !! storageKey
  = Some "{}".
Proof.
  intros stringify m.
  destruct (completeSession_storage stringify 9 m emptyStorage [])
    as (_ & Hw & _); [reflexivity|].
  rewrite Hw by reflexivity. apply lookup_insert_eq.
Defined.

Lemma completed_levels_sequential_witness :
  let parse := fun _ : string => @None Json in
  let stringify := fun _ : SavedData => "{}" in
  let spread := fun (p : PersistentData) (_ : Json) => p in
  let m := startSession 1 "medium" 5 (constructor 0 "abc") in
  getCompletedLevels "medium" (completeSession stringify 9 m emptyStorage).1.2
  = [1] /\
  levelsInOrder
    (run parse stringify spread
       [CallCompleteSession 9; CallStartSession 10 "hard" 5;
        CallCompleteSession 20] (m, emptyStorage)).1.
Proof.
  intros parse stringify spread m.
  destruct (completed_levels_sequential parse stringify spread)
    as (Hnew & Happend & Hrun).
  assert (Hm : levelsInOrder m) by exact (Hnew 0 "abc").
  split.
  - apply (Happend 9 m emptyStorage [] Hm). reflexivity.
  - apply Hrun; [reflexivity|exact Hm].
Defined.

Lemma lifetime_totals_witness :
  let parse := fun _ : string => @None Json in
  let stringify := fun _ : SavedData => "{}" in
  let spread := fun (p : PersistentData) (_ : Json) => p in
  totalSessions
    (persistentData
       (run parse stringify spread
          [CallStartSession 1 "easy" 5; CallRecordAnswer true;
           CallCompleteSession 9; CallStartSession 10 "nowhere" 5;
           CallCompleteSession 20] (constructor 0 "abc", emptyStorage)).1)
  = 2.
Proof.
  intros parse stringify spread.
  apply (lifetime_totals parse stringify spread
           [CallStartSession 1 "easy" 5; CallRecordAnswer true;
            CallCompleteSession 9; CallStartSession 10 "nowhere" 5;
            CallCompleteSession 20] 0 "abc" emptyStorage).
  reflexivity.
Defined.

Lemma resetAllProgress_storage_witness :
  let parse := fun _ : string => Some (JObject []) in
  let spread := fun (p : PersistentData) (_ : Json) => p in
  let st := mkStorage {[ storageKey := "{}"; "other" := "kept" ]} false false in
  let st' := (resetAllProgress 5 "xyz" (constructor 0 "abc") st).2 in
  items st' !! storageKey = None /\ items st' !! "other" = Some "kept" /\
  loadProgress parse spread 6 "uvw" (constructor 5 "xyz") st'
  = (false, constructor 5 "xyz").
Proof.
  intros parse spread st st'.
  destruct (proj1 (proj2 (resetAllProgress_storage parse spread 5 "xyz"
                             (constructor 0 "abc") st)) eq_refl)
    as (Hgone & Hkept & Hload).
  split; [exact Hgone|]. split; [|apply Hload].
  unfold st'. rewrite Hkept by discriminate. reflexivity.
Defined.

Lemma loadProgress_result_witness :
  let parse := fun _ : string => Some (JNumber 5) in
  let spread := fun (p : PersistentData) (_ : Json) => p in
  let st := mkStorage {[ storageKey := "5" ]} false false in
  loadProgress parse spread 6 "uvw" (constructor 0 "abc") st
  = (true, constructor 0 "abc").
Proof.
  intros parse spread st.
  apply (proj1 (proj2 (proj2 (loadProgress_result parse spread 6 "uvw"
                                (constructor 0 "abc") st))) "5" (JNumber 5));
    try reflexivity; try discriminate.
Defined.

End ProgressWitnessesMore.

(** ** The input manager *)

Section InputFacts.
Import Js JsText InputManager.


Lemma len_cons (c : ascii) (s : string) : len (String c s) = len s + 1.
Proof. unfold len. cbn [String.length]. lia. Qed.

Lemma len_nonneg (s : string) : 0 <= len s.
Proof. unfold len. lia. Qed.





Lemma len_append (s t : string) : len (s +:+ t) = len s + len t.
Proof.
  induction s as [|c s IH]; [rewrite append_empty_l; change (len "") with 0; lia|].
  rewrite append_cons, !len_cons, IH. lia.
Qed.



Lemma dropLast_append (s : string) (c : ascii) :
  dropLast (s +:+ String c "") = s.
Proof.
  induction s as [|d s IH]; [reflexivity|].
  rewrite append_cons.
  destruct s as [|d' s].
  - reflexivity.
  - rewrite append_cons in *.
    change (dropLast (String d (String d' (s +:+ String c ""))))
      with (String d (dropLast (String d' (s +:+ String c "")))).
    now rewrite IH.
Qed.



Lemma oneDigit_inv (digit : string) :
  isOneDigit digit = true ->
  exists c, digit = String c "" /\ isDigit c = true.
Proof.
  destruct digit as [|c [|d s]]; try discriminate. intros H. now exists c.
Qed.








(** X23.  Typing a digit into an enabled input manager whose input is
    below the limit appends it, and the backspace key then restores the
    manager as it was. *)
Theorem key_then_backspace (digit : string) (im : Input) :
  inputEnabled im = true -> isOneDigit digit = true ->
  len (currentInput im) < maxInputLength im ->
  currentInput (handleNumberKey digit im) = currentInput im +:+ digit /\
  handleBackspace (handleNumberKey digit im) = im.
Proof.
  intros He Hd Hl. destruct (oneDigit_inv digit Hd) as (c & -> & Hc).
  destruct im as [en cur mx]. cbn in He, Hl. subst en.
  unfold handleNumberKey, handleBackspace. cbn [inputEnabled negb].
  change (isOneDigit (String c "")) with (isDigit c). rewrite Hc.
  cbn [negb currentInput maxInputLength].
  destruct (mx <=? len cur) eqn:E; [apply Z.leb_le in E; lia|].
  cbn [setCurrentInput inputEnabled currentInput maxInputLength negb].
  split; [reflexivity|].
  rewrite len_append, len_cons. change (len "") with 0.
  destruct (len cur + (0 + 1) =? 0) eqn:E0;
    [apply Z.eqb_eq in E0; pose proof (len_nonneg cur); lia|].
  now rewrite dropLast_append.
Qed.

Lemma key_then_backspace_witness :
  handleBackspace (handleNumberKey "7" (mkInput true "12" 3))
  = mkInput true "12" 3.
Proof.
  apply (key_then_backspace "7" (mkInput true "12" 3));
    [reflexivity|reflexivity|vm_compute; reflexivity].
Defined.

Lemma setInput_numbers (enabled : bool) (cur : string) :
  forallb (fun n =>
             match getInputAsNumber
                     (setInput (toString n) (mkInput enabled cur 3)) with
             | Some m => m =? Z.abs n
             | None => false
             end) (seqZ (-999) 1999) = true.
Proof. vm_compute. reflexivity. Qed.

(** X24.  [setInput] of a number between -999 and 999, written out by
    [toString], on a manager with the constructor's limit: the input then
    reads as the absolute value of the number, the sign being dropped with
    every other character that is no digit. *)
Theorem setInput_number_round_trip (n : Z) (im : Input) :
  maxInputLength im = 3 -> -999 <= n <= 999 ->
  getInputAsNumber (setInput (toString n) im) = Some (Z.abs n).
Proof.
  intros Hm Hn. destruct im as [en cur mx]. cbn in Hm. subst mx.
  pose proof (setInput_numbers en cur) as H.
  rewrite forallb_forall in H. specialize (H n).
  destruct (getInputAsNumber _) as [m|].
  - f_equal. apply Z.eqb_eq, H, list_elem_of_In, elem_of_seqZ. lia.
  - discriminate H. apply list_elem_of_In, elem_of_seqZ. lia.
Qed.

Lemma setInput_number_round_trip_witness :
  getInputAsNumber (setInput (toString (-42)) constructor) = Some 42.
Proof.
  apply (setInput_number_round_trip (-42) constructor); [reflexivity|lia].
Defined.


End InputFacts.

(** ** The number pad *)

Section PadFacts.
Import Js JsText NumberPad.

Lemma buttons_closed : closedUnder buttons numerals = true.
Proof. vm_compute. reflexivity. Qed.

Lemma among_spec (s : string) (l : list string) :
  among s l = true <-> s ∈ l.
Proof.
  unfold among. rewrite existsb_exists, list_elem_of_In. split.
  - intros (x & Hx & ->%String.eqb_eq). exact Hx.
  - intros H. exists s. split; [exact H|apply String.eqb_refl].
Qed.

Lemma closedUnder_spec (bs : list Button) (l : list string) (b : Button)
    (s : string) :
  closedUnder bs l = true -> b ∈ bs -> s ∈ l -> press b s ∈ l.
Proof.
  unfold closedUnder. intros H Hb Hs.
  rewrite forallb_forall in H. specialize (H s (proj1 (list_elem_of_In _ _) Hs)).
  rewrite forallb_forall in H. specialize (H b (proj1 (list_elem_of_In _ _) Hb)).
  now apply among_spec.
Qed.

Lemma press_numeral (b : Button) (s : string) :
  b ∈ buttons -> s ∈ numerals -> press b s ∈ numerals.
Proof. apply closedUnder_spec, buttons_closed. Qed.

Lemma pressAll_snoc (bs : list Button) (b : Button) (s : string) :
  pressAll (bs ++ [b]) s = press b (pressAll bs s).
Proof. unfold pressAll. now rewrite fold_left_app. Qed.

Lemma pressAll_numeral (bs : list Button) :
  Forall (fun b => b ∈ buttons) bs -> pressAll bs constructor ∈ numerals.
Proof.
  induction bs as [|b bs IH] using rev_ind; intros H.
  - apply among_spec. reflexivity.
  - apply Forall_app in H as [Hbs Hb]. rewrite pressAll_snoc.
    apply press_numeral; [now inversion Hb|now apply IH].
Qed.

Lemma numerals_spec (s : string) :
  s ∈ numerals <-> s = "" \/ exists n, 0 <= n <= 999 /\ s = toString n.
Proof.
  unfold numerals. rewrite elem_of_cons, list_elem_of_fmap.
  split; (intros [H|H]; [now left|right]).
  - destruct H as (n & -> & Hn%elem_of_seqZ). exists n. split; [lia|reflexivity].
  - destruct H as (n & Hn & ->). exists n. split; [reflexivity|].
    apply elem_of_seqZ. lia.
Qed.

Lemma toString_zero (n : Z) : 0 <= n <= 999 -> toString n = "0" -> n = 0.
Proof.
  intros Hn H. pose proof (parseInt_toString n) as Hp. rewrite H in Hp.
  now injection Hp.
Qed.

Lemma toString_nonempty (n : Z) : toString n <> "".
Proof.
  intros H. pose proof (parseInt_toString n) as Hp. rewrite H in Hp.
  discriminate Hp.
Qed.

Lemma onSubmit_numeral (s t : string) :
  s ∈ numerals -> onSubmit s = Some t ->
  s = t /\ exists n, 1 <= n <= 999 /\ t = toString n.
Proof.
  intros Hs. unfold onSubmit.
  destruct (String.eqb_spec s "") as [->|Hne]; [discriminate|].
  destruct (String.eqb_spec s "0") as [->|Hnz]; [discriminate|].
  cbn. intros [= <-]. split; [reflexivity|].
  apply numerals_spec in Hs as [->|(n & Hn & ->)]; [contradiction|].
  exists n. split; [|reflexivity].
  destruct (Z.eq_dec n 0) as [->|]; [now elim Hnz|lia].
Qed.

Lemma keysFor_spell :
  forallb (fun n => bool_decide (Forall (fun b => b ∈ buttons) (keysFor n))
                    && String.eqb (pressAll (keysFor n) constructor)
                         (toString n)) (seqZ 1 999) = true.
Proof. vm_compute. reflexivity. Qed.

Lemma keysFor_ok (n : Z) :
  1 <= n <= 999 ->
  Forall (fun b => b ∈ buttons) (keysFor n) /\
  pressAll (keysFor n) constructor = toString n.
Proof.
  intros Hn. pose proof keysFor_spell as H. rewrite forallb_forall in H.
  specialize (H n). rewrite andb_true_iff in H.
  destruct H as [H1 H2]; [apply list_elem_of_In, elem_of_seqZ; lia|].
  split; [exact (bool_decide_eq_true_1 _ H1)|now apply String.eqb_eq].
Qed.

(** The engine's verdict on a numeral typed for the current question. *)
Lemma validateAnswer_numeral (r : Q) (n : Z) (e : MathEngine.Engine)
    (q : MathEngine.Question) :
  MathEngine.currentQuestion e = Some q ->
  exists res,
    MathEngine.validateAnswer r (VString (toString n)) None e = Some res /\
    MathEngine.vr_valid res = true /\
    MathEngine.vr_correct res = (n =? MathEngine.q_answer q).
Proof.
  intros Hq. unfold MathEngine.validateAnswer, MathEngine.expectedAnswer.
  rewrite Hq. cbn [fmap option_fmap option_map MathEngine.sanitizeInput mbind option_bind].
  rewrite trim_id, keep_all, parseInt_toString by apply allChars_toString.
  eexists. split; [reflexivity|]. split; reflexivity.
Qed.

(** X25.  Whatever buttons of the pad are pressed, in any order, the pad
    shows the decimal numeral of a number from 0 to 999, without leading
    zeros; the submit button hands over nothing on the empty text and on
    0, and otherwise the numeral of a number from 1 to 999, which
    [parseInt] reads back. *)
Theorem pad_text_is_numeral (bs : list Button) (t : string) :
  Forall (fun b => b ∈ buttons) bs ->
  (exists n, 0 <= n <= 999 /\
             getCurrentInput (pressAll bs constructor) = toString n) /\
  (onSubmit (pressAll bs constructor) = Some t ->
   t = pressAll bs constructor /\
   exists n, 1 <= n <= 999 /\ t = toString n /\ parseInt t = Some n).
Proof.
  intros Hbs. pose proof (pressAll_numeral bs Hbs) as Hs. split.
  - unfold getCurrentInput.
    apply numerals_spec in Hs as [->|(n & Hn & ->)].
    + exists 0. split; [lia|reflexivity].
    + exists n. split; [exact Hn|].
      destruct (String.eqb_spec (toString n) "") as [E|_];
        [now apply toString_nonempty in E|reflexivity].
  - intros Ht. destruct (onSubmit_numeral _ _ Hs Ht) as (E & n & Hn & ->).
    split; [now rewrite E|]. exists n. split; [exact Hn|].
    split; [reflexivity|apply parseInt_toString].
Qed.

Lemma pad_text_is_numeral_witness :
  let bs := [Number 0; Number 0; Number 4; BackspaceButton; Number 0;
             Number 7; Number 1; Number 2] in
  onSubmit (pressAll bs constructor) = Some "712" /\
  exists n, 1 <= n <= 999 /\ "712" = toString n /\ parseInt "712" = Some n.
Proof.
  intros bs.
  assert (Hbs : Forall (fun b => b ∈ buttons) bs)
    by (refine (bool_decide_unpack _ _); vm_compute; exact I).
  split; [reflexivity|].
  exact (proj2 (proj2 (pad_text_is_numeral bs "712" Hbs)
                  (eq_refl : onSubmit (pressAll bs constructor) = Some "712"))).
Defined.

(** X26.  A question can be answered correctly from the number pad
    exactly when its answer is between 1 and 999: the pad never hands
    over 0, and a subtraction question whose two operands come out equal
    has the answer 0. *)
Theorem pad_answers_one_to_999 (r : Q) (e : MathEngine.Engine)
    (q : MathEngine.Question) :
  MathEngine.currentQuestion e = Some q ->
  ((exists bs t res,
      Forall (fun b => b ∈ buttons) bs /\
      onSubmit (pressAll bs constructor) = Some t /\
      MathEngine.validateAnswer r (VString t) None e = Some res /\
      MathEngine.vr_correct res = true)
   <-> 1 <= MathEngine.q_answer q <= 999) /\
  (forall now rnd template,
     MathEngine.tpl_operation template = "subtraction" ->
     MathEngine.q_answer (MathEngine.generateQuestion e now rnd rnd template)
     = 0).
Proof.
  intros Hq. split; [split|].
  - intros (bs & t & res & Hbs & Ht & Hv & Hc).
    destruct (onSubmit_numeral _ _ (pressAll_numeral bs Hbs) Ht)
      as (_ & n & Hn & ->).
    destruct (validateAnswer_numeral r n e q Hq) as (res' & Hv' & _ & Hc').
    rewrite Hv in Hv'. injection Hv' as <-. rewrite Hc in Hc'.
    symmetry in Hc'. apply Z.eqb_eq in Hc'. lia.
  - intros Ha. destruct (keysFor_ok _ Ha) as [Hk Hp].
    destruct (validateAnswer_numeral r (MathEngine.q_answer q) e q Hq)
      as (res & Hv & _ & Hc).
    exists (keysFor (MathEngine.q_answer q)), (toString (MathEngine.q_answer q)), res.
    split; [exact Hk|]. split; [|split; [exact Hv|]].
    + rewrite Hp. unfold onSubmit.
      destruct (String.eqb_spec (toString (MathEngine.q_answer q)) "") as [E|_];
        [now apply toString_nonempty in E|].
      destruct (String.eqb_spec (toString (MathEngine.q_answer q)) "0") as [E|_];
        [apply toString_zero in E; lia|reflexivity].
    + rewrite Hc. apply Z.eqb_refl.
  - intros now rnd template Hop. unfold MathEngine.generateQuestion.
    cbn [MathEngine.q_answer]. rewrite Hop. cbn. lia.
Qed.

Lemma pad_answers_one_to_999_witness :
  let q := MathEngine.mkQuestion "q" "equation" "subtraction" "5 - 5 = ?" 0
             false None (5, 5) "easy" in
  let e := MathEngine.setCurrentQuestion q MathEngine.constructor in
  ~ exists bs t res,
      Forall (fun b => b ∈ buttons) bs /\
      onSubmit (pressAll bs constructor) = Some t /\
      MathEngine.validateAnswer (1 # 2) (VString t) None e = Some res /\
      MathEngine.vr_correct res = true.
Proof.
  intros q e H.
  apply (proj1 (pad_answers_one_to_999 (1 # 2) e q eq_refl)) in H.
  cbn in H. lia.
Defined.

End PadFacts.

(** ** The game scene *)

Section SceneFacts.
Import Js ProgressManager GameScene.

(** Whether the string [userAnswer] reads as the answer of the engine's
    current question. *)
Local Abbreviation isRight userAnswer sc :=
  (match MathEngine.currentQuestion (mathEngine sc),
         parseInt (keep isDigitOrMinus (trim userAnswer)) with
   | Some q, Some n => n =? MathEngine.q_answer q
   | _, _ => false
   end).

Local Ltac scored userAnswer sc :=
  destruct (isRight userAnswer sc);
  unfold incrementScore, recordAnswer, withSession, CORRECT_ANSWER.

Lemma validateAnswer_string (r : Q) (userAnswer : string) (sc : Scene) :
  exists res,
    MathEngine.validateAnswer r (VString userAnswer) None (mathEngine sc)
    = Some res /\
    MathEngine.vr_correct res = isRight userAnswer sc.
Proof.
  unfold MathEngine.validateAnswer, MathEngine.expectedAnswer.
  destruct (MathEngine.currentQuestion (mathEngine sc)) as [q|]; cbn.
  - destruct (parseInt _) as [n|]; eexists; (split; [reflexivity|]);
      reflexivity.
  - eexists. split; reflexivity.
Qed.

Lemma handleAnswer_waiting (r : Q) (userAnswer : string) (sc : Scene) :
  gameState sc = WAITING_INPUT ->
  handleAnswer r (VString userAnswer) sc =
  Some (mkScene SHOWING_FEEDBACK (attemptCount sc + 1) (mathEngine sc)
          (if isRight userAnswer sc then
             incrementScore CORRECT_ANSWER
               (recordAnswer true (progressManager sc))
           else recordAnswer false (progressManager sc))
          (InputManager.disableInput (inputManager sc)) (numberPad sc)).
Proof.
  intros Hs. unfold handleAnswer. rewrite Hs. cbn [negb String.eqb].
  change (WAITING_INPUT =? WAITING_INPUT)%string with true. cbn [negb].
  cbn [mathEngine].
  destruct (validateAnswer_string r userAnswer sc) as (res & -> & Hc).
  cbn [mbind option_bind]. unfold showFeedback.
  cbn [progressManager attemptCount mathEngine inputManager numberPad].
  now rewrite Hc.
Qed.

(** X27.  An answer that arrives while the scene waits for input is
    counted once: the scene shows feedback, the attempt count and the
    number of answers go up by one, the input manager is disabled, and
    the answer is scored as correct (100 points) exactly when its digits
    and minus signs read as the answer of the engine's current question;
    without a current question every answer is scored as incorrect.  An
    answer that arrives in any other state, such as the second delivery
    of the same pad press, changes nothing. *)
Theorem handleAnswer_counts_once (r : Q) (userAnswer : string) (sc : Scene) :
  gameState sc = WAITING_INPUT ->
  exists sc',
    handleAnswer r (VString userAnswer) sc = Some sc' /\
    gameState sc' = SHOWING_FEEDBACK /\
    attemptCount sc' = attemptCount sc + 1 /\
    InputManager.inputEnabled (inputManager sc') = false /\
    mathEngine sc' = mathEngine sc /\
    persistentData (progressManager sc') = persistentData (progressManager sc)
    /\
    totalAnswers (session sc') = totalAnswers (session sc) + 1 /\
    score (session sc')
    = score (session sc) + (if isRight userAnswer sc then 100 else 0) /\
    correctAnswers (session sc')
    = correctAnswers (session sc) + (if isRight userAnswer sc then 1 else 0) /\
    incorrectAnswers (session sc')
    = incorrectAnswers (session sc)
      + (if isRight userAnswer sc then 0 else 1) /\
    (MathEngine.currentQuestion (mathEngine sc) = None ->
     isRight userAnswer sc = false) /\
    (forall r' again, handleAnswer r' again sc' = Some sc').
Proof.
  intros Hs. eexists. split; [exact (handleAnswer_waiting r userAnswer sc Hs)|].
  unfold session. cbn [gameState attemptCount inputManager mathEngine
                       progressManager InputManager.disableInput
                       InputManager.inputEnabled].
  split; [reflexivity|]. split; [reflexivity|]. split; [reflexivity|].
  split; [reflexivity|].
  split; [scored userAnswer sc; reflexivity|].
  split; [scored userAnswer sc; cbn; lia|].
  split; [scored userAnswer sc; cbn; lia|].
  split; [scored userAnswer sc; cbn; lia|].
  split; [scored userAnswer sc; cbn; lia|].
  split; [intros ->; reflexivity|].
  intros r' again. reflexivity.
Qed.

Lemma handleAnswer_counts_once_witness :
  let q := MathEngine.mkQuestion "q" "equation" "addition" "5 + 7 = ?" 12
             false None (5, 7) "easy" in
  let sc := mkScene WAITING_INPUT 0
              (MathEngine.setCurrentQuestion q MathEngine.constructor)
              (constructor 0 "abc") InputManager.constructor "" in
  exists sc',
    handleAnswer (1 # 2) (VString " 12 ") sc = Some sc' /\
    score (session sc') = 100 /\
    handleAnswer (1 # 2) (VString " 12 ") sc' = Some sc'.
Proof.
  intros q sc.
  destruct (handleAnswer_counts_once (1 # 2) " 12 " sc eq_refl)
    as (sc' & H & _ & _ & _ & _ & _ & _ & Hscore & _ & _ & _ & Hagain).
  exists sc'. split; [exact H|]. split; [exact Hscore|apply Hagain].
Defined.

(** One step keeps the attempts within three, closes the scene to answers
    at the third, and counts every attempt as an answer. *)
Lemma step_attempts (ev : Event) (sc : Scene) :
  0 <= attemptCount sc <= 3 ->
  (attemptCount sc = 3 -> gameState sc <> WAITING_INPUT) ->
  exists sc',
    step ev sc = Some sc' /\
    0 <= attemptCount sc' <= 3 /\
    (attemptCount sc' = 3 -> gameState sc' <> WAITING_INPUT) /\
    totalAnswers (session sc') - attemptCount sc'
    = totalAnswers (session sc) - attemptCount sc /\
    score (session sc') - 100 * correctAnswers (session sc')
    = score (session sc) - 100 * correctAnswers (session sc) /\
    totalAnswers (session sc') - correctAnswers (session sc')
      - incorrectAnswers (session sc')
    = totalAnswers (session sc) - correctAnswers (session sc)
      - incorrectAnswers (session sc).
Proof.
  intros Hb Hclosed. destruct ev as [r userAnswer|]; cbn [step].
  - destruct (String.eqb_spec (gameState sc) WAITING_INPUT) as [Hs|Hs].
    + rewrite (handleAnswer_waiting r userAnswer sc Hs).
      eexists. split; [reflexivity|]. unfold session.
      cbn [gameState attemptCount progressManager].
      assert (attemptCount sc <> 3) by (intros E; now apply Hclosed in E).
      split; [lia|]. split; [discriminate|].
      scored userAnswer sc; cbn; lia.
    + exists sc. unfold handleAnswer.
      destruct (String.eqb_spec (gameState sc) WAITING_INPUT);
        [contradiction|].
      cbn. repeat split; try assumption; lia.
  - exists (allowRetry sc). split; [reflexivity|]. unfold allowRetry.
    destruct (3 <=? attemptCount sc) eqn:E.
    + repeat split; try assumption; lia.
    + apply Z.leb_gt in E. unfold session.
      cbn [gameState attemptCount progressManager].
      repeat split; lia.
Qed.

(** X28.  While one question is shown (the attempt count starts at 0),
    whatever answers arrive and whenever the retry timer fires, at most
    three attempts are counted; each of them is one recorded answer,
    correct or incorrect; the score grows by 100 for each correct one;
    and after the third attempt the scene is closed to further answers. *)
Theorem at_most_three_attempts (evs : list Event) (sc : Scene) :
  attemptCount sc = 0 ->
  exists sc',
    play evs sc = Some sc' /\
    0 <= attemptCount sc' <= 3 /\
    (attemptCount sc' = 3 ->
     forall r again, handleAnswer r again sc' = Some sc') /\
    totalAnswers (session sc') = totalAnswers (session sc) + attemptCount sc'
    /\
    score (session sc') - score (session sc)
    = 100 * (correctAnswers (session sc') - correctAnswers (session sc)) /\
    (correctAnswers (session sc') - correctAnswers (session sc))
    + (incorrectAnswers (session sc') - incorrectAnswers (session sc))
    = attemptCount sc'.
Proof.
  intros H0.
  assert (Hgen : forall evs sc,
    0 <= attemptCount sc <= 3 ->
    (attemptCount sc = 3 -> gameState sc <> WAITING_INPUT) ->
    exists sc',
      play evs sc = Some sc' /\
      0 <= attemptCount sc' <= 3 /\
      (attemptCount sc' = 3 -> gameState sc' <> WAITING_INPUT) /\
      totalAnswers (session sc') - attemptCount sc'
      = totalAnswers (session sc) - attemptCount sc /\
      score (session sc') - 100 * correctAnswers (session sc')
      = score (session sc) - 100 * correctAnswers (session sc) /\
      totalAnswers (session sc') - correctAnswers (session sc')
        - incorrectAnswers (session sc')
      = totalAnswers (session sc) - correctAnswers (session sc)
        - incorrectAnswers (session sc)).
  { clear. intros evs. induction evs as [|ev evs IH]; intros sc Hb Hc.
    - exists sc. cbn. repeat split; try assumption; lia.
    - destruct (step_attempts ev sc Hb Hc)
        as (sc1 & Hstep & Hb1 & Hc1 & Ht1 & Hs1 & Hk1).
      destruct (IH sc1 Hb1 Hc1) as (sc' & Hplay & Hb' & Hc' & Ht' & Hs' & Hk').
      exists sc'. cbn [play]. rewrite Hstep. cbn [mbind option_bind].
      split; [exact Hplay|]. split; [exact Hb'|]. split; [exact Hc'|].
      split; [lia|]. split; lia. }
  destruct (Hgen evs sc) as (sc' & Hplay & Hb & Hc & Ht & Hs & Hk);
    [lia|lia|].
  exists sc'. split; [exact Hplay|]. split; [exact Hb|]. split.
  - intros E r again. unfold handleAnswer.
    destruct (String.eqb_spec (gameState sc') WAITING_INPUT) as [Hw|_];
      [now apply Hc in Hw|reflexivity].
  - split; [lia|]. split; lia.
Qed.

Lemma at_most_three_attempts_witness :
  let q := MathEngine.mkQuestion "q" "equation" "addition" "5 + 7 = ?" 12
             false None (5, 7) "easy" in
  let sc := mkScene WAITING_INPUT 0
              (MathEngine.setCurrentQuestion q MathEngine.constructor)
              (constructor 0 "abc") InputManager.constructor "" in
  let evs := [Answer (1 # 2) "11"; Retry; Answer (1 # 2) "13"; Retry;
              Answer (1 # 2) "10"; Retry; Answer (1 # 2) "12"] in
  exists sc',
    play evs sc = Some sc' /\ attemptCount sc' = 3 /\
    score (session sc') = 0 /\ totalAnswers (session sc') = 3.
Proof.
  intros q sc evs.
  destruct (at_most_three_attempts evs sc eq_refl)
    as (sc' & Hplay & _ & _ & Ht & _).
  exists sc'. split; [exact Hplay|].
  assert (E : Some sc' = play evs sc) by (symmetry; exact Hplay).
  vm_compute in E. injection E as ->. repeat split.
Defined.

End SceneFacts.

(** ** The sanitizers and the fallback question *)

Section SanitizerFacts.
Import Js MathEngine ValidatorsMore.

Lemma keep_digits_of_cleaned (x : string) :
  keep isDigit (keep isDigitOrMinus x) = keep isDigit x.
Proof.
  rewrite keep_keep. apply keep_ext. intros c. unfold isDigitOrMinus.
  destruct (isDigit c); [reflexivity|]. now rewrite andb_false_r.
Qed.

(** X29.  Each sanitizer gives a text that it leaves as it is when
    applied again, and the sanitizer of [validators.js] gives the same
    text on the engine's output as on the raw string; that text is the
    digits of the string in their order, with at most a minus sign in
    front. *)
Theorem sanitizers_settle (x : string) :
  exists y,
    MathEngine.sanitizeInput (VString x) = Some y /\
    MathEngine.sanitizeInput (VString y) = Some y /\
    Validators.sanitizeInput (VString (Validators.sanitizeInput (VString x)))
    = Validators.sanitizeInput (VString x) /\
    Validators.sanitizeInput (VString y)
    = Validators.sanitizeInput (VString x) /\
    (Validators.sanitizeInput (VString x) = keep isDigit x \/
     Validators.sanitizeInput (VString x) = "-" +:+ keep isDigit x) /\
    keep isDigit y = keep isDigit x.
Proof.
  exists (keep isDigitOrMinus (trim x)).
  assert (Hy : keep isDigitOrMinus (trim x) = keep isDigitOrMinus x)
    by (apply keep_trim, space_not_digitOrMinus).
  split; [reflexivity|]. rewrite Hy. split; [|split; [|split; [|split]]].
  - cbn [MathEngine.sanitizeInput].
    rewrite trim_id, keep_all by apply allChars_keep. reflexivity.
  - apply validators_sanitize_idempotent.
  - rewrite !validators_sanitize_closed.
    rewrite (keep_all isDigitOrMinus (keep isDigitOrMinus x))
      by apply allChars_keep.
    now rewrite keep_digits_of_cleaned.
  - rewrite validators_sanitize_closed.
    destruct (indexOf "-" (keep isDigitOrMinus x) =? 0);
      [now right|left; apply append_empty_l].
  - apply keep_digits_of_cleaned.
Qed.

(** X30.  When the bank has no questions for the current difficulty,
    [getNextQuestion] returns an addition of two numbers from 1 to 10
    that passes [isValidQuestion]; it is labelled easy whatever the
    current difficulty is, and the engine's difficulty and list of recent
    questions stay as they were. *)
Theorem fallback_question_shape (now : Z) (rt ra rb : Q) (e : Engine) :
  currentPool e = None -> unitRandom ra -> unitRandom rb ->
  exists q e',
    getNextQuestion now rt ra rb e = Some (q, e') /\
    q_type q = "equation" /\ q_operation q = "addition" /\
    1 <= fst (q_values q) <= 10 /\ 1 <= snd (q_values q) <= 10 /\
    q_answer q = fst (q_values q) + snd (q_values q) /\
    q_questionText q
    = toString (fst (q_values q)) +:+ " + " +:+ toString (snd (q_values q))
      +:+ " = ?" /\
    q_difficulty q = "easy" /\
    isValidQuestion q = true /\
    currentDifficulty e' = currentDifficulty e /\
    recentQuestions e' = recentQuestions e.
Proof.
  intros Hp Ha Hb.
  destruct (getNextQuestion_fallback now rt ra rb e Hp) as [Hn _].
  destruct (ensureBank_fields e) as (Hd & Hr & _).
  exists (generateFallbackQuestion now ra rb), (ensureBank e).
  split; [exact Hn|]. unfold generateFallbackQuestion.
  cbn [q_type q_operation q_values q_answer q_questionText q_difficulty
       fst snd].
  pose proof (randomInt_range 1 10 ra Ha ltac:(lia)).
  pose proof (randomInt_range 1 10 rb Hb ltac:(lia)).
  repeat (split; [first [reflexivity|assumption|lia]|]).
  exact Hr.
Qed.

Lemma fallback_question_shape_witness :
  let e := mkEngine (Some ∅) "hard" ["a"] 3 None in
  exists q e',
    getNextQuestion 7 (1 # 2) (1 # 2) (9 # 10) e = Some (q, e') /\
    q_difficulty q = "easy" /\ currentDifficulty e' = "hard".
Proof.
  intros e.
  destruct (fallback_question_shape 7 (1 # 2) (1 # 2) (9 # 10) e)
    as (q & e' & Hn & _ & _ & _ & _ & _ & _ & Hd & _ & Hc & _);
    [reflexivity|split; [discriminate|reflexivity]..|].
  exists q, e'. split; [exact Hn|]. split; [exact Hd|exact Hc].
Defined.

End SanitizerFacts.
